(** * capture_linux_wifi: channel grammar, channel control, monitor-vif
      naming, source UUID and the packet dispatch loop

    A shallow embedding of [capture_linux_wifi.c].  Strings are Rocq
    [string]s, C [unsigned int] values are integers in [0, 2^32) held in
    [Z], calls into the capture framework and into the wireless drivers are
    recorded as a trace of events, and everything the kernel answers is an
    oracle passed to the function that asks.  The debug lines written to
    [stderr] are left out. *)

From Stdlib Require Import ZArith List String Ascii Bool Lia.
Import ListNotations.
Local Open Scope string_scope.
Local Open Scope Z_scope.

(** ** C integers *)

Definition u32 (x : Z) : Z := x mod 2 ^ 32.

(** ** Characters *)

Module Ctype.

Definition isdigit (c : ascii) : bool :=
  let n := nat_of_ascii c in (48 <=? n)%nat && (n <=? 57)%nat.

(** The six white-space characters of the C locale. *)
Definition isspace (c : ascii) : bool :=
  let n := nat_of_ascii c in (n =? 32)%nat || ((9 <=? n)%nat && (n <=? 13)%nat).

Definition tolower (c : ascii) : ascii :=
  let n := nat_of_ascii c in
  if (65 <=? n)%nat && (n <=? 90)%nat then ascii_of_nat (n + 32) else c.

Definition digit_val (c : ascii) : Z := Z.of_nat (nat_of_ascii c) - 48.

Fixpoint lower (s : string) : string :=
  match s with
  | EmptyString => EmptyString
  | String c t => String (tolower c) (lower t)
  end.

(** [strcasecmp a b == 0]. *)
Definition strcasecmp_eq (a b : string) : bool := String.eqb (lower a) (lower b).

End Ctype.

(** ** printf conversions *)

Module Fmt.

Definition digit_char (d : Z) : ascii := ascii_of_nat (Z.to_nat (48 + d)).

(** Decimal digits of [n], most significant first, pushed in front of
    [acc]; an [unsigned int] has at most ten of them. *)
Fixpoint dec_fuel (fuel : nat) (n : Z) (acc : string) : string :=
  match fuel with
  | O => acc
  | S f =>
      let acc' := String (digit_char (n mod 10)) acc in
      if n <? 10 then acc' else dec_fuel f (n / 10) acc'
  end.

(** [%u] of a 32-bit value. *)
Definition u (n : Z) : string := dec_fuel 10 n EmptyString.

(** [%d] of a 32-bit value. *)
Definition d (n : Z) : string := if n <? 0 then "-" ++ u (- n) else u n.

Definition hex_char (v : Z) : ascii :=
  if v <? 10 then ascii_of_nat (Z.to_nat (48 + v)) else ascii_of_nat (Z.to_nat (55 + v)).

Fixpoint hex_fuel (fuel : nat) (n : Z) (acc : string) : string :=
  match fuel with
  | O => acc
  | S f =>
      let acc' := String (hex_char (n mod 16)) acc in
      if n <? 16 then acc' else hex_fuel f (n / 16) acc'
  end.

Fixpoint zeros (k : nat) : string :=
  match k with
  | O => EmptyString
  | S k' => String "0" (zeros k')
  end.

(** [%0wX] of a 32-bit value: upper-case hexadecimal, padded on the left
    with zeros to at least [w] characters. *)
Definition X0 (w : nat) (n : Z) : string :=
  let body := hex_fuel 8 n EmptyString in
  zeros (w - String.length body) ++ body.

(** What [snprintf(buf, size, ...)] leaves in [buf] when the formatted
    text is [s]: at most [size - 1] characters of it. *)
Definition snprintf (size : nat) (s : string) : string := substring 0 (size - 1) s.

End Fmt.

(** ** scanf directives *)

Module Scan.

Inductive scanned (A : Type) : Type :=
| Got (v : A) (rest : string)
| NoMatch
| NoInput.
Arguments Got {A} v rest.
Arguments NoMatch {A}.
Arguments NoInput {A}.

Fixpoint skip_space (s : string) : string :=
  match s with
  | String c t => if Ctype.isspace c then skip_space t else s
  | EmptyString => s
  end.

Fixpoint read_digits (acc : Z) (s : string) : Z * string :=
  match s with
  | String c t =>
      if Ctype.isdigit c then read_digits (10 * acc + Ctype.digit_val c) t
      else (acc, s)
  | EmptyString => (acc, s)
  end.

(** The digits are converted as [strtoul] converts them, to an
    [unsigned long] of 64 bits: a magnitude that does not fit gives the
    largest value, with or without sign, and a sign negates what fits. *)
Definition strtoul (neg : bool) (v : Z) : Z :=
  if 2 ^ 64 <=? v then 2 ^ 64 - 1 else (if neg then - v else v) mod 2 ^ 64.

Definition digits_then (neg : bool) (s : string) : scanned Z :=
  match s with
  | String c _ =>
      if Ctype.isdigit c then
        let '(v, rest) := read_digits 0 s in
        Got (u32 (strtoul neg v)) rest
      else NoMatch
  | EmptyString => NoMatch
  end.

(** [%u]: white space is skipped, one sign is accepted, then at least one
    decimal digit.  The [unsigned long] converted is stored in an
    [unsigned int], which keeps its low 32 bits. *)
Definition conv_u (s : string) : scanned Z :=
  match skip_space s with
  | EmptyString => NoInput
  | String c t =>
      if (c =? "-")%char then digits_then true t
      else if (c =? "+")%char then digits_then false t
      else digits_then false (String c t)
  end.

(** [%c]: the next character, whatever it is. *)
Definition conv_c (s : string) : scanned ascii :=
  match s with
  | String c t => Got c t
  | EmptyString => NoInput
  end.

Fixpoint span_not_dash (w : nat) (s : string) : string * string :=
  match w, s with
  | S w', String c t =>
      if (c =? "-")%char then (EmptyString, s)
      else let '(a, b) := span_not_dash w' t in (String c a, b)
  | _, _ => (EmptyString, s)
  end.

(** [%15[^-]]: between one and fifteen characters other than the dash. *)
Definition conv_set15 (s : string) : scanned string :=
  match s with
  | EmptyString => NoInput
  | String c _ =>
      if (c =? "-")%char then NoMatch
      else let '(a, b) := span_not_dash 15 s in Got a b
  end.

(** Ordinary characters of a format: each must be the next input
    character. *)
Fixpoint literal (lit s : string) : option string :=
  match lit with
  | EmptyString => Some s
  | String c lit' =>
      match s with
      | String c' s' => if (c =? c')%char then literal lit' s' else None
      | EmptyString => None
      end
  end.

End Scan.

(** ** What the missing headers declare

    [wifi_ht_channels.h], [capture_framework.h] and
    [linux_wireless_control.h] are included by the program but are not among
    the sources at hand.  The table of HT/VHT channels, its declared bound,
    the flag bits, the size of a status buffer, the monitor mode number and
    the two framework helpers used during open are therefore parameters. *)

Record wifi_channel : Type := {
  chan : Z;
  freq : Z;
  flags : Z;
  freq80 : Z;
  freq160 : Z
}.

Class headers : Type := {
  wifi_ht_channels : list wifi_channel;
  MAX_WIFI_HT_CHANNEL : nat;
  WIFI_HT_HT40MINUS : Z;
  WIFI_HT_HT40PLUS : Z;
  WIFI_HT_HT80 : Z;
  WIFI_HT_HT160 : Z;
  STATUS_MAX : nat;
  LINUX_WLEXT_MONITOR : Z;
  cf_find_flag : string -> string -> option string;
  adler32_csum : string -> Z -> Z
}.

(** Values of the kernel's [enum nl80211_channel_type] and
    [enum nl80211_chan_width], and of [IFNAMSIZ] in [<net/if.h>]. *)
Definition NL80211_CHAN_HT40MINUS : Z := 2.
Definition NL80211_CHAN_HT40PLUS : Z := 3.
Definition NL80211_CHAN_WIDTH_80 : Z := 3.
Definition NL80211_CHAN_WIDTH_160 : Z := 5.
Definition NL80211_CHAN_WIDTH_5 : Z := 6.
Definition NL80211_CHAN_WIDTH_10 : Z := 7.
Definition IFNAMSIZ : nat := 16.

(** ** State and channel records *)

Record local_wifi_t : Type := {
  pd : Z;
  interface : string;
  cap_interface : option string;
  datalink_type : Z;
  override_dlt : Z;
  use_mac80211 : Z;
  mac80211_handle : Z;
  mac80211_cache : Z;
  mac80211_family : Z;
  seq_channel_failure : Z;
  reset_nm_management : Z
}.

Definition set_seq_channel_failure (w : local_wifi_t) (v : Z) : local_wifi_t :=
  {| pd := pd w; interface := interface w; cap_interface := cap_interface w;
     datalink_type := datalink_type w; override_dlt := override_dlt w;
     use_mac80211 := use_mac80211 w; mac80211_handle := mac80211_handle w;
     mac80211_cache := mac80211_cache w; mac80211_family := mac80211_family w;
     seq_channel_failure := v; reset_nm_management := reset_nm_management w |}.

Definition set_cap_interface (w : local_wifi_t) (name : string) : local_wifi_t :=
  {| pd := pd w; interface := interface w; cap_interface := Some name;
     datalink_type := datalink_type w; override_dlt := override_dlt w;
     use_mac80211 := use_mac80211 w; mac80211_handle := mac80211_handle w;
     mac80211_cache := mac80211_cache w; mac80211_family := mac80211_family w;
     seq_channel_failure := seq_channel_failure w;
     reset_nm_management := reset_nm_management w |}.

(** The state [main] starts from; a null pointer is 0 or [None]. *)
Definition main_local_wifi : local_wifi_t :=
  {| pd := 0; interface := EmptyString; cap_interface := None;
     datalink_type := -1; override_dlt := -1; use_mac80211 := 1;
     mac80211_handle := 0; mac80211_cache := 0; mac80211_family := 0;
     seq_channel_failure := 0; reset_nm_management := 0 |}.

Record local_channel_t : Type := {
  control_freq : Z;
  chan_type : Z;
  chan_width : Z;
  unusual_center1 : Z;
  center_freq1 : Z;
  center_freq2 : Z
}.

(** A freshly allocated, zeroed channel with its control frequency set. *)
Definition zeroed_channel (f : Z) : local_channel_t :=
  {| control_freq := f; chan_type := 0; chan_width := 0;
     unusual_center1 := 0; center_freq1 := 0; center_freq2 := 0 |}.

Definition with_chan_type (c : local_channel_t) (t : Z) : local_channel_t :=
  {| control_freq := control_freq c; chan_type := t; chan_width := chan_width c;
     unusual_center1 := unusual_center1 c; center_freq1 := center_freq1 c;
     center_freq2 := center_freq2 c |}.

Definition with_chan_width (c : local_channel_t) (w : Z) : local_channel_t :=
  {| control_freq := control_freq c; chan_type := chan_type c; chan_width := w;
     unusual_center1 := unusual_center1 c; center_freq1 := center_freq1 c;
     center_freq2 := center_freq2 c |}.

Definition with_center (c : local_channel_t) (ctl c1 unusual : Z) : local_channel_t :=
  {| control_freq := ctl; chan_type := chan_type c; chan_width := chan_width c;
     unusual_center1 := unusual; center_freq1 := c1;
     center_freq2 := center_freq2 c |}.

(** ** Calls that leave the program *)

Inductive msgflag : Type := MSGFLAG_INFO | MSGFLAG_ERROR.

Inductive event : Type :=
| cf_send_message (msg : string) (flag : msgflag)
| cf_send_error (msg : string)
| cf_send_configresp_channel (seqno : Z) (success : Z) (chanstr : string)
| cf_send_data (dlt : Z) (caplen : Z) (data : list Z)
| cf_handler_wait_ringbuffer
| cf_handler_spindown
| pcap_breakloop
| iwconfig_set_channel (ifname : string) (ch : Z)
| mac80211_set_frequency_cache (ifname : option string)
    (control_freq chan_width center_freq1 center_freq2 : Z)
| mac80211_set_channel_cache (ifname : option string) (control_freq chan_type : Z).

(** A driver answers a channel request with a return value and an error
    text. *)
Definition driver : Type := event -> Z * string.

(** What the kernel answers during open. *)
Record kernel : Type := {
  getifaddrs : option (list string);
  ifconfig_get_hwaddr : string -> option (list Z);
  iwconfig_get_mode : string -> option Z;
  if_nametoindex : string -> Z;
  if_indextoname : Z -> option string
}.

(** ** The channel grammar *)

Section Grammar.

Context {hdr : headers}.

(** [sscanf(chanstr, "%uHT40%c", &parsechan, &mod)]: the count returned
    (-1 for EOF) and the two variables, 0 where nothing was stored. *)
Definition sscanf_u_HT40_c (chanstr : string) : Z * Z * ascii :=
  match Scan.conv_u chanstr with
  | Scan.NoInput => (-1, 0, zero)
  | Scan.NoMatch => (0, 0, zero)
  | Scan.Got parsechan rest =>
      match Scan.literal "HT40" rest with
      | None => (1, parsechan, zero)
      | Some rest' =>
          match Scan.conv_c rest' with
          | Scan.Got c _ => (2, parsechan, c)
          | _ => (1, parsechan, zero)
          end
      end
  end.

(** [sscanf(chanstr, "%u%15[^-]-%u", &parsechan, parsetype, &parse_center1)]. *)
Definition sscanf_u_set_u (chanstr : string) : Z * Z * string * Z :=
  match Scan.conv_u chanstr with
  | Scan.NoInput => (-1, 0, EmptyString, 0)
  | Scan.NoMatch => (0, 0, EmptyString, 0)
  | Scan.Got parsechan rest =>
      match Scan.conv_set15 rest with
      | Scan.Got parsetype rest' =>
          match Scan.literal "-" rest' with
          | Some rest'' =>
              match Scan.conv_u rest'' with
              | Scan.Got c _ => (3, parsechan, parsetype, c)
              | _ => (2, parsechan, parsetype, 0)
              end
          | None => (2, parsechan, parsetype, 0)
          end
      | _ => (1, parsechan, EmptyString, 0)
      end
  end.

(** [wifi_ht_channels[ci].chan == parsechan || wifi_ht_channels[ci].freq
    == parsechan], the table fields converted to [unsigned int] as the
    comparison with [parsechan] does. *)
Definition table_match (e : wifi_channel) (parsechan : Z) : bool :=
  (u32 (chan e) =? parsechan) || (u32 (freq e) =? parsechan).

Definition lacks (e : wifi_channel) (flag : Z) : bool := Z.land (flags e) flag =? 0.

Definition ht40_text (sign : string) (parsechan : Z) : string :=
  Fmt.snprintf STATUS_MAX
    ("requested channel " ++ Fmt.u parsechan ++ " as a HT40" ++ sign ++
     " channel; this does not appear to be a valid channel for 40MHz operation.").

Definition vht_text (mhz : string) (parsechan : Z) : string :=
  Fmt.snprintf STATUS_MAX
    ("requested channel " ++ Fmt.u parsechan ++ " as a VHT" ++ mhz ++
     " channel; this does not appear to be a valid channel for " ++ mhz ++
     "MHz operation, skipping channel").

Definition attributes_text (chanstr : string) : string :=
  Fmt.snprintf STATUS_MAX
    ("unable to parse attributes on channel '" ++ chanstr ++
     "', treating as standard non-HT channel.").

Definition no_channel_text (chanstr : string) : string :=
  Fmt.snprintf STATUS_MAX
    ("unable to parse any channel information from channel string '" ++
     chanstr ++ "'").

(** The loop over the table of the two HT40 branches: one informational
    message for every record of the channel that lacks the flag. *)
Fixpoint ht40_search (flag : Z) (sign : string) (tbl : list wifi_channel)
    (parsechan : Z) : list event :=
  match tbl with
  | [] => []
  | e :: tl =>
      (if table_match e parsechan && lacks e flag
       then [cf_send_message (ht40_text sign parsechan) MSGFLAG_INFO]
       else []) ++ ht40_search flag sign tl parsechan
  end.

(** The loop over the table of the two VHT branches: the first record of
    the channel that lacks the flag frees the channel and returns NULL;
    every other record of the channel overwrites the control and centre
    frequencies. *)
Fixpoint vht_search (flag : Z) (center : wifi_channel -> Z) (mhz : string)
    (tbl : list wifi_channel) (parsechan : Z) (ret : local_channel_t)
    : option local_channel_t * list event :=
  match tbl with
  | [] => (Some ret, [])
  | e :: tl =>
      if table_match e parsechan then
        if lacks e flag
        then (None, [cf_send_message (vht_text mhz parsechan) MSGFLAG_ERROR])
        else vht_search flag center mhz tl parsechan
               (with_center ret (u32 (freq e)) (u32 (center e)) (unusual_center1 ret))
      else vht_search flag center mhz tl parsechan ret
  end.

(** The HT40- loop runs [ci] below [MAX_WIFI_HT_CHANNEL], the other loops
    below the number of records of the table.  The declaration of the
    table gives it at least [MAX_WIFI_HT_CHANNEL] records. *)
Definition chantranslate_callback (chanstr : string)
    : option local_channel_t * list event :=
  let '(r, parsechan, mod_) := sscanf_u_HT40_c chanstr in
  if r =? 2 then
    let ret_localchan := zeroed_channel parsechan in
    if (mod_ =? "-")%char then
      (Some (with_chan_type ret_localchan NL80211_CHAN_HT40MINUS),
       ht40_search WIFI_HT_HT40MINUS "-"
         (firstn MAX_WIFI_HT_CHANNEL wifi_ht_channels) parsechan)
    else if (mod_ =? "+")%char then
      (Some (with_chan_type ret_localchan NL80211_CHAN_HT40PLUS),
       ht40_search WIFI_HT_HT40PLUS "+" wifi_ht_channels parsechan)
    else
      (Some ret_localchan,
       [cf_send_message (attributes_text chanstr) MSGFLAG_INFO])
  else
    let '(r, parsechan, parsetype, parse_center1) := sscanf_u_set_u chanstr in
    if r <=? 0 then
      (None, [cf_send_message (no_channel_text chanstr) MSGFLAG_ERROR])
    else
      let ret_localchan := zeroed_channel parsechan in
      if r =? 1 then (Some ret_localchan, [])
      else if Ctype.strcasecmp_eq parsetype "w5" then
        (Some (with_chan_width ret_localchan NL80211_CHAN_WIDTH_5), [])
      else if Ctype.strcasecmp_eq parsetype "w10" then
        (Some (with_chan_width ret_localchan NL80211_CHAN_WIDTH_10), [])
      else if Ctype.strcasecmp_eq parsetype "vht80" then
        let ret_localchan := with_chan_width ret_localchan NL80211_CHAN_WIDTH_80 in
        if r =? 3 then
          (Some (with_center ret_localchan (control_freq ret_localchan) parse_center1 1), [])
        else vht_search WIFI_HT_HT80 freq80 "80" wifi_ht_channels parsechan ret_localchan
      else if Ctype.strcasecmp_eq parsetype "vht160" then
        let ret_localchan := with_chan_width ret_localchan NL80211_CHAN_WIDTH_160 in
        if r =? 3 then
          (Some (with_center ret_localchan (control_freq ret_localchan) parse_center1 1), [])
        else vht_search WIFI_HT_HT160 freq160 "160" wifi_ht_channels parsechan ret_localchan
      else
        (Some ret_localchan,
         [cf_send_message (attributes_text chanstr) MSGFLAG_INFO]).

Definition local_channel_to_str (chan : local_channel_t) : string :=
  let f := Fmt.u (control_freq chan) in
  if (chan_type chan =? 0) && (chan_width chan =? 0) then
    Fmt.snprintf STATUS_MAX f
  else if chan_type chan =? NL80211_CHAN_HT40MINUS then
    Fmt.snprintf STATUS_MAX (f ++ "HT40-")
  else if chan_type chan =? NL80211_CHAN_HT40PLUS then
    Fmt.snprintf STATUS_MAX (f ++ "HT40+")
  else if chan_width chan =? NL80211_CHAN_WIDTH_5 then
    Fmt.snprintf STATUS_MAX (f ++ "W5")
  else if chan_width chan =? NL80211_CHAN_WIDTH_10 then
    Fmt.snprintf STATUS_MAX (f ++ "W10")
  else if chan_width chan =? NL80211_CHAN_WIDTH_80 then
    if negb (unusual_center1 chan =? 0) then
      Fmt.snprintf STATUS_MAX (f ++ "VHT80-" ++ Fmt.u (center_freq1 chan))
    else Fmt.snprintf STATUS_MAX (f ++ "VHT80")
  else if chan_width chan =? NL80211_CHAN_WIDTH_160 then
    if negb (unusual_center1 chan =? 0) then
      Fmt.snprintf STATUS_MAX (f ++ "VHT160-" ++ Fmt.u (center_freq1 chan))
    else Fmt.snprintf STATUS_MAX (f ++ "VHT160")
  else Fmt.snprintf STATUS_MAX f.

End Grammar.

(** ** The channel controller *)

Section Control.

Context {hdr : headers}.

Definition ignoring_text (chanstr errstr : string) : string :=
  Fmt.snprintf STATUS_MAX
    ("Could not set channel " ++ chanstr ++
     "; ignoring error and continuing (" ++ errstr ++ ")").

Definition failed_text (chanstr errstr : string) : string :=
  Fmt.snprintf STATUS_MAX ("failed to set channel " ++ chanstr ++ ": " ++ errstr).

(** What both back ends do once the driver has refused the channel. *)
Definition set_failed (local_wifi : local_wifi_t) (seqno : Z)
    (channel : local_channel_t) (errstr : string)
    : Z * local_wifi_t * option string * list event :=
  if (seq_channel_failure local_wifi <? 10) && (seqno =? 0) then
    let msg := ignoring_text (local_channel_to_str channel) errstr in
    (0, local_wifi, Some msg, [cf_send_message msg MSGFLAG_ERROR])
  else
    let msg := failed_text (local_channel_to_str channel) errstr in
    (-1, local_wifi, Some msg, if seqno =? 0 then [cf_send_error msg] else []).

(** The value returned, the state afterwards, [msg] if it was written, and
    the calls made, the oldest first. *)
Definition chancontrol_callback (drv : driver) (local_wifi : local_wifi_t)
    (seqno : Z) (privchan : option local_channel_t)
    : Z * local_wifi_t * option string * list event :=
  match privchan with
  | None => (0, local_wifi, None, [])
  | Some channel =>
      if use_mac80211 local_wifi =? 0 then
        let call := iwconfig_set_channel (interface local_wifi) (control_freq channel) in
        let '(r, errstr) := drv call in
        if r <? 0 then
          let '(ret, w, msg, evs) := set_failed local_wifi seqno channel errstr in
          (ret, w, msg, call :: evs)
        else
          (0, set_seq_channel_failure local_wifi 0, None,
           call ::
           (if negb (seqno =? 0)
            then [cf_send_configresp_channel seqno 1 (local_channel_to_str channel)]
            else []))
      else
        let call :=
          if negb (chan_width channel =? 0) then
            mac80211_set_frequency_cache (cap_interface local_wifi)
              (control_freq channel) (chan_width channel)
              (center_freq1 channel) (center_freq2 channel)
          else
            mac80211_set_channel_cache (cap_interface local_wifi)
              (control_freq channel) (chan_type channel) in
        let '(r, errstr) := drv call in
        if r <? 0 then
          let '(ret, w, msg, evs) := set_failed local_wifi seqno channel errstr in
          (ret, w, msg, call :: evs)
        else (0, set_seq_channel_failure local_wifi 0, None, [call])
  end.

(** The hop timer calling the controller once per tick, with sequence
    number 0, each tick with the driver's answer of that moment. *)
Fixpoint hop_ticks (drvs : list driver) (local_wifi : local_wifi_t)
    (channel : local_channel_t) : list Z * local_wifi_t :=
  match drvs with
  | [] => ([], local_wifi)
  | drv :: rest =>
      let '(ret, w, _, _) := chancontrol_callback drv local_wifi 0 (Some channel) in
      let '(rets, w') := hop_ticks rest w channel in
      (ret :: rets, w')
  end.

Definition is_driver_call (e : event) : bool :=
  match e with
  | iwconfig_set_channel _ _ => true
  | mac80211_set_frequency_cache _ _ _ _ _ => true
  | mac80211_set_channel_cache _ _ _ => true
  | _ => false
  end.

Definition is_configresp (e : event) : bool :=
  match e with
  | cf_send_configresp_channel _ _ _ => true
  | _ => false
  end.

End Control.

(** ** The capture loop *)

Record pcap_pkthdr : Type := { ts : Z; caplen : Z }.

(** [pcap_dispatch_cb] for one packet.  [sends] lists what the successive
    calls of [cf_send_data] return; the result is the trace of calls and
    whether the callback has returned ([true]) or is still inside its
    [while (1)] when the answers run out ([false]). *)
Fixpoint pcap_dispatch_cb (local_wifi : local_wifi_t) (header : pcap_pkthdr)
    (data : list Z) (sends : list Z) : list event * bool :=
  match sends with
  | [] => ([], false)
  | ret :: later =>
      let send := cf_send_data (datalink_type local_wifi) (caplen header) data in
      if ret <? 0 then
        let '(evs, done) := pcap_dispatch_cb local_wifi header data later in
        (send :: pcap_breakloop :: cf_send_error "unable to send DATA frame"
           :: cf_handler_spindown :: evs, done)
      else if ret =? 0 then
        let '(evs, done) := pcap_dispatch_cb local_wifi header data later in
        (send :: cf_handler_wait_ringbuffer :: evs, done)
      else ([send], true)
  end.

Definition is_send_data (e : event) : bool :=
  match e with
  | cf_send_data _ _ _ => true
  | _ => false
  end.

(** The calls made after the first [cf_handler_spindown], if there is one. *)
Fixpoint after_spindown (evs : list event) : list event :=
  match evs with
  | [] => []
  | cf_handler_spindown :: rest => rest
  | _ :: rest => after_spindown rest
  end.

(** ** Opening: the monitor interface name and the UUID *)

Section Open.

Context {hdr : headers}.

Fixpoint mac_eqb (a b : list Z) : bool :=
  match a, b with
  | [], [] => true
  | x :: a', y :: b' => (x =? y) && mac_eqb a' b'
  | _, _ => false
  end.

Fixpoint find_interface_mode_by_mac_loop (k : kernel) (ifa : list string)
    (ignored_ifname : option string) (wlmode : Z) (mac : list Z) : Z :=
  match ifa with
  | [] => -1
  | ifa_name :: next =>
      let continue := find_interface_mode_by_mac_loop k next ignored_ifname wlmode mac in
      if match ignored_ifname with
         | Some ign => String.eqb ifa_name ign
         | None => false
         end then continue
      else
        match ifconfig_get_hwaddr k ifa_name with
        | None => continue
        | Some dmac =>
            if mac_eqb (firstn 6 dmac) (firstn 6 mac) then
              match iwconfig_get_mode k ifa_name with
              | Some mode =>
                  if mode =? wlmode then if_nametoindex k ifa_name else continue
              | None => continue
              end
            else continue
        end
  end.

Definition find_interface_mode_by_mac (k : kernel) (ignored_ifname : option string)
    (wlmode : Z) (mac : list Z) : Z :=
  match getifaddrs k with
  | None => -1
  | Some ifaddr => find_interface_mode_by_mac_loop k ifaddr ignored_ifname wlmode mac
  end.

(** The loop of [find_next_ifnum] from [i] on, with [n] rounds left. *)
Fixpoint find_next_ifnum_loop (k : kernel) (basename : string) (n : nat) (i : Z) : Z :=
  match n with
  | O => -1
  | S n' =>
      if if_nametoindex k (Fmt.snprintf IFNAMSIZ (basename ++ Fmt.d i)) =? 0 then i
      else find_next_ifnum_loop k basename n' (i + 1)
  end.

Definition find_next_ifnum (k : kernel) (basename : string) : Z :=
  find_next_ifnum_loop k basename 100 0.

Definition no_kismon_text (ifname : string) : string :=
  Fmt.snprintf STATUS_MAX
    ("Could not append 'mon' extension to existing interface (" ++ ifname ++
     ") and could not find a kismonX within 100 tries").

Definition false_vif_text (ifname ifnam : string) : string :=
  Fmt.snprintf STATUS_MAX
    ("A monitor vif already exists for interface '" ++ ifname ++ "' (" ++ ifnam ++
     ") but isn't in monitor mode, check that NetworkManager isn't hijacking " ++
     "the interface, delete the false monitor vif, and try again.").

(** The part of [open_callback] that settles [cap_interface], entered
    with the wireless [mode] of the interface: [inl msg] where it returns
    -1, the updated state where it goes on. *)
Definition open_cap_interface (k : kernel) (local_wifi : local_wifi_t)
    (definition : string) (hwaddr : list Z) (mode : Z) : string + local_wifi_t :=
  let set := set_cap_interface in
  if negb (mode =? LINUX_WLEXT_MONITOR) then
    let local_wifi :=
      match cf_find_flag "vif" definition with
      | Some vif => set local_wifi vif
      | None =>
          let existing_ifnum :=
            find_interface_mode_by_mac k (Some (interface local_wifi))
              LINUX_WLEXT_MONITOR hwaddr in
          if existing_ifnum >=? 0 then
            match if_indextoname k existing_ifnum with
            | Some ifnam => set local_wifi ifnam
            | None => local_wifi
            end
          else local_wifi
      end in
    match cap_interface local_wifi with
    | Some _ => inr local_wifi
    | None =>
        if (IFNAMSIZ <=? String.length (interface local_wifi) + 3)%nat then
          let ifnum := find_next_ifnum k "kismon" in
          if ifnum <? 0 then inl (no_kismon_text (interface local_wifi))
          else inr (set local_wifi (Fmt.snprintf IFNAMSIZ ("kismon" ++ Fmt.d ifnum)))
        else
          let ifnam := Fmt.snprintf IFNAMSIZ (interface local_wifi ++ "mon") in
          match iwconfig_get_mode k ifnam with
          | Some mode' =>
              if negb (mode' =? LINUX_WLEXT_MONITOR)
              then inl (false_vif_text (interface local_wifi) ifnam)
              else inr (set local_wifi ifnam)
          | None => inr (set local_wifi ifnam)
          end
    end
  else inr (set local_wifi (interface local_wifi)).

(** The text [open_callback] duplicates into [*uuid]. *)
Definition open_uuid (hwaddr : list Z) : string :=
  let byte (i : nat) := Fmt.X0 2 (Z.land (nth i hwaddr 0) 255) in
  Fmt.snprintf STATUS_MAX
    (Fmt.X0 8 (Z.land (adler32_csum "kismet_cap_linux_wifi" 21) 4294967295) ++
     "-0000-0000-0000-" ++
     byte 0%nat ++ byte 1%nat ++ byte 2%nat ++ byte 3%nat ++ byte 4%nat ++ byte 5%nat).

End Open.

(** ** A small instance for the examples

    Three records in the shape of the 5 GHz part of the table, the bits 1,
    2, 4 and 8 for the four flags, and the textbook Adler-32 for the
    checksum. *)

Fixpoint adler32_loop (s : string) (a b : Z) : Z :=
  match s with
  | EmptyString => b * 65536 + a
  | String c t =>
      let a' := (a + Z.of_nat (nat_of_ascii c)) mod 65521 in
      adler32_loop t a' ((b + a') mod 65521)
  end.

Definition sample_headers : headers := {|
  wifi_ht_channels :=
    [ {| chan := 36; freq := 5180; flags := 2 + 4 + 8; freq80 := 5210; freq160 := 5250 |};
      {| chan := 40; freq := 5200; flags := 1 + 4 + 8; freq80 := 5210; freq160 := 5250 |};
      {| chan := 165; freq := 5825; flags := 0; freq80 := 0; freq160 := 0 |} ];
  MAX_WIFI_HT_CHANNEL := 3;
  WIFI_HT_HT40MINUS := 1;
  WIFI_HT_HT40PLUS := 2;
  WIFI_HT_HT80 := 4;
  WIFI_HT_HT160 := 8;
  STATUS_MAX := 1024;
  LINUX_WLEXT_MONITOR := 6;
  cf_find_flag := fun _ _ => None;
  adler32_csum := fun s _ => adler32_loop s 1 0
|}.

(** ** Vocabulary of the statements *)

(** A string that does not go on with a digit. *)
Definition stops_number (rest : string) : Prop :=
  match rest with
  | EmptyString => True
  | String c _ => Ctype.isdigit c = false
  end.

Fixpoint no_dash (s : string) : bool :=
  match s with
  | EmptyString => true
  | String c t => negb (c =? "-")%char && no_dash t
  end.

(** What [%15[^-]] takes from the text after the number. *)
Definition suffix_type (sfx : string) : string := fst (Scan.span_not_dash 15 sfx).

Definition recognised_type (ty : string) : bool :=
  existsb (Ctype.strcasecmp_eq ty) ["w5"; "w10"; "vht80"; "vht160"].

(** The records of the table that a channel number or frequency selects. *)
Definition records_of {hdr : headers} (n : Z) : list wifi_channel :=
  filter (fun e => table_match e n) wifi_ht_channels.

(** Looking a VHT-capable record up again by its own frequency finds only
    records with that capability, frequency and centre. *)
Definition coherent (flag : Z) (center : wifi_channel -> Z) (tbl : list wifi_channel) : Prop :=
  forall e e', In e tbl -> In e' tbl ->
    lacks e flag = false -> table_match e' (u32 (freq e)) = true ->
    lacks e' flag = false /\ u32 (freq e') = u32 (freq e) /\
    u32 (center e') = u32 (center e).

Definition is_info (e : event) : Prop :=
  exists msg, e = cf_send_message msg MSGFLAG_INFO.

(** The two VHT widths of the grammar: the suffix in lower case, the width
    stored, the flag demanded of the table and the centre taken from it. *)
Inductive vht : Type := VHT80 | VHT160.

Definition vht_name (v : vht) : string :=
  match v with VHT80 => "vht80" | VHT160 => "vht160" end.

Definition vht_width (v : vht) : Z :=
  match v with VHT80 => NL80211_CHAN_WIDTH_80 | VHT160 => NL80211_CHAN_WIDTH_160 end.

Definition vht_flag {hdr : headers} (v : vht) : Z :=
  match v with VHT80 => WIFI_HT_HT80 | VHT160 => WIFI_HT_HT160 end.

Definition vht_center (v : vht) : wifi_channel -> Z :=
  match v with VHT80 => freq80 | VHT160 => freq160 end.

Definition vht_mhz (v : vht) : string :=
  match v with VHT80 => "80" | VHT160 => "160" end.

(** A driver that refuses every request, one that accepts every request,
    and a state as open leaves it on a netlink card, for the examples. *)
Definition refusing : driver := fun _ => (-1, "Device or resource busy").
Definition accepting : driver := fun _ => (0, EmptyString).

Definition opened_wifi (netlink failures : Z) : local_wifi_t :=
  {| pd := 1; interface := "wlan0"; cap_interface := Some "wlan0mon";
     datalink_type := 127; override_dlt := -1; use_mac80211 := netlink;
     mac80211_handle := 1; mac80211_cache := 1; mac80211_family := 1;
     seq_channel_failure := failures; reset_nm_management := 0 |}.

(** The hexadecimal digits of [x] in [k] places, most significant first. *)
Fixpoint nibbles (k : nat) (x : Z) : string :=
  match k with
  | O => EmptyString
  | S k' => String (Fmt.hex_char (x / 16 ^ Z.of_nat k' mod 16)) (nibbles k' x)
  end.

Fixpoint all_chars (p : ascii -> bool) (s : string) : bool :=
  match s with
  | EmptyString => true
  | String c t => p c && all_chars p t
  end.

Definition upper_hex (c : ascii) : bool :=
  existsb (Ascii.eqb c)
    (list_ascii_of_string "0123456789ABCDEF").

(** A kernel that knows the listed interfaces, each with its wireless
    mode, and cannot enumerate addresses; for the examples. *)
Fixpoint lookup_mode (name : string) (ifs : list (string * Z)) : option Z :=
  match ifs with
  | [] => None
  | (n, m) :: rest => if String.eqb n name then Some m else lookup_mode name rest
  end.

Definition sample_kernel (ifs : list (string * Z)) : kernel :=
  {| getifaddrs := None;
     ifconfig_get_hwaddr := fun _ => None;
     iwconfig_get_mode := fun name => lookup_mode name ifs;
     if_nametoindex := fun name =>
       match lookup_mode name ifs with Some _ => 1 | None => 0 end;
     if_indextoname := fun _ => None |}.

Definition with_interface (w : local_wifi_t) (name : string) : local_wifi_t :=
  {| pd := pd w; interface := name; cap_interface := cap_interface w;
     datalink_type := datalink_type w; override_dlt := override_dlt w;
     use_mac80211 := use_mac80211 w; mac80211_handle := mac80211_handle w;
     mac80211_cache := mac80211_cache w; mac80211_family := mac80211_family w;
     seq_channel_failure := seq_channel_failure w;
     reset_nm_management := reset_nm_management w |}.

(** What a capable record of the channel does to the channel being
    built in the VHT branches. *)
Definition vht_step (center : wifi_channel -> Z) (r : local_channel_t)
    (e : wifi_channel) : local_channel_t :=
  with_center r (u32 (freq e)) (u32 (center e)) (unusual_center1 r).

(** ** Channel lists and probing *)

(** What the two channel-list helpers answer for an interface: the error
    text when they return below 0, the list otherwise. *)
Record chanlist_answers : Type := {
  mac80211_get_chanlist : string -> string + list string;
  iwconfig_get_chanlist : string -> string + list Z
}.

(** [populate_chanlist]: the value returned and the list left in
    [*chanlist].  Both callers pass an empty list, which is what is left
    when 0 is returned; [msg] is written by the helpers only and is not
    followed. *)
Definition populate_chanlist (a : chanlist_answers) (ifname : string)
    : Z * list string :=
  match mac80211_get_chanlist a ifname with
  | inr chanlist => (1, chanlist)
  | inl _ =>
      match iwconfig_get_chanlist a ifname with
      | inl _ => (0, [])
      | inr iw_chanlist =>
          if (List.length iw_chanlist =? 0)%nat then (0, [])
          else (1, map (fun f => Fmt.snprintf 16 (Fmt.u f)) iw_chanlist)
      end
  end.

(** [probe_callback]: the value returned, [msg] if it was written, and the
    channel list; [*chanset] is always NULL.  [cf_parse_interface] gives the
    interface named in the definition when it returns above 0. *)
Definition probe_callback {hdr : headers} (cf_parse_interface : string -> option string)
    (a : chanlist_answers) (definition : string) : Z * option string * list string :=
  match cf_parse_interface definition with
  | None =>
      (0, Some (Fmt.snprintf STATUS_MAX "Unable to find interface in definition"), [])
  | Some ifname =>
      let '(ret, chanlist) := populate_chanlist a ifname in
      if ret <? 0 then (-1, None, chanlist) else (1, None, chanlist)
  end.

(** ** The capture thread *)

(** Values of [PCAP_ERRBUF_SIZE] in [<pcap.h>] and [IFF_UP] in [<net/if.h>]. *)
Definition PCAP_ERRBUF_SIZE : nat := 256.
Definition IFF_UP : Z := 1.

(** One packet as the capture hands it over, with what the successive
    calls of [cf_send_data] for it return. *)
Record packet : Type := {
  p_header : pcap_pkthdr;
  p_data : list Z;
  p_sends : list Z
}.

Definition is_breakloop (e : event) : bool :=
  match e with
  | pcap_breakloop => true
  | _ => false
  end.

(** [pcap_loop(pd, -1, pcap_dispatch_cb, caph)] over the packets read until
    the capture ends: the callback runs for each packet in turn; the loop
    stops after a callback that asked for it with [pcap_breakloop], and never
    gets past a callback that does not return. *)
Fixpoint pcap_loop (local_wifi : local_wifi_t) (pkts : list packet) : list event * bool :=
  match pkts with
  | [] => ([], true)
  | p :: later =>
      let '(evs, returned) :=
        pcap_dispatch_cb local_wifi (p_header p) (p_data p) (p_sends p) in
      if negb returned then (evs, false)
      else if existsb is_breakloop evs then (evs, true)
      else let '(evs', ended) := pcap_loop local_wifi later in ((evs ++ evs')%list, ended)
  end.

(** A null pointer printed with [%s], as glibc prints it. *)
Definition c_str (s : option string) : string :=
  match s with
  | Some t => t
  | None => "(null)"
  end.

(** [capture_thread]: [pcap_errstr] is what [pcap_geterr] returns after the
    loop, [ifret] and [ifflags] what [ifconfig_get_flags] answers.  The
    result is the trace and whether the thread came to its end. *)
Definition capture_thread (local_wifi : local_wifi_t) (pkts : list packet)
    (pcap_errstr : string) (ifret ifflags : Z) : list event * bool :=
  let '(evs, ended) := pcap_loop local_wifi pkts in
  if negb ended then (evs, false)
  else
    let closed :=
      Fmt.snprintf PCAP_ERRBUF_SIZE
        ("Interface '" ++ c_str (cap_interface local_wifi) ++ "' closed: " ++
         (if (String.length pcap_errstr =? 0)%nat then "interface closed" else pcap_errstr)) in
    let down :=
      Fmt.snprintf PCAP_ERRBUF_SIZE
        ("Interface '" ++ c_str (cap_interface local_wifi) ++
         "' no longer appears to be up; This can happen when it is unplugged, " ++
         "or another service like DHCP or NetworKManager has taken over and " ++
         "shut it down on us.") in
    ((evs ++ cf_send_error closed ::
       (if (ifret <? 0) || (Z.land ifflags IFF_UP =? 0) then [cf_send_error down] else []) ++
       [cf_handler_spindown])%list, true).

(** The calls the callback makes for a packet that the framework takes
    after [waits] full buffers. *)
Definition offered (local_wifi : local_wifi_t) (p : packet) (waits : nat) : list event :=
  (List.concat
     (repeat [cf_send_data (datalink_type local_wifi) (caplen (p_header p)) (p_data p);
              cf_handler_wait_ringbuffer] waits) ++
   [cf_send_data (datalink_type local_wifi) (caplen (p_header p)) (p_data p)])%list.

(** The number of full buffers before the first other answer. *)
Fixpoint full_buffers (sends : list Z) : nat :=
  match sends with
  | r :: later => if r =? 0 then S (full_buffers later) else O
  | [] => O
  end.

(** Every answer is "sent" or "buffer full", and one of them is "sent". *)
Definition takes_packet (sends : list Z) : Prop :=
  Forall (fun r => 0 <= r) sends /\ Exists (fun r => 0 < r) sends.

(** ** Vocabulary of the further statements *)

(** The shape of a channel that the parser can return. *)
Definition parsed_shape (d : local_channel_t) : Prop :=
  0 <= control_freq d < 2 ^ 32 /\ 0 <= center_freq1 d < 2 ^ 32 /\
  center_freq2 d = 0 /\
  ((chan_type d = 0 /\ chan_width d = 0 /\ unusual_center1 d = 0 /\ center_freq1 d = 0) \/
   ((chan_type d = NL80211_CHAN_HT40MINUS \/ chan_type d = NL80211_CHAN_HT40PLUS) /\
    chan_width d = 0 /\ unusual_center1 d = 0 /\ center_freq1 d = 0) \/
   (chan_type d = 0 /\
    (chan_width d = NL80211_CHAN_WIDTH_5 \/ chan_width d = NL80211_CHAN_WIDTH_10) /\
    unusual_center1 d = 0 /\ center_freq1 d = 0) \/
   (chan_type d = 0 /\
    (chan_width d = NL80211_CHAN_WIDTH_80 \/ chan_width d = NL80211_CHAN_WIDTH_160) /\
    (unusual_center1 d = 0 \/ unusual_center1 d = 1))).

Definition is_error_message (e : event) : Prop :=
  exists msg, e = cf_send_message msg MSGFLAG_ERROR.

(** The controller called again and again: each call with its driver,
    sequence number and channel. *)
Fixpoint chancontrol_calls {hdr : headers}
    (calls : list (driver * Z * option local_channel_t)) (local_wifi : local_wifi_t)
    : list (Z * list event) * local_wifi_t :=
  match calls with
  | [] => ([], local_wifi)
  | (drv, seqno, privchan) :: later =>
      let '(ret, w, _, evs) := chancontrol_callback drv local_wifi seqno privchan in
      let '(outs, w') := chancontrol_calls later w in
      ((ret, evs) :: outs, w')
  end.

Definition is_fatal (e : event) : bool :=
  match e with
  | cf_send_error _ => true
  | _ => false
  end.

(** The two widths of the narrow channels, as for the VHT widths. *)
Inductive narrow : Type := W5 | W10.

Definition narrow_name (v : narrow) : string :=
  match v with W5 => "w5" | W10 => "w10" end.

Definition narrow_width (v : narrow) : Z :=
  match v with W5 => NL80211_CHAN_WIDTH_5 | W10 => NL80211_CHAN_WIDTH_10 end.

(** The first interface that [find_interface_mode_by_mac] accepts: another
    name than the ignored one, an address that is known and equal in its
    first six bytes, a mode that is known and equal. *)
Definition accepted_interface (k : kernel) (ignored_ifname : option string)
    (wlmode : Z) (mac : list Z) (name : string) : bool :=
  negb (match ignored_ifname with
        | Some ign => String.eqb name ign
        | None => false
        end) &&
  match ifconfig_get_hwaddr k name with
  | Some dmac => mac_eqb (firstn 6 dmac) (firstn 6 mac)
  | None => false
  end &&
  match iwconfig_get_mode k name with
  | Some mode => mode =? wlmode
  | None => false
  end.

(** A channel whose text is the plain VHT form, for which the parser asks
    the table. *)
Definition plain_vht (d : local_channel_t) : bool :=
  negb (chan_type d =? NL80211_CHAN_HT40MINUS) &&
  negb (chan_type d =? NL80211_CHAN_HT40PLUS) &&
  ((chan_width d =? NL80211_CHAN_WIDTH_80) || (chan_width d =? NL80211_CHAN_WIDTH_160)) &&
  (unusual_center1 d =? 0).

(** The request the controller puts to the driver for a channel. *)
Definition driver_request (w : local_wifi_t) (ch : local_channel_t) : event :=
  if use_mac80211 w =? 0 then
    iwconfig_set_channel (interface w) (control_freq ch)
  else if chan_width ch =? 0 then
    mac80211_set_channel_cache (cap_interface w) (control_freq ch) (chan_type ch)
  else
    mac80211_set_frequency_cache (cap_interface w) (control_freq ch)
      (chan_width ch) (center_freq1 ch) (center_freq2 ch).

(** ** The whole of [open_callback] *)

(** Values of the kernel's [enum nl80211_mntr_flags], and the snap length
    of the program. *)
Definition NL80211_MNTR_FLAG_FCSFAIL : Z := 1.
Definition NL80211_MNTR_FLAG_PLCPFAIL : Z := 2.
Definition NL80211_MNTR_FLAG_CONTROL : Z := 3.
Definition NL80211_MNTR_FLAG_OTHER_BSS : Z := 4.
Definition MAX_PACKET_LEN : Z := 8192.

(** [strncasecmp(a, b, n) == 0], the end of a string standing for its
    terminator. *)
Fixpoint strncasecmp_eq (a b : string) (n : nat) : bool :=
  match n with
  | O => true
  | S n' =>
      match a, b with
      | EmptyString, EmptyString => true
      | String x a', String y b' =>
          (Ctype.tolower x =? Ctype.tolower y)%char && strncasecmp_eq a' b' n'
      | _, _ => false
      end
  end.

(** [cf_find_flag(&placeholder, name, definition) > 0] followed by
    [strncasecmp(placeholder, "true", placeholder_len) == 0]; the length
    returned is that of the value found. *)
Definition flag_is_true {hdr : headers} (name definition : string) : bool :=
  match cf_find_flag name definition with
  | Some placeholder =>
      (0 <? String.length placeholder)%nat &&
      strncasecmp_eq placeholder "true" (String.length placeholder)
  | None => false
  end.

(** What NetworkManager answers: the program built without it; no client,
    with the error text if there is one; or a client, whether the daemon
    runs, and its devices, each with its interface name and whether it is
    managed. *)
Inductive nm_answer : Type :=
| nm_absent
| nm_no_client (nmerror : option string)
| nm_client (running : bool) (devices : option (list (string * Z))).

(** What the system answers during one open, one field for each place that
    asks; a pair is the value returned and the error text.  [get_hwaddr] is
    [ifconfig_get_hwaddr], asked for the address of the interface it is
    given. *)
Record open_answers : Type := {
  parse_interface : option string;
  get_hwaddr : string -> string + list Z;
  rfkill_hard : Z;
  rfkill_soft : Z;
  clear_rfkill : Z;
  get_mode_first : string + Z;
  libnm : nm_answer;
  names : kernel;
  get_mode_second : option Z;
  connect : Z * (Z * Z * Z);
  create_monitor_vif : Z * string;
  set_mode : Z * string;
  interface_down : Z * string;
  interface_up : Z * string;
  chanlists : chanlist_answers;
  chanlist_errstr : string;
  open_live : Z * string;
  datalink : Z
}.

(** The calls of [open_callback] that change something or tell something. *)
Inductive open_call : Type :=
| sent (e : event)
| linux_sys_clear_rfkill (ifname : string)
| nm_device_set_managed (iface : string) (managed : Z)
| g_object_unref
| mac80211_create_monitor_vif (parent child : string) (flags : list Z)
| iwconfig_set_mode (ifname : string) (mode : Z)
| mac80211_disconnect (handle cache : Z)
| ifconfig_interface_down (ifname : string)
| ifconfig_interface_up (ifname : string)
| pcap_open_live (ifname : string) (snaplen promisc to_ms : Z).

Definition set_handles (w : local_wifi_t) (h c f : Z) : local_wifi_t :=
  {| pd := pd w; interface := interface w; cap_interface := cap_interface w;
     datalink_type := datalink_type w; override_dlt := override_dlt w;
     use_mac80211 := use_mac80211 w; mac80211_handle := h;
     mac80211_cache := c; mac80211_family := f;
     seq_channel_failure := seq_channel_failure w;
     reset_nm_management := reset_nm_management w |}.

Definition set_use_mac80211 (w : local_wifi_t) (v : Z) : local_wifi_t :=
  {| pd := pd w; interface := interface w; cap_interface := cap_interface w;
     datalink_type := datalink_type w; override_dlt := override_dlt w;
     use_mac80211 := v; mac80211_handle := mac80211_handle w;
     mac80211_cache := mac80211_cache w; mac80211_family := mac80211_family w;
     seq_channel_failure := seq_channel_failure w;
     reset_nm_management := reset_nm_management w |}.

Definition set_reset_nm_management (w : local_wifi_t) (v : Z) : local_wifi_t :=
  {| pd := pd w; interface := interface w; cap_interface := cap_interface w;
     datalink_type := datalink_type w; override_dlt := override_dlt w;
     use_mac80211 := use_mac80211 w; mac80211_handle := mac80211_handle w;
     mac80211_cache := mac80211_cache w; mac80211_family := mac80211_family w;
     seq_channel_failure := seq_channel_failure w;
     reset_nm_management := v |}.

Definition set_pd (w : local_wifi_t) (v : Z) : local_wifi_t :=
  {| pd := v; interface := interface w; cap_interface := cap_interface w;
     datalink_type := datalink_type w; override_dlt := override_dlt w;
     use_mac80211 := use_mac80211 w; mac80211_handle := mac80211_handle w;
     mac80211_cache := mac80211_cache w; mac80211_family := mac80211_family w;
     seq_channel_failure := seq_channel_failure w;
     reset_nm_management := reset_nm_management w |}.

Definition set_datalink_type (w : local_wifi_t) (v : Z) : local_wifi_t :=
  {| pd := pd w; interface := interface w; cap_interface := cap_interface w;
     datalink_type := v; override_dlt := override_dlt w;
     use_mac80211 := use_mac80211 w; mac80211_handle := mac80211_handle w;
     mac80211_cache := mac80211_cache w; mac80211_family := mac80211_family w;
     seq_channel_failure := seq_channel_failure w;
     reset_nm_management := reset_nm_management w |}.

(** What [open_callback] hands back: the value returned, the state, [msg],
    [*uuid], the channel list and the calls made, the oldest first. *)
Record open_result : Type := {
  o_ret : Z;
  o_wifi : local_wifi_t;
  o_msg : string;
  o_uuid : option string;
  o_chanlist : list string;
  o_calls : list open_call
}.

Section OpenCallback.

Context {hdr : headers}.

Definition info (text : string) : open_call :=
  sent (cf_send_message (Fmt.snprintf STATUS_MAX text) MSGFLAG_INFO).

Definition error (text : string) : open_call :=
  sent (cf_send_message (Fmt.snprintf STATUS_MAX text) MSGFLAG_ERROR).

(** The part of [open_callback] under [HAVE_LIBNM]. *)
Definition open_networkmanager (nm : nm_answer) (w : local_wifi_t)
    : local_wifi_t * list open_call :=
  match nm with
  | nm_absent => (w, [])
  | nm_no_client nmerror =>
      (w,
       [info
          match nmerror with
          | Some message =>
              "Could not connect to NetworkManager, cannot automatically prevent " ++
              "interface '" ++ interface w ++ "' from being modified if " ++
              "NetworkManager is running: " ++ message
          | None =>
              "Could not connect to NetworkManager, cannot automatically prevent " ++
              "interface '" ++ interface w ++ "' from being modified if " ++
              "NetworkManager is running."
          end])
  | nm_client running devices =>
      let nmdevice :=
        if running then
          match devices with
          | Some nmdevices => find (fun d => String.eqb (fst d) (interface w)) nmdevices
          | None => None
          end
        else None in
      match nmdevice with
      | Some (iface, managed) =>
          (set_reset_nm_management w managed,
           ((if negb (managed =? 0) then
               [info ("Telling NetworkManager not to control interface '" ++ interface w ++
                      "': you may need to re-initialize this interface later or tell " ++
                      "NetworkManager to control it again via 'nmcli'");
                nm_device_set_managed iface 0]
             else []) ++ [g_object_unref])%list)
      | None => (w, [g_object_unref])
      end
  end.

(** The part of [open_callback] that puts the interface into monitor mode,
    entered with [cap_interface] set to [cap] and the second answer about
    the mode: [inl] where it returns -1, with [msg]. *)
Definition open_monitor (a : open_answers) (w : local_wifi_t) (definition cap : string)
    (mode : Z) : (string * list open_call) + (local_wifi_t * list open_call) :=
  let ifname := interface w in
  if negb (mode =? LINUX_WLEXT_MONITOR) && negb (mac80211_handle w =? 0) &&
     negb (String.eqb ifname cap) then
    let fcs := flag_is_true "fcsfail" definition in
    let plcp := flag_is_true "plcpfail" definition in
    let told :=
      ((if fcs then
          [info ("Source '" ++ ifname ++ "' configuring monitor interface to pass " ++
                 "packets which fail FCS checksum")]
        else []) ++
       (if plcp then
          [info ("Source '" ++ ifname ++ "' configuring monitor interface to pass " ++
                 "packets which fail PLCP checksum")]
        else []))%list in
    let flags :=
      ([NL80211_MNTR_FLAG_CONTROL; NL80211_MNTR_FLAG_OTHER_BSS] ++
       (if fcs then [NL80211_MNTR_FLAG_FCSFAIL] else []) ++
       (if plcp then [NL80211_MNTR_FLAG_PLCPFAIL] else []))%list in
    let calls := (told ++ [mac80211_create_monitor_vif ifname cap flags])%list in
    if fst (create_monitor_vif a) <? 0 then
      let calls :=
        (calls ++
         [error ("Failed to create monitor vif interface '" ++ cap ++ "' for interface '" ++
                 ifname ++ "': " ++ snd (create_monitor_vif a));
          iwconfig_set_mode ifname LINUX_WLEXT_MONITOR])%list in
      if fst (set_mode a) <? 0 then
        inl (Fmt.snprintf STATUS_MAX
               ("Failed to create a monitor vif and could not set mode of existing " ++
                "interface, unable to put '" ++ ifname ++ "' into monitor mode."),
             (calls ++
              [error ("Failed to put interface '" ++ ifname ++ "' in monitor mode: " ++
                      snd (set_mode a))])%list)
      else
        inr (set_handles w 0 0 0,
             (calls ++
              [info ("Configured '" ++ ifname ++ "' as monitor mode interface instead " ++
                     "of using a monitor vif; will continue using this interface as " ++
                     "the capture source.");
               mac80211_disconnect (mac80211_handle w) (mac80211_cache w)])%list)
    else inr (set_use_mac80211 w 1, calls)
  else if negb (mode =? LINUX_WLEXT_MONITOR) then
    if fst (set_mode a) <? 0 then
      inl (Fmt.snprintf STATUS_MAX
             ("Could not create a monitor vif and could not set mode of existing " ++
              "interface, unable to put '" ++ ifname ++ "' into monitor mode."),
           [iwconfig_set_mode ifname LINUX_WLEXT_MONITOR;
            error ("Failed to put interface '" ++ ifname ++ "' in monitor mode: " ++
                   snd (set_mode a))])
    else
      inr (w,
           [iwconfig_set_mode ifname LINUX_WLEXT_MONITOR;
            info ("Configured '" ++ ifname ++ "' as monitor mode interface instead of " ++
                  "using a monitor vif")])
  else
    inr (w,
         [info ("Monitor interface '" ++ ifname ++ "' already exists for capture " ++
                "interface '" ++ cap ++ "', we'll use that.")]).

(** The end of [open_callback]: the interfaces are taken down and up, the
    channels listed and the capture opened. *)
Definition open_capture (a : open_answers) (w : local_wifi_t) (definition cap : string)
    (uuid : option string) (calls : list open_call) : open_result :=
  let ifname := interface w in
  let stop (w : local_wifi_t) (chanlist : list string) (calls : list open_call)
      (text : string) : open_result :=
    {| o_ret := -1; o_wifi := w; o_msg := Fmt.snprintf STATUS_MAX text;
       o_uuid := uuid; o_chanlist := chanlist; o_calls := calls |} in
  let differs := negb (String.eqb ifname cap) in
  let ign_primary := differs && flag_is_true "ignoreprimary" definition in
  let calls :=
    (calls ++
     (if ign_primary then
        [info ("Source '" ++ ifname ++ "' ignoring state of primary interface and " ++
               "leaving it in an 'up' state; this may cause problems with channel " ++
               "hopping.")]
      else []) ++
     (if differs && negb ign_primary then
        [info ("Bringing down parent interface '" ++ ifname ++ "'");
         ifconfig_interface_down ifname]
      else []))%list in
  if differs && negb ign_primary && negb (fst (interface_down a) =? 0) then
    stop w [] calls
      ("Could not bring down parent interface '" ++ ifname ++ "' to capture using '" ++
       cap ++ "': " ++ snd (interface_down a))
  else
    let calls := (calls ++ [ifconfig_interface_up cap])%list in
    if negb (fst (interface_up a) =? 0) then
      stop w [] calls
        ("Could not bring up capture interface '" ++ cap ++
         "', check 'dmesg' for errors loading firmware: " ++ snd (interface_up a))
    else
      let '(ret, chanlist) := populate_chanlist (chanlists a) cap in
      if ret <? 0 then
        stop w chanlist calls
          ("Could not get list of channels from capture interface '" ++ cap ++
           "' on '" ++ ifname ++ "': " ++ chanlist_errstr a)
      else
        let calls := (calls ++ [pcap_open_live cap MAX_PACKET_LEN 1 1000])%list in
        let w := set_pd w (fst (open_live a)) in
        if (fst (open_live a) =? 0) || negb (String.length (snd (open_live a)) =? 0)%nat then
          stop w chanlist calls
            ("Could not open capture interface '" ++ cap ++ "' on '" ++ ifname ++
             "' as a pcap capture: " ++ snd (open_live a))
        else
          {| o_ret := 1; o_wifi := set_datalink_type w (datalink a);
             o_msg :=
               Fmt.snprintf STATUS_MAX
                 (if differs then
                    "Linux Wi-Fi capturing from monitor vif '" ++ cap ++
                    "' on interface '" ++ ifname ++ "'"
                  else "Linux Wi-Fi capturing from interface '" ++ ifname ++ "'");
             o_uuid := uuid; o_chanlist := chanlist; o_calls := calls |}.

(** [open_callback].  The result is [None] where the program would compare
    a null [cap_interface]. *)
Definition open_callback (a : open_answers) (local_wifi : local_wifi_t)
    (definition : string) : option open_result :=
  let stop (w : local_wifi_t) (uuid : option string) (calls : list open_call)
      (msg : string) : option open_result :=
    Some {| o_ret := -1; o_wifi := w; o_msg := msg; o_uuid := uuid;
            o_chanlist := []; o_calls := calls |} in
  match parse_interface a with
  | None =>
      stop local_wifi None []
        (Fmt.snprintf STATUS_MAX "Unable to find interface in definition")
  | Some ifname =>
      let w := with_interface local_wifi ifname in
      match get_hwaddr a ifname with
      | inl errstr =>
          stop w None []
            (Fmt.snprintf STATUS_MAX
               ("Could not fetch interface address from '" ++ ifname ++ "': " ++ errstr))
      | inr hwaddr =>
          if rfkill_hard a =? 1 then
            stop w None []
              (Fmt.snprintf STATUS_MAX
                 ("Interface '" ++ ifname ++ "' is set to hard rfkill; check your " ++
                  "wireless switch if you have one."))
          else if (rfkill_soft a =? 1) && (clear_rfkill a <? 0) then
            stop w None [linux_sys_clear_rfkill ifname]
              (Fmt.snprintf STATUS_MAX
                 ("Unable to activate interface '" ++ ifname ++ "' set to soft rfkill"))
          else
            let calls :=
              if rfkill_soft a =? 1 then
                [linux_sys_clear_rfkill ifname;
                 info ("Removed soft-rfkill and enabled interface '" ++ ifname ++ "'")]
              else [] in
            let uuid := Some (open_uuid hwaddr) in
            match get_mode_first a with
            | inl errstr =>
                stop w uuid calls
                  (Fmt.snprintf STATUS_MAX
                     ("Unable to get current wireless mode of interface '" ++ ifname ++
                      "': " ++ errstr))
            | inr mode =>
                let '(w, calls_nm) := open_networkmanager (libnm a) w in
                let calls := (calls ++ calls_nm)%list in
                match open_cap_interface (names a) w definition hwaddr mode with
                | inl msg => stop w uuid calls msg
                | inr w =>
                    match cap_interface w with
                    | None => None
                    | Some cap =>
                        let mode :=
                          match get_mode_second a with
                          | Some m => m
                          | None => -1
                          end in
                        let '(cret, (h, c, f)) := connect a in
                        let w := if cret <? 0 then set_handles w 0 0 0
                                 else set_handles w h c f in
                        match open_monitor a w definition cap mode with
                        | inl (msg, calls_mon) => stop w uuid (calls ++ calls_mon)%list msg
                        | inr (w, calls_mon) =>
                            Some (open_capture a w definition cap uuid
                                    (calls ++ calls_mon)%list)
                        end
                    end
                end
            end
      end
  end.

End OpenCallback.

(** The calls of an open that are requests to put the parent down, to
    create a monitor interface, or to change what NetworkManager manages. *)
Definition is_parent_down (c : open_call) : bool :=
  match c with
  | ifconfig_interface_down _ => true
  | _ => false
  end.

Definition is_create_vif (c : open_call) : bool :=
  match c with
  | mac80211_create_monitor_vif _ _ _ => true
  | _ => false
  end.

Definition is_set_mode (c : open_call) : bool :=
  match c with
  | iwconfig_set_mode _ _ => true
  | _ => false
  end.

(** The monitor flags asked for a new monitor interface. *)
Definition monitor_flags {hdr : headers} (definition : string) : list Z :=
  [NL80211_MNTR_FLAG_CONTROL; NL80211_MNTR_FLAG_OTHER_BSS] ++
  (if flag_is_true "fcsfail" definition then [NL80211_MNTR_FLAG_FCSFAIL] else []) ++
  (if flag_is_true "plcpfail" definition then [NL80211_MNTR_FLAG_PLCPFAIL] else []).

(** Answers for the examples: a managed card [wlan0] with the address
    00:11:22:AB:CD:EF that NetworkManager controls, no monitor interface
    yet, every other interface with the address 02:11:22:AB:CD:EF; [hard]
    is the answer about the hardware switch and [connected] the answer of
    [mac80211_connect]. *)
Definition sample_open_answers (hard connected : Z) : open_answers :=
  {| parse_interface := Some "wlan0";
     get_hwaddr := fun name =>
       if String.eqb name "wlan0" then inr [0; 17; 34; 171; 205; 239]
       else inr [2; 17; 34; 171; 205; 239];
     rfkill_hard := hard;
     rfkill_soft := 0;
     clear_rfkill := 0;
     get_mode_first := inr 2;
     libnm := nm_client true (Some [("eth0", 1); ("wlan0", 1)]);
     names := sample_kernel [("wlan0", 2)];
     get_mode_second := Some 2;
     connect := (connected, (1, 1, 1));
     create_monitor_vif := (0, EmptyString);
     set_mode := (0, EmptyString);
     interface_down := (0, EmptyString);
     interface_up := (0, EmptyString);
     chanlists :=
       {| mac80211_get_chanlist := fun _ => inr ["1"; "6HT40+"; "36VHT80"];
          iwconfig_get_chanlist := fun _ => inl "unsupported" |};
     chanlist_errstr := EmptyString;
     open_live := (7, EmptyString);
     datalink := 127 |}.

(** A source definition whose flags the sample [cf_find_flag] does not
    know, and one list of answers of the wireless extensions. *)
Definition sample_iw_answers : chanlist_answers :=
  {| mac80211_get_chanlist := fun _ => inl "no netlink";
     iwconfig_get_chanlist := fun _ => inr [2412; 2437; 5180] |}.

(** Headers as the sample ones, with a [cf_find_flag] that finds the given
    value for every flag. *)
Definition sample_headers_flag (value : string) : headers :=
  {| wifi_ht_channels := @wifi_ht_channels sample_headers;
     MAX_WIFI_HT_CHANNEL := 3;
     WIFI_HT_HT40MINUS := 1;
     WIFI_HT_HT40PLUS := 2;
     WIFI_HT_HT80 := 4;
     WIFI_HT_HT160 := 8;
     STATUS_MAX := 1024;
     LINUX_WLEXT_MONITOR := 6;
     cf_find_flag := fun name _ => if String.eqb name "vif" then None else Some value;
     adler32_csum := fun s _ => adler32_loop s 1 0 |}.

(** The same answers with another kernel behind the queries about names
    and modes. *)
Definition with_names (a : open_answers) (k : kernel) : open_answers :=
  {| parse_interface := parse_interface a;
     get_hwaddr := get_hwaddr a;
     rfkill_hard := rfkill_hard a;
     rfkill_soft := rfkill_soft a;
     clear_rfkill := clear_rfkill a;
     get_mode_first := get_mode_first a;
     libnm := libnm a;
     names := k;
     get_mode_second := get_mode_second a;
     connect := connect a;
     create_monitor_vif := create_monitor_vif a;
     set_mode := set_mode a;
     interface_down := interface_down a;
     interface_up := interface_up a;
     chanlists := chanlists a;
     chanlist_errstr := chanlist_errstr a;
     open_live := open_live a;
     datalink := datalink a |}.

(** The same answers for a definition that names another interface. *)
Definition with_parse_interface (a : open_answers) (name : string) : open_answers :=
  {| parse_interface := Some name;
     get_hwaddr := get_hwaddr a;
     rfkill_hard := rfkill_hard a;
     rfkill_soft := rfkill_soft a;
     clear_rfkill := clear_rfkill a;
     get_mode_first := get_mode_first a;
     libnm := libnm a;
     names := names a;
     get_mode_second := get_mode_second a;
     connect := connect a;
     create_monitor_vif := create_monitor_vif a;
     set_mode := set_mode a;
     interface_down := interface_down a;
     interface_up := interface_up a;
     chanlists := chanlists a;
     chanlist_errstr := chanlist_errstr a;
     open_live := open_live a;
     datalink := datalink a |}.

(** A kernel as [sample_kernel] that also knows the interfaces [wired],
    which exist but do not answer the wireless mode query. *)
Definition sample_kernel_wired (ifs : list (string * Z)) (wired : list string) : kernel :=
  {| getifaddrs := None;
     ifconfig_get_hwaddr := fun _ => None;
     iwconfig_get_mode := fun name => lookup_mode name ifs;
     if_nametoindex := fun name =>
       match lookup_mode name ifs with
       | Some _ => 1
       | None => if existsb (String.eqb name) wired then 2 else 0
       end;
     if_indextoname := fun _ => None |}.

(** Headers as the sample ones, with a [cf_find_flag] that finds the given
    name for the flag [vif] and no other flag. *)
Definition sample_headers_vif (vif : string) : headers :=
  {| wifi_ht_channels := @wifi_ht_channels sample_headers;
     MAX_WIFI_HT_CHANNEL := 3;
     WIFI_HT_HT40MINUS := 1;
     WIFI_HT_HT40PLUS := 2;
     WIFI_HT_HT80 := 4;
     WIFI_HT_HT160 := 8;
     STATUS_MAX := 1024;
     LINUX_WLEXT_MONITOR := 6;
     cf_find_flag := fun name _ => if String.eqb name "vif" then Some vif else None;
     adler32_csum := fun s _ => adler32_loop s 1 0 |}.
(** * Facts *)

(** ** Printing and scanning numbers *)

Lemma isdigit_plain (c : ascii) :
  Ctype.isdigit c = true ->
  Ctype.isspace c = false /\ (c =? "-")%char = false /\ (c =? "+")%char = false /\
  (c =? "H")%char = false.
Proof.
  destruct c as [[] [] [] [] [] [] [] []]; vm_compute; intros E;
    try discriminate E; repeat split.
Qed.

Lemma digit_char_spec (v : Z) :
  0 <= v < 10 ->
  Ctype.isdigit (Fmt.digit_char v) = true /\ Ctype.digit_val (Fmt.digit_char v) = v.
Proof.
  intros Hv.
  assert (Hcases : v = 0 \/ v = 1 \/ v = 2 \/ v = 3 \/ v = 4 \/ v = 5 \/
                   v = 6 \/ v = 7 \/ v = 8 \/ v = 9) by lia.
  repeat (destruct Hcases as [-> | Hcases]; [split; reflexivity |]).
  subst v; split; reflexivity.
Qed.

Lemma append_empty_r (s : string) : (s ++ EmptyString)%string = s.
Proof. induction s as [| c s IH]; simpl; [reflexivity | now rewrite IH]. Qed.

Lemma append_assoc (a b c : string) : ((a ++ b) ++ c)%string = (a ++ (b ++ c))%string.
Proof. induction a as [| x a IH]; simpl; [reflexivity | now rewrite IH]. Qed.

Lemma length_append (a b : string) :
  String.length (a ++ b) = (String.length a + String.length b)%nat.
Proof. induction a as [| x a IH]; simpl; [reflexivity | now rewrite IH]. Qed.

Lemma dec_fuel_acc (f : nat) : forall n acc,
  Fmt.dec_fuel f n acc = (Fmt.dec_fuel f n EmptyString ++ acc)%string.
Proof.
  induction f as [| f IH]; intros n acc; simpl; [reflexivity |].
  destruct (n <? 10); [reflexivity |].
  rewrite (IH _ (String _ acc)), (IH _ (String _ EmptyString)), append_assoc.
  reflexivity.
Qed.

Lemma dec_fuel_length (f : nat) : forall n acc,
  (String.length (Fmt.dec_fuel f n acc) <= f + String.length acc)%nat.
Proof.
  induction f as [| f IH]; intros n acc; simpl; [lia |].
  destruct (n <? 10); simpl; [lia |].
  specialize (IH (n / 10) (String (Fmt.digit_char (n mod 10)) acc)); simpl in IH; lia.
Qed.

Lemma u_length (n : Z) : (String.length (Fmt.u n) <= 10)%nat.
Proof.
  unfold Fmt.u. pose proof (dec_fuel_length 10 n EmptyString) as H.
  change (String.length EmptyString) with 0%nat in H. lia.
Qed.

(** Reading back the digits just printed continues from [acc] shifted by
    their number of places. *)
Lemma read_digits_dec (f : nat) : forall n tl,
  0 <= n < 10 ^ Z.of_nat f ->
  exists m, forall acc,
    Scan.read_digits acc (Fmt.dec_fuel f n tl) = Scan.read_digits (acc * m + n) tl.
Proof.
  induction f as [| f IH]; intros n tl Hn.
  - exists 1. intros acc. simpl in *. replace (acc * 1 + n) with acc by lia. reflexivity.
  - rewrite Nat2Z.inj_succ, Z.pow_succ_r in Hn by lia.
    cbn [Fmt.dec_fuel]. cbv zeta.
    destruct (digit_char_spec (n mod 10)) as [Hd Hv]; [apply Z.mod_pos_bound; lia |].
    destruct (Z.ltb_spec n 10) as [Hlt | Hge].
    + exists 10. intros acc. cbn [Scan.read_digits].
      rewrite Hd, Hv, Z.mod_small by lia. f_equal; lia.
    + destruct (IH (n / 10) (String (Fmt.digit_char (n mod 10)) tl)) as [m Hm].
      { split; [apply Z.div_pos; lia | apply Z.div_lt_upper_bound; lia]. }
      exists (10 * m). intros acc. rewrite Hm. cbn [Scan.read_digits].
      rewrite Hd, Hv. f_equal.
      pose proof (Z.div_mod n 10 ltac:(lia)). lia.
Qed.

Lemma dec_fuel_head (f : nat) : forall n tl,
  0 <= n ->
  exists c t, Fmt.dec_fuel (S f) n tl = String c t /\ Ctype.isdigit c = true.
Proof.
  induction f as [| f IH]; intros n tl Hn.
  - simpl. destruct (digit_char_spec (n mod 10)) as [Hd _]; [apply Z.mod_pos_bound; lia |].
    destruct (n <? 10); eauto.
  - change (Fmt.dec_fuel (S (S f)) n tl) with
      (let acc' := String (Fmt.digit_char (n mod 10)) tl in
       if n <? 10 then acc' else Fmt.dec_fuel (S f) (n / 10) acc').
    cbv zeta. destruct (digit_char_spec (n mod 10)) as [Hd _]; [apply Z.mod_pos_bound; lia |].
    destruct (Z.ltb_spec n 10); [eauto |].
    apply IH. apply Z.div_pos; lia.
Qed.

Lemma read_digits_stop (acc : Z) (rest : string) :
  stops_number rest -> Scan.read_digits acc rest = (acc, rest).
Proof. destruct rest as [| c t]; simpl; [reflexivity | intros ->; reflexivity]. Qed.

(** [%u] reads back what [%u] printed. *)
Lemma conv_u_dec (n : Z) (rest : string) :
  0 <= n < 2 ^ 32 -> stops_number rest ->
  Scan.conv_u (Fmt.u n ++ rest) = Scan.Got n rest.
Proof.
  intros Hn Hrest. unfold Fmt.u. rewrite <- dec_fuel_acc.
  destruct (dec_fuel_head 9 n rest) as (c & t & E & Hc); [lia |].
  destruct (read_digits_dec 10 n rest) as [m Hm]; [simpl; lia |].
  specialize (Hm 0). rewrite E in Hm.
  rewrite E. unfold Scan.conv_u. cbn [Scan.skip_space].
  destruct (isdigit_plain c Hc) as (-> & -> & -> & _).
  unfold Scan.digits_then. rewrite Hc, Hm.
  replace (0 * m + n) with n by lia.
  rewrite (read_digits_stop n rest Hrest).
  unfold u32, Scan.strtoul.
  destruct (Z.leb_spec (2 ^ 64) n) as [Hbig | _]; [lia |].
  rewrite (Z.mod_small n (2 ^ 64)), Z.mod_small by lia. reflexivity.
Qed.

Lemma conv_u_range (s : string) (v : Z) (rest : string) :
  Scan.conv_u s = Scan.Got v rest -> 0 <= v < 2 ^ 32.
Proof.
  unfold Scan.conv_u, Scan.digits_then.
  destruct (Scan.skip_space s) as [| c t]; [discriminate |].
  assert (Hu : forall x, 0 <= u32 x < 2 ^ 32) by (intros x; apply Z.mod_pos_bound; lia).
  destruct (c =? "-")%char; [| destruct (c =? "+")%char].
  - destruct t as [| c' t']; [discriminate |].
    destruct (Ctype.isdigit c'); [| discriminate].
    destruct (Scan.read_digits 0 (String c' t')); intros [= <- _]; apply Hu.
  - destruct t as [| c' t']; [discriminate |].
    destruct (Ctype.isdigit c'); [| discriminate].
    destruct (Scan.read_digits 0 (String c' t')); intros [= <- _]; apply Hu.
  - destruct (Ctype.isdigit c); [| discriminate].
    destruct (Scan.read_digits 0 (String c t)); intros [= <- _]; apply Hu.
Qed.

Lemma substring_whole (s : string) : forall m,
  (String.length s <= m)%nat -> substring 0 m s = s.
Proof.
  induction s as [| c s IH]; intros [| m] H; simpl in *; try reflexivity; try lia.
  rewrite IH by lia. reflexivity.
Qed.

Lemma snprintf_fits (size : nat) (s : string) :
  (String.length s < size)%nat -> Fmt.snprintf size s = s.
Proof. intros H. unfold Fmt.snprintf. apply substring_whole. lia. Qed.

Arguments Fmt.u : simpl never.
Arguments Fmt.snprintf : simpl never.
Arguments u32 : simpl never.

(** ** The two [sscanf] calls on a printed number and what follows it *)

Section GrammarFacts.

Context {hdr : headers}.

Lemma sscanf_u_HT40_c_dec (n : Z) (sfx : string) :
  0 <= n < 2 ^ 32 -> stops_number sfx ->
  sscanf_u_HT40_c (Fmt.u n ++ sfx) =
  match Scan.literal "HT40" sfx with
  | None => (1, n, zero)
  | Some rest' =>
      match Scan.conv_c rest' with
      | Scan.Got c _ => (2, n, c)
      | _ => (1, n, zero)
      end
  end.
Proof. intros Hn Hs. unfold sscanf_u_HT40_c. rewrite conv_u_dec by assumption. reflexivity. Qed.

Lemma sscanf_u_set_u_dec (n : Z) (sfx : string) :
  0 <= n < 2 ^ 32 -> stops_number sfx ->
  sscanf_u_set_u (Fmt.u n ++ sfx) =
  match Scan.conv_set15 sfx with
  | Scan.Got parsetype rest' =>
      match Scan.literal "-" rest' with
      | Some rest'' =>
          match Scan.conv_u rest'' with
          | Scan.Got c _ => (3, n, parsetype, c)
          | _ => (2, n, parsetype, 0)
          end
      | None => (2, n, parsetype, 0)
      end
  | _ => (1, n, EmptyString, 0)
  end.
Proof. intros Hn Hs. unfold sscanf_u_set_u. rewrite conv_u_dec by assumption. reflexivity. Qed.

Lemma sscanf_u_HT40_c_range (s : string) (r v : Z) (m : ascii) :
  sscanf_u_HT40_c s = (r, v, m) -> 0 <= v < 2 ^ 32.
Proof.
  unfold sscanf_u_HT40_c. destruct (Scan.conv_u s) as [p rest | |] eqn:E.
  - apply conv_u_range in E.
    destruct (Scan.literal "HT40" rest) as [rest' |].
    + destruct (Scan.conv_c rest'); intros [= _ <- _]; assumption.
    + intros [= _ <- _]; assumption.
  - intros [= _ <- _]; lia.
  - intros [= _ <- _]; lia.
Qed.

Lemma sscanf_u_set_u_range (s : string) (r v c : Z) (ty : string) :
  sscanf_u_set_u s = (r, v, ty, c) -> 0 <= v < 2 ^ 32 /\ 0 <= c < 2 ^ 32.
Proof.
  unfold sscanf_u_set_u. destruct (Scan.conv_u s) as [p rest | |] eqn:E.
  - apply conv_u_range in E.
    destruct (Scan.conv_set15 rest) as [ty' rest' | |].
    + destruct (Scan.literal "-" rest') as [rest'' |].
      * destruct (Scan.conv_u rest'') as [c' t | |] eqn:E'.
        -- apply conv_u_range in E'. intros [= _ <- _ <-]; split; assumption.
        -- intros [= _ <- _ <-]; split; [assumption | lia].
        -- intros [= _ <- _ <-]; split; [assumption | lia].
      * intros [= _ <- _ <-]; split; [assumption | lia].
    + intros [= _ <- _ <-]; split; [assumption | lia].
    + intros [= _ <- _ <-]; split; [assumption | lia].
  - intros [= _ <- _ <-]; lia.
  - intros [= _ <- _ <-]; lia.
Qed.

(** [%15[^-]] on a short dash-free text that ends the input or is
    followed by a dash. *)
Lemma span_not_dash_end (sfx : string) : forall w,
  no_dash sfx = true -> (String.length sfx <= w)%nat ->
  Scan.span_not_dash w sfx = (sfx, EmptyString).
Proof.
  induction sfx as [| c t IH]; intros w Hd Hl.
  - destruct w; reflexivity.
  - destruct w as [| w]; [simpl in Hl; lia |].
    simpl in Hd. apply andb_prop in Hd as [Hc Ht].
    cbn [Scan.span_not_dash]. apply negb_true_iff in Hc. rewrite Hc.
    rewrite IH by (simpl in Hl; auto; lia). reflexivity.
Qed.

Lemma span_not_dash_dash (sfx rest : string) : forall w,
  no_dash sfx = true -> (String.length sfx <= w)%nat ->
  Scan.span_not_dash w (sfx ++ String "-" rest) = (sfx, String "-" rest).
Proof.
  induction sfx as [| c t IH]; intros w Hd Hl.
  - destruct w; reflexivity.
  - destruct w as [| w]; [simpl in Hl; lia |].
    simpl in Hd. apply andb_prop in Hd as [Hc Ht].
    cbn [Scan.span_not_dash append]. apply negb_true_iff in Hc. rewrite Hc.
    rewrite IH by (simpl in Hl; auto; lia). reflexivity.
Qed.

End GrammarFacts.

(** ** Suffixes up to case *)

Lemma tolower_dash (c : ascii) : (Ctype.tolower c =? "-")%char = (c =? "-")%char.
Proof. destruct c as [[] [] [] [] [] [] [] []]; reflexivity. Qed.

Lemma tolower_v (c : ascii) :
  Ctype.tolower c = "v"%char ->
  Ctype.isdigit c = false /\ ("H" =? c)%char = false.
Proof.
  destruct c as [[] [] [] [] [] [] [] []]; vm_compute; intros E;
    try discriminate E; split; reflexivity.
Qed.

Lemma lower_length (s : string) : String.length (Ctype.lower s) = String.length s.
Proof. induction s as [| c t IH]; simpl; [reflexivity | now rewrite IH]. Qed.

Lemma lower_no_dash (s : string) : no_dash (Ctype.lower s) = no_dash s.
Proof.
  induction s as [| c t IH]; simpl; [reflexivity |].
  rewrite tolower_dash, IH. reflexivity.
Qed.

Lemma vht_suffix_facts (v : vht) (sfx : string) :
  Ctype.lower sfx = vht_name v ->
  exists c t, sfx = String c t /\ Ctype.isdigit c = false /\ ("H" =? c)%char = false /\
              no_dash sfx = true /\ (String.length sfx <= 15)%nat.
Proof.
  intros H.
  assert (Hd : no_dash sfx = true)
    by (rewrite <- lower_no_dash, H; destruct v; reflexivity).
  assert (Hl : (String.length sfx <= 15)%nat)
    by (rewrite <- lower_length, H; destruct v; simpl; lia).
  destruct sfx as [| c t]; [destruct v; discriminate H |].
  exists c, t.
  assert (Hc : Ctype.tolower c = "v"%char) by (destruct v; simpl in H; congruence).
  destruct (tolower_v c Hc) as [H1 H2]. repeat split; assumption.
Qed.

Lemma conv_set15_end (sfx : string) :
  sfx <> EmptyString -> no_dash sfx = true -> (String.length sfx <= 15)%nat ->
  Scan.conv_set15 sfx = Scan.Got sfx EmptyString.
Proof.
  intros Hne Hd Hl. unfold Scan.conv_set15.
  rewrite span_not_dash_end by assumption.
  destruct sfx as [| c t]; [congruence |].
  simpl in Hd. apply andb_prop in Hd as [Hc _]. apply negb_true_iff in Hc.
  rewrite Hc. reflexivity.
Qed.

Lemma conv_set15_dash (sfx rest : string) :
  sfx <> EmptyString -> no_dash sfx = true -> (String.length sfx <= 15)%nat ->
  Scan.conv_set15 (sfx ++ String "-" rest) = Scan.Got sfx (String "-" rest).
Proof.
  intros Hne Hd Hl. unfold Scan.conv_set15.
  rewrite span_not_dash_dash by assumption.
  destruct sfx as [| c t]; [congruence |].
  simpl in Hd. apply andb_prop in Hd as [Hc _]. apply negb_true_iff in Hc.
  cbn [append]. rewrite Hc. reflexivity.
Qed.

(** ** The search of the table for a VHT centre *)

Section VhtSearch.

Context {hdr : headers}.
Variables (flag : Z) (center : wifi_channel -> Z) (mhz : string) (pc : Z).

Lemma vht_search_flagged (tbl : list wifi_channel) : forall ret,
  (forall e, In e tbl -> table_match e pc = true -> lacks e flag = false) ->
  vht_search flag center mhz tbl pc ret =
  (Some (fold_left (vht_step center) (filter (fun e => table_match e pc) tbl) ret), []).
Proof.
  induction tbl as [| e tl IH]; intros ret H; [reflexivity |].
  cbn [vht_search filter].
  destruct (table_match e pc) eqn:Em.
  - rewrite (H e (or_introl eq_refl) Em). cbn [fold_left].
    apply IH. intros e' He'. apply H. right; assumption.
  - apply IH. intros e' He'. apply H. right; assumption.
Qed.

Lemma vht_search_unflagged (tbl : list wifi_channel) : forall ret e,
  In e tbl -> table_match e pc = true -> lacks e flag = true ->
  vht_search flag center mhz tbl pc ret =
  (None, [cf_send_message (vht_text mhz pc) MSGFLAG_ERROR]).
Proof.
  induction tbl as [| e0 tl IH]; intros ret e Hin Hm Hl; [destruct Hin |].
  cbn [vht_search]. destruct Hin as [-> | Hin].
  - rewrite Hm, Hl. reflexivity.
  - destruct (table_match e0 pc); [destruct (lacks e0 flag); [reflexivity |] |];
      eapply IH; eassumption.
Qed.

Lemma vht_search_some (tbl : list wifi_channel) (ret d : local_channel_t)
    (evs : list event) :
  vht_search flag center mhz tbl pc ret = (Some d, evs) ->
  forall e, In e tbl -> table_match e pc = true -> lacks e flag = false.
Proof.
  intros H e Hin Hm. destruct (lacks e flag) eqn:El; [| reflexivity].
  rewrite (vht_search_unflagged tbl ret e Hin Hm El) in H. discriminate H.
Qed.

Lemma fold_step_rest (ms : list wifi_channel) : forall ret,
  let r := fold_left (vht_step center) ms ret in
  chan_type r = chan_type ret /\ chan_width r = chan_width ret /\
  unusual_center1 r = unusual_center1 ret /\ center_freq2 r = center_freq2 ret.
Proof.
  induction ms as [| e tl IH]; intros ret; cbn [fold_left]; [repeat split |].
  destruct (IH (vht_step center ret e)) as (H1 & H2 & H3 & H4).
  cbv zeta. rewrite H1, H2, H3, H4. repeat split.
Qed.

Lemma fold_step_last (ms : list wifi_channel) (e : wifi_channel) (ret : local_channel_t) :
  fold_left (vht_step center) (ms ++ [e]) ret =
  with_center ret (u32 (freq e)) (u32 (center e)) (unusual_center1 ret).
Proof.
  rewrite fold_left_app. cbn [fold_left].
  destruct (fold_step_rest ms ret) as (H1 & H2 & H3 & H4).
  unfold vht_step at 1, with_center. rewrite H1, H2, H3, H4. reflexivity.
Qed.

End VhtSearch.

(** ** Parsing the VHT forms *)

Section VhtForms.

Context {hdr : headers}.

Lemma parse_vht_plain (v : vht) (n : Z) (sfx : string) :
  0 <= n < 2 ^ 32 -> Ctype.lower sfx = vht_name v ->
  chantranslate_callback (Fmt.u n ++ sfx) =
  vht_search (vht_flag v) (vht_center v) (vht_mhz v) wifi_ht_channels n
    (with_chan_width (zeroed_channel n) (vht_width v)).
Proof.
  intros Hn Hs.
  destruct (vht_suffix_facts v sfx Hs) as (c & t & E & Hc & HH & Hd & Hl).
  assert (Hstop : stops_number sfx) by (rewrite E; exact Hc).
  unfold chantranslate_callback.
  rewrite sscanf_u_HT40_c_dec, sscanf_u_set_u_dec by assumption.
  rewrite conv_set15_end by (assumption || (rewrite E; discriminate)).
  rewrite E at 1. cbn [Scan.literal]. rewrite HH.
  change (1 =? 2) with false. cbv iota.
  change (2 <=? 0) with false. change (2 =? 1) with false. change (2 =? 3) with false.
  cbv iota. unfold Ctype.strcasecmp_eq. rewrite Hs.
  destruct v; reflexivity.
Qed.

Lemma parse_vht_center (v : vht) (n c : Z) (sfx : string) :
  0 <= n < 2 ^ 32 -> 0 <= c < 2 ^ 32 -> Ctype.lower sfx = vht_name v ->
  chantranslate_callback (Fmt.u n ++ sfx ++ "-" ++ Fmt.u c) =
  (Some {| control_freq := n; chan_type := 0; chan_width := vht_width v;
           unusual_center1 := 1; center_freq1 := c; center_freq2 := 0 |}, []).
Proof.
  intros Hn Hc Hs.
  destruct (vht_suffix_facts v sfx Hs) as (c0 & t & E & Hc0 & HH & Hd & Hl).
  assert (Hstop : stops_number (sfx ++ "-" ++ Fmt.u c)) by (rewrite E; exact Hc0).
  unfold chantranslate_callback.
  rewrite sscanf_u_HT40_c_dec, sscanf_u_set_u_dec by assumption.
  change ("-" ++ Fmt.u c)%string with (String "-" (Fmt.u c)).
  rewrite conv_set15_dash by (assumption || (rewrite E; discriminate)).
  rewrite E at 1. cbn [Scan.literal append]. rewrite HH.
  change ("-" =? "-")%char with true. cbv iota.
  rewrite <- (append_empty_r (Fmt.u c)), conv_u_dec by (assumption || exact I).
  change (1 =? 2) with false. cbv iota.
  change (3 <=? 0) with false. change (3 =? 1) with false. change (3 =? 3) with true.
  cbv iota. unfold Ctype.strcasecmp_eq. rewrite Hs.
  destruct v; reflexivity.
Qed.

End VhtForms.

(** ** C5: the VHT forms *)

(** C5.  For an input [NN] followed by [VHT80] or [VHT160] in any mix of
    upper and lower case: when a record of the table for [NN] (by channel
    number or by frequency) lacks the flag of that width, the parse returns
    NULL after one error message; when every record for [NN] has the flag,
    the channel returned has the width, the frequency and the centre of the
    (last) record for [NN], and [unusual_center1] is 0; when the table has
    no record for [NN] the channel keeps [NN] and has the width.  For the
    same input followed by [-CC], the channel has the width, control
    frequency [NN], centre [CC] and [unusual_center1] 1, whatever the table
    holds, and nothing is sent. *)
Theorem chantranslate_vht {hdr : headers} (v : vht) (n c : Z) (sfx : string) :
  0 <= n < 2 ^ 32 -> 0 <= c < 2 ^ 32 -> Ctype.lower sfx = vht_name v ->
  (forall e, In e (records_of n) -> lacks e (vht_flag v) = true ->
     chantranslate_callback (Fmt.u n ++ sfx) =
     (None, [cf_send_message (vht_text (vht_mhz v) n) MSGFLAG_ERROR])) /\
  (forall (ms : list wifi_channel) e, records_of n = (ms ++ [e])%list ->
     (forall e', In e' (records_of n) -> lacks e' (vht_flag v) = false) ->
     chantranslate_callback (Fmt.u n ++ sfx) =
     (Some {| control_freq := u32 (freq e); chan_type := 0;
              chan_width := vht_width v; unusual_center1 := 0;
              center_freq1 := u32 (vht_center v e); center_freq2 := 0 |}, [])) /\
  (records_of n = [] ->
     chantranslate_callback (Fmt.u n ++ sfx) =
     (Some {| control_freq := n; chan_type := 0; chan_width := vht_width v;
              unusual_center1 := 0; center_freq1 := 0; center_freq2 := 0 |}, [])) /\
  chantranslate_callback (Fmt.u n ++ sfx ++ "-" ++ Fmt.u c) =
  (Some {| control_freq := n; chan_type := 0; chan_width := vht_width v;
           unusual_center1 := 1; center_freq1 := c; center_freq2 := 0 |}, []).
Proof.
  intros Hn Hc Hs. rewrite (parse_vht_plain v n sfx Hn Hs).
  unfold records_of. repeat split.
  - intros e He Hl. apply filter_In in He as [Hin Hm].
    eapply vht_search_unflagged; eassumption.
  - intros ms e E Hall. rewrite vht_search_flagged.
    + rewrite E, fold_step_last. reflexivity.
    + intros e' Hin Hm. apply Hall. apply filter_In. split; assumption.
  - intros E. rewrite vht_search_flagged.
    + rewrite E. reflexivity.
    + intros e' Hin Hm.
      assert (Hf : In e' (filter (fun e => table_match e n) wifi_ht_channels))
        by (apply filter_In; split; assumption).
      rewrite E in Hf. destruct Hf.
  - apply parse_vht_center; assumption.
Qed.

Lemma chantranslate_vht_witness :
  @chantranslate_callback sample_headers "36VhT80" =
    (Some {| control_freq := 5180; chan_type := 0; chan_width := 3;
             unusual_center1 := 0; center_freq1 := 5210; center_freq2 := 0 |}, []) /\
  fst (@chantranslate_callback sample_headers "165vht160") = None /\
  @chantranslate_callback sample_headers "100VHT160-5250" =
    (Some {| control_freq := 100; chan_type := 0; chan_width := 5;
             unusual_center1 := 1; center_freq1 := 5250; center_freq2 := 0 |}, []).
Proof.
  split; [| split].
  - destruct (@chantranslate_vht sample_headers VHT80 36 0 "VhT80") as (_ & H & _);
      [lia | lia | reflexivity |].
    apply (H [] {| chan := 36; freq := 5180; flags := 2 + 4 + 8;
                   freq80 := 5210; freq160 := 5250 |} eq_refl).
    intros e' [<- | []]. reflexivity.
  - destruct (@chantranslate_vht sample_headers VHT160 165 0 "vht160") as (H & _);
      [lia | lia | reflexivity |].
    change "165vht160" with (Fmt.u 165 ++ "vht160")%string.
    rewrite (H {| chan := 165; freq := 5825; flags := 0; freq80 := 0; freq160 := 0 |}).
    + reflexivity.
    + left; reflexivity.
    + reflexivity.
  - destruct (@chantranslate_vht sample_headers VHT160 100 5250 "VHT160") as (_ & _ & _ & H);
      [lia | lia | reflexivity |].
    exact H.
Defined.

(** ** C6: inputs the parser only half understands *)

Lemma literal_some (lit : string) : forall s r,
  Scan.literal lit s = Some r -> s = (lit ++ r)%string.
Proof.
  induction lit as [| c lit IH]; intros s r H; simpl in H.
  - injection H as ->. reflexivity.
  - destruct s as [| c' s']; [discriminate |].
    destruct (Ascii.eqb_spec c c') as [-> |]; [| discriminate].
    simpl. f_equal. apply IH. assumption.
Qed.

Section Degraded.

Context {hdr : headers}.

Lemma ht40_search_info (flag : Z) (sign : string) (n : Z) (tbl : list wifi_channel) :
  Forall is_info (ht40_search flag sign tbl n).
Proof.
  induction tbl as [| e tl IH]; cbn [ht40_search]; [constructor |].
  destruct (table_match e n && lacks e flag); [| exact IH].
  constructor; [eexists; reflexivity | exact IH].
Qed.

Lemma ht40_search_lacking (flag : Z) (sign : string) (n : Z) (tbl : list wifi_channel)
    (e : wifi_channel) :
  In e tbl -> table_match e n = true -> lacks e flag = true ->
  In (cf_send_message (ht40_text sign n) MSGFLAG_INFO) (ht40_search flag sign tbl n).
Proof.
  induction tbl as [| e0 tl IH]; intros Hin Hm Hl; [destruct Hin |].
  cbn [ht40_search]. apply in_or_app. destruct Hin as [-> | Hin].
  - left. rewrite Hm, Hl. left; reflexivity.
  - right. apply IH; assumption.
Qed.

Lemma ht40_search_silent (flag : Z) (sign : string) (n : Z) (tbl : list wifi_channel) :
  (forall e, In e tbl -> table_match e n = true -> lacks e flag = false) ->
  ht40_search flag sign tbl n = [].
Proof.
  induction tbl as [| e tl IH]; intros H; [reflexivity |].
  cbn [ht40_search]. rewrite IH by (intros e' He'; apply H; right; assumption).
  destruct (table_match e n) eqn:Em; [| reflexivity].
  rewrite (H e (or_introl eq_refl) Em). reflexivity.
Qed.

Lemma parse_ht40_minus (n : Z) (tail : string) :
  0 <= n < 2 ^ 32 ->
  chantranslate_callback (Fmt.u n ++ "HT40-" ++ tail) =
  (Some (with_chan_type (zeroed_channel n) NL80211_CHAN_HT40MINUS),
   ht40_search WIFI_HT_HT40MINUS "-" (firstn MAX_WIFI_HT_CHANNEL wifi_ht_channels) n).
Proof.
  intros Hn. unfold chantranslate_callback.
  rewrite sscanf_u_HT40_c_dec by (assumption || reflexivity). reflexivity.
Qed.

Lemma parse_ht40_plus (n : Z) (tail : string) :
  0 <= n < 2 ^ 32 ->
  chantranslate_callback (Fmt.u n ++ "HT40+" ++ tail) =
  (Some (with_chan_type (zeroed_channel n) NL80211_CHAN_HT40PLUS),
   ht40_search WIFI_HT_HT40PLUS "+" wifi_ht_channels n).
Proof.
  intros Hn. unfold chantranslate_callback.
  rewrite sscanf_u_HT40_c_dec by (assumption || reflexivity). reflexivity.
Qed.

Lemma parse_dash (n : Z) (t : string) :
  0 <= n < 2 ^ 32 ->
  chantranslate_callback (Fmt.u n ++ String "-" t) = (Some (zeroed_channel n), []).
Proof.
  intros Hn. unfold chantranslate_callback.
  rewrite sscanf_u_HT40_c_dec, sscanf_u_set_u_dec by (assumption || reflexivity).
  reflexivity.
Qed.

Lemma parse_bare (n : Z) :
  0 <= n < 2 ^ 32 ->
  chantranslate_callback (Fmt.u n) = (Some (zeroed_channel n), []).
Proof.
  intros Hn. rewrite <- (append_empty_r (Fmt.u n)). unfold chantranslate_callback.
  rewrite sscanf_u_HT40_c_dec, sscanf_u_set_u_dec by (assumption || exact I).
  reflexivity.
Qed.

Lemma parse_no_number (s : string) :
  (forall v rest, Scan.conv_u s <> Scan.Got v rest) ->
  chantranslate_callback s =
  (None, [cf_send_message (no_channel_text s) MSGFLAG_ERROR]).
Proof.
  intros H. unfold chantranslate_callback, sscanf_u_HT40_c, sscanf_u_set_u.
  destruct (Scan.conv_u s) as [v rest | |]; [destruct (H v rest eq_refl) | |];
    reflexivity.
Qed.

(** After a number and a character that is neither a digit nor a dash,
    the second [sscanf] stores the number and the type and returns 2 or 3. *)
Lemma sscanf_u_set_u_type (n : Z) (c : ascii) (t : string) :
  0 <= n < 2 ^ 32 -> Ctype.isdigit c = false -> c <> "-"%char ->
  exists r c1,
    sscanf_u_set_u (Fmt.u n ++ String c t) = (r, n, suffix_type (String c t), c1) /\
    (r = 2 \/ r = 3).
Proof.
  intros Hn Hc Hdash. rewrite sscanf_u_set_u_dec by assumption.
  unfold Scan.conv_set15, suffix_type.
  destruct (Ascii.eqb_spec c "-") as [-> | _]; [congruence |].
  destruct (Scan.span_not_dash 15 (String c t)) as [a b]. cbn [fst].
  destruct (Scan.literal "-" b) as [rest'' |]; [destruct (Scan.conv_u rest'') |];
    eauto.
Qed.

Lemma parse_unrecognised (n : Z) (c : ascii) (t : string) :
  0 <= n < 2 ^ 32 ->
  Ctype.isdigit c = false -> c <> "-"%char ->
  (forall tail, String c t <> "HT40-" ++ tail)%string ->
  (forall tail, String c t <> "HT40+" ++ tail)%string ->
  recognised_type (suffix_type (String c t)) = false ->
  chantranslate_callback (Fmt.u n ++ String c t) =
  (Some (zeroed_channel n),
   [cf_send_message (attributes_text (Fmt.u n ++ String c t)) MSGFLAG_INFO]).
Proof.
  intros Hn Hc Hdash Hminus Hplus Hty.
  unfold recognised_type in Hty. cbn [existsb] in Hty.
  apply orb_false_elim in Hty as [Hw5 Hty]. apply orb_false_elim in Hty as [Hw10 Hty].
  apply orb_false_elim in Hty as [H80 Hty]. apply orb_false_elim in Hty as [H160 _].
  destruct (sscanf_u_set_u_type n c t Hn Hc Hdash) as (r & c1 & E2 & Hr).
  unfold chantranslate_callback.
  rewrite sscanf_u_HT40_c_dec by assumption. rewrite E2.
  destruct (Scan.literal "HT40" (String c t)) as [rest' |] eqn:El;
    [apply literal_some in El; destruct rest' as [| m rest'']; cbn [Scan.conv_c] |].
  - destruct Hr as [-> | ->]; cbv beta iota zeta;
      rewrite ?Hw5, ?Hw10, ?H80, ?H160; reflexivity.
  - change (2 =? 2) with true. cbv iota.
    destruct (Ascii.eqb_spec m "-") as [-> | _]; [destruct (Hminus rest''); exact El |].
    destruct (Ascii.eqb_spec m "+") as [-> | _]; [destruct (Hplus rest''); exact El |].
    reflexivity.
  - destruct Hr as [-> | ->]; cbv beta iota zeta;
      rewrite ?Hw5, ?Hw10, ?H80, ?H160; reflexivity.
Qed.

End Degraded.

(** C6, as the code has it.  [NN] followed by [HT40-] or [HT40+] always
    yields a channel of that type; whatever is sent is informational, and a
    record of [NN] in the table that lacks the flag makes the parser send
    the message about 40MHz operation; text after the sign changes nothing.
    The table and its bound are declared in [wifi_ht_channels.h]: for
    [HT40-], whose loop runs up to [MAX_WIFI_HT_CHANNEL], the bound is taken
    to be the number of records of the table.  [NN] followed by any other
    suffix that the parser does not recognise, one whose text up to the
    first dash (fifteen characters at most) is none of w5, w10, vht80 and
    vht160 in any case, yields the plain channel [NN]: with one
    informational message when the suffix does not start with a dash, and
    with no message when it does.  A string without a leading number yields
    NULL and one error message. *)
Theorem chantranslate_degraded {hdr : headers} (n : Z) :
  0 <= n < 2 ^ 32 ->
  (exists evs,
     chantranslate_callback (Fmt.u n ++ "HT40-") =
     (Some {| control_freq := n; chan_type := NL80211_CHAN_HT40MINUS; chan_width := 0;
              unusual_center1 := 0; center_freq1 := 0; center_freq2 := 0 |}, evs) /\
     Forall is_info evs /\
     (List.length wifi_ht_channels = MAX_WIFI_HT_CHANNEL ->
      forall e, In e wifi_ht_channels ->
        table_match e n = true -> lacks e WIFI_HT_HT40MINUS = true ->
        In (cf_send_message (ht40_text "-" n) MSGFLAG_INFO) evs) /\
     (forall tail,
        chantranslate_callback (Fmt.u n ++ "HT40-" ++ tail) =
        chantranslate_callback (Fmt.u n ++ "HT40-"))) /\
  (exists evs,
     chantranslate_callback (Fmt.u n ++ "HT40+") =
     (Some {| control_freq := n; chan_type := NL80211_CHAN_HT40PLUS; chan_width := 0;
              unusual_center1 := 0; center_freq1 := 0; center_freq2 := 0 |}, evs) /\
     Forall is_info evs /\
     (forall e, In e wifi_ht_channels ->
        table_match e n = true -> lacks e WIFI_HT_HT40PLUS = true ->
        In (cf_send_message (ht40_text "+" n) MSGFLAG_INFO) evs) /\
     (forall tail,
        chantranslate_callback (Fmt.u n ++ "HT40+" ++ tail) =
        chantranslate_callback (Fmt.u n ++ "HT40+"))) /\
  (forall c t,
     Ctype.isdigit c = false -> c <> "-"%char ->
     (forall tail, String c t <> "HT40-" ++ tail)%string ->
     (forall tail, String c t <> "HT40+" ++ tail)%string ->
     recognised_type (suffix_type (String c t)) = false ->
     chantranslate_callback (Fmt.u n ++ String c t) =
     (Some (zeroed_channel n),
      [cf_send_message (attributes_text (Fmt.u n ++ String c t)) MSGFLAG_INFO])) /\
  (forall t,
     chantranslate_callback (Fmt.u n ++ String "-" t) = (Some (zeroed_channel n), [])) /\
  (forall s,
     (forall v rest, Scan.conv_u s <> Scan.Got v rest) ->
     chantranslate_callback s =
     (None, [cf_send_message (no_channel_text s) MSGFLAG_ERROR])).
Proof.
  intros Hn. split; [| split; [| split; [| split]]].
  - eexists. split; [exact (parse_ht40_minus n EmptyString Hn) |].
    split; [apply ht40_search_info |]. split.
    + intros Hsize e Hin Hm Hl. rewrite <- Hsize, firstn_all.
      eapply ht40_search_lacking; eassumption.
    + intros tail. rewrite (parse_ht40_minus n tail Hn).
      symmetry. exact (parse_ht40_minus n EmptyString Hn).
  - eexists. split; [exact (parse_ht40_plus n EmptyString Hn) |].
    split; [apply ht40_search_info |]. split.
    + intros e Hin Hm Hl. eapply ht40_search_lacking; eassumption.
    + intros tail. rewrite (parse_ht40_plus n tail Hn).
      symmetry. exact (parse_ht40_plus n EmptyString Hn).
  - intros c t. apply parse_unrecognised. assumption.
  - intros t. apply parse_dash. assumption.
  - apply @parse_no_number.
Qed.

Lemma chantranslate_degraded_witness :
  (exists evs,
     @chantranslate_callback sample_headers "40HT40+" =
     (Some {| control_freq := 40; chan_type := 3; chan_width := 0;
              unusual_center1 := 0; center_freq1 := 0; center_freq2 := 0 |}, evs) /\
     Forall is_info evs /\
     In (cf_send_message (@ht40_text sample_headers "+" 40) MSGFLAG_INFO) evs) /\
  (exists evs,
     @chantranslate_callback sample_headers "36HT40-" =
     (Some {| control_freq := 36; chan_type := 2; chan_width := 0;
              unusual_center1 := 0; center_freq1 := 0; center_freq2 := 0 |}, evs) /\
     Forall is_info evs /\
     In (cf_send_message (@ht40_text sample_headers "-" 36) MSGFLAG_INFO) evs /\
     @chantranslate_callback sample_headers "36HT40-5" =
     @chantranslate_callback sample_headers "36HT40-") /\
  fst (@chantranslate_callback sample_headers "6Q") = Some (zeroed_channel 6) /\
  fst (@chantranslate_callback sample_headers "garbage") = None.
Proof.
  destruct (@chantranslate_degraded sample_headers 40 ltac:(lia))
    as (_ & (evp & Ep & Hinfop & Hinp & _) & _ & _ & _).
  destruct (@chantranslate_degraded sample_headers 36 ltac:(lia))
    as ((evs & E & Hinfo & Hin & Htail) & _ & _ & _ & Hnone).
  destruct (@chantranslate_degraded sample_headers 6 ltac:(lia))
    as (_ & _ & Hq & _ & _).
  split; [| split; [| split]].
  - exists evp. split; [exact Ep |]. split; [exact Hinfop |].
    apply (Hinp {| chan := 40; freq := 5200; flags := 1 + 4 + 8;
                   freq80 := 5210; freq160 := 5250 |}).
    + right; left; reflexivity.
    + reflexivity.
    + reflexivity.
  - exists evs. split; [exact E |]. split; [exact Hinfo |]. split.
    + apply (Hin eq_refl {| chan := 36; freq := 5180; flags := 2 + 4 + 8;
                            freq80 := 5210; freq160 := 5250 |}).
      * left; reflexivity.
      * reflexivity.
      * reflexivity.
    + exact (Htail "5").
  - change "6Q" with (Fmt.u 6 ++ String "Q" EmptyString)%string.
    rewrite (Hq "Q"%char EmptyString).
    + reflexivity.
    + reflexivity.
    + discriminate.
    + intros tail; discriminate.
    + intros tail; discriminate.
    + reflexivity.
  - rewrite (Hnone "garbage").
    + reflexivity.
    + intros v rest; discriminate.
Defined.

(** The claim of C6 about unrecognised suffixes fails at two inputs.  For a
    suffix that starts with a dash the channel is returned and nothing is
    sent; and a suffix that starts with [HT40-] and goes on, which is none
    of the forms of the grammar, does not give the plain channel: the
    channel has the type HT40-. *)
Lemma chantranslate_unrecognised_exceptions :
  (fst (@chantranslate_callback sample_headers "6-5") = Some (zeroed_channel 6) /\
   ~ (exists e, In e (snd (@chantranslate_callback sample_headers "6-5")) /\ is_info e)) /\
  fst (@chantranslate_callback sample_headers "36HT40-5") <> Some (zeroed_channel 36) /\
  fst (@chantranslate_callback sample_headers "36HT40-5") =
    Some (with_chan_type (zeroed_channel 36) NL80211_CHAN_HT40MINUS).
Proof.
  split; [split; [reflexivity |] |].
  - intros (e & Hin & _). exact Hin.
  - split; [discriminate | reflexivity].
Qed.

(** ** C3: parsing the text of a parsed channel *)

Section Roundtrip.

Context {hdr : headers}.
Hypothesis status_fits : (28 <= STATUS_MAX)%nat.

Lemma snprintf_u (n : Z) : Fmt.snprintf STATUS_MAX (Fmt.u n) = Fmt.u n.
Proof. apply snprintf_fits. pose proof (u_length n). lia. Qed.

Lemma snprintf_u_suffix (n : Z) (sfx : string) :
  (String.length sfx <= 17)%nat ->
  Fmt.snprintf STATUS_MAX (Fmt.u n ++ sfx) = (Fmt.u n ++ sfx)%string.
Proof.
  intros H. apply snprintf_fits. rewrite length_append.
  pose proof (u_length n). lia.
Qed.

Lemma snprintf_u_center (n c : Z) (name : string) :
  (String.length name <= 7)%nat ->
  Fmt.snprintf STATUS_MAX (Fmt.u n ++ name ++ Fmt.u c) = (Fmt.u n ++ name ++ Fmt.u c)%string.
Proof.
  intros H. apply snprintf_u_suffix. rewrite length_append.
  pose proof (u_length c). lia.
Qed.

Lemma parse_width5 (n : Z) :
  0 <= n < 2 ^ 32 ->
  chantranslate_callback (Fmt.u n ++ "W5") =
  (Some (with_chan_width (zeroed_channel n) NL80211_CHAN_WIDTH_5), []).
Proof.
  intros Hn. unfold chantranslate_callback.
  rewrite sscanf_u_HT40_c_dec, sscanf_u_set_u_dec by (assumption || reflexivity).
  reflexivity.
Qed.

Lemma parse_width10 (n : Z) :
  0 <= n < 2 ^ 32 ->
  chantranslate_callback (Fmt.u n ++ "W10") =
  (Some (with_chan_width (zeroed_channel n) NL80211_CHAN_WIDTH_10), []).
Proof.
  intros Hn. unfold chantranslate_callback.
  rewrite sscanf_u_HT40_c_dec, sscanf_u_set_u_dec by (assumption || reflexivity).
  reflexivity.
Qed.

(** Searching again by the frequency of a capable record gives that
    record's frequency and centre. *)
Lemma vht_search_again (flag : Z) (center : wifi_channel -> Z) (mhz : string)
    (e : wifi_channel) (ret : local_channel_t) :
  coherent flag center wifi_ht_channels ->
  In e wifi_ht_channels -> lacks e flag = false ->
  vht_search flag center mhz wifi_ht_channels (u32 (freq e)) ret =
  (Some (with_center ret (u32 (freq e)) (u32 (center e)) (unusual_center1 ret)), []).
Proof.
  intros Hcoh Hin Hl.
  rewrite vht_search_flagged
    by (intros e' Hin' Hm'; apply (Hcoh e e' Hin Hin' Hl Hm')).
  assert (Hself : In e (filter (fun x => table_match x (u32 (freq e))) wifi_ht_channels)).
  { apply filter_In. split; [assumption |].
    unfold table_match. rewrite (Z.eqb_refl (u32 (freq e))). apply orb_true_r. }
  destruct (exists_last (l := filter (fun x => table_match x (u32 (freq e)))
                               wifi_ht_channels)) as (ms & e' & E).
  { intros E. rewrite E in Hself. destruct Hself. }
  assert (Hlast : In e' (filter (fun x => table_match x (u32 (freq e))) wifi_ht_channels))
    by (rewrite E; apply in_or_app; right; left; reflexivity).
  apply filter_In in Hlast as [Hin' Hm'].
  destruct (Hcoh e e' Hin Hin' Hl Hm') as (_ & Hf & Hc).
  rewrite E, fold_step_last, Hf, Hc. reflexivity.
Qed.

Lemma roundtrip_vht (v : vht) (pc : Z) (d : local_channel_t) (evs : list event) :
  coherent (vht_flag v) (vht_center v) wifi_ht_channels ->
  0 <= pc < 2 ^ 32 ->
  vht_search (vht_flag v) (vht_center v) (vht_mhz v) wifi_ht_channels pc
    (with_chan_width (zeroed_channel pc) (vht_width v)) = (Some d, evs) ->
  fst (chantranslate_callback (local_channel_to_str d)) = Some d.
Proof.
  intros Hcoh Hpc H.
  pose proof (vht_search_some _ _ _ _ _ _ _ _ H) as Hall.
  pose proof H as H'. rewrite vht_search_flagged in H' by exact Hall.
  injection H' as Ed _.
  destruct (filter (fun e => table_match e pc) wifi_ht_channels) as [| e0 l0] eqn:Ef.
  - (* no record: the channel still holds the number that was read *)
    cbn [fold_left] in Ed. subst d.
    assert (Es : local_channel_to_str (with_chan_width (zeroed_channel pc) (vht_width v)) =
                 (Fmt.u pc ++ match v with VHT80 => "VHT80" | VHT160 => "VHT160" end)%string).
    { destruct v; unfold local_channel_to_str; cbn;
        apply snprintf_u_suffix; simpl; lia. }
    rewrite Es, (parse_vht_plain v pc) by (assumption || (destruct v; reflexivity)).
    rewrite H. reflexivity.
  - destruct (exists_last (l := e0 :: l0)) as (ms & e & E); [discriminate |].
    rewrite E, fold_step_last in Ed.
    assert (Hlast : In e (filter (fun e => table_match e pc) wifi_ht_channels))
      by (rewrite Ef, E; apply in_or_app; right; left; reflexivity).
    apply filter_In in Hlast as [Hin Hm].
    pose proof (Hall e Hin Hm) as Hl.
    assert (Hf : 0 <= u32 (freq e) < 2 ^ 32) by (apply Z.mod_pos_bound; lia).
    subst d.
    assert (Es : local_channel_to_str
                   (with_center (with_chan_width (zeroed_channel pc) (vht_width v))
                      (u32 (freq e)) (u32 (vht_center v e)) 0) =
                 (Fmt.u (u32 (freq e)) ++
                  match v with VHT80 => "VHT80" | VHT160 => "VHT160" end)%string).
    { destruct v; unfold local_channel_to_str; cbn;
        apply snprintf_u_suffix; simpl; lia. }
    cbn [unusual_center1 with_chan_width zeroed_channel].
    rewrite Es, (parse_vht_plain v (u32 (freq e))) by (assumption || (destruct v; reflexivity)).
    rewrite (vht_search_again _ _ _ e _ Hcoh Hin Hl). reflexivity.
Qed.

End Roundtrip.

(** C3.  A channel that the parser returns for some string is returned
    again, equal in all six fields, when the parser is given the text that
    [local_channel_to_str] writes for it.  The status buffer must hold the
    longest channel text (27 characters), and the table must be coherent for
    both VHT widths: a record found again by the frequency of a capable
    record is capable and has the same frequency and centre. *)
Theorem parse_serialize_roundtrip {hdr : headers} :
  (28 <= STATUS_MAX)%nat ->
  coherent WIFI_HT_HT80 freq80 wifi_ht_channels ->
  coherent WIFI_HT_HT160 freq160 wifi_ht_channels ->
  forall s d evs,
    chantranslate_callback s = (Some d, evs) ->
    fst (chantranslate_callback (local_channel_to_str d)) = Some d.
Proof.
  intros Hmax H80 H160 s d evs H.
  unfold chantranslate_callback in H.
  destruct (sscanf_u_HT40_c s) as [[r pc] m] eqn:E1.
  pose proof (sscanf_u_HT40_c_range _ _ _ _ E1) as Hpc.
  destruct (r =? 2).
  - (* the HT40 forms *)
    destruct (m =? "-")%char; [| destruct (m =? "+")%char]; injection H as <- _.
    + replace (local_channel_to_str _) with (Fmt.u pc ++ "HT40-" ++ EmptyString)%string
        by (symmetry; unfold local_channel_to_str; cbn; apply snprintf_u_suffix;
            [assumption | simpl; lia]).
      rewrite parse_ht40_minus by assumption. reflexivity.
    + replace (local_channel_to_str _) with (Fmt.u pc ++ "HT40+" ++ EmptyString)%string
        by (symmetry; unfold local_channel_to_str; cbn; apply snprintf_u_suffix;
            [assumption | simpl; lia]).
      rewrite parse_ht40_plus by assumption. reflexivity.
    + replace (local_channel_to_str _) with (Fmt.u pc)
        by (symmetry; unfold local_channel_to_str; cbn; apply snprintf_u; assumption).
      rewrite parse_bare by assumption. reflexivity.
  - clear E1 Hpc r pc m.
    destruct (sscanf_u_set_u s) as [[[r pc] ty] c1] eqn:E2.
    destruct (sscanf_u_set_u_range _ _ _ _ _ E2) as [Hpc Hc1].
    destruct (r <=? 0); [discriminate H |].
    assert (Hbare : fst (chantranslate_callback (local_channel_to_str (zeroed_channel pc))) =
                    Some (zeroed_channel pc)).
    { replace (local_channel_to_str _) with (Fmt.u pc)
        by (symmetry; unfold local_channel_to_str; cbn; apply snprintf_u; assumption).
      rewrite parse_bare by assumption. reflexivity. }
    destruct (r =? 1); [injection H as <- _; exact Hbare |].
    destruct (Ctype.strcasecmp_eq ty "w5").
    { injection H as <- _.
      replace (local_channel_to_str _) with (Fmt.u pc ++ "W5")%string
        by (symmetry; unfold local_channel_to_str; cbn; apply snprintf_u_suffix;
            [assumption | simpl; lia]).
      rewrite parse_width5 by assumption. reflexivity. }
    destruct (Ctype.strcasecmp_eq ty "w10").
    { injection H as <- _.
      replace (local_channel_to_str _) with (Fmt.u pc ++ "W10")%string
        by (symmetry; unfold local_channel_to_str; cbn; apply snprintf_u_suffix;
            [assumption | simpl; lia]).
      rewrite parse_width10 by assumption. reflexivity. }
    destruct (Ctype.strcasecmp_eq ty "vht80").
    { cbv zeta in H. destruct (r =? 3).
      - injection H as <- _.
        replace (local_channel_to_str _)
          with (Fmt.u pc ++ "VHT80" ++ "-" ++ Fmt.u c1)%string
          by (symmetry; unfold local_channel_to_str; cbn;
              apply (snprintf_u_center Hmax pc c1 "VHT80-"); simpl; lia).
        rewrite (parse_vht_center VHT80) by (assumption || reflexivity). reflexivity.
      - exact (roundtrip_vht Hmax VHT80 pc d evs H80 Hpc H). }
    destruct (Ctype.strcasecmp_eq ty "vht160").
    { cbv zeta in H. destruct (r =? 3).
      - injection H as <- _.
        replace (local_channel_to_str _)
          with (Fmt.u pc ++ "VHT160" ++ "-" ++ Fmt.u c1)%string
          by (symmetry; unfold local_channel_to_str; cbn;
              apply (snprintf_u_center Hmax pc c1 "VHT160-"); simpl; lia).
        rewrite (parse_vht_center VHT160) by (assumption || reflexivity). reflexivity.
      - exact (roundtrip_vht Hmax VHT160 pc d evs H160 Hpc H). }
    injection H as <- _. exact Hbare.
Qed.

Lemma sample_coherent (v : vht) :
  coherent (@vht_flag sample_headers v) (vht_center v) (@wifi_ht_channels sample_headers).
Proof.
  intros e e' He He' Hl Hm. simpl in He, He'.
  destruct He as [<- | [<- | [<- | []]]]; destruct He' as [<- | [<- | [<- | []]]];
    destruct v; try discriminate Hl; try discriminate Hm; repeat split.
Qed.

Lemma parse_serialize_roundtrip_witness :
  @local_channel_to_str sample_headers
    {| control_freq := 5180; chan_type := 0; chan_width := 3;
       unusual_center1 := 0; center_freq1 := 5210; center_freq2 := 0 |} = "5180VHT80" /\
  fst (@chantranslate_callback sample_headers "5180VHT80") =
    Some {| control_freq := 5180; chan_type := 0; chan_width := 3;
            unusual_center1 := 0; center_freq1 := 5210; center_freq2 := 0 |}.
Proof.
  split; [reflexivity |].
  exact (@parse_serialize_roundtrip sample_headers
           ltac:(simpl; lia) (sample_coherent VHT80) (sample_coherent VHT160)
           "36VHT80" _ [] eq_refl).
Defined.

(** ** The channel controller *)

Section ControlFacts.

Context {hdr : headers}.

(** A refused hop: the error is reported, 0 is returned, and the state,
    its failure counter included, is what it was. *)
Lemma chancontrol_hop_refused (drv : driver) (w : local_wifi_t) (ch : local_channel_t) :
  (forall call, fst (drv call) < 0) ->
  seq_channel_failure w < 10 ->
  exists call msg,
    chancontrol_callback drv w 0 (Some ch) =
    (0, w, Some msg, [call; cf_send_message msg MSGFLAG_ERROR]) /\
    is_driver_call call = true.
Proof.
  intros Hdrv Hcnt. unfold chancontrol_callback, set_failed.
  apply Z.ltb_lt in Hcnt. rewrite Hcnt. cbn [andb Z.eqb].
  destruct (use_mac80211 w =? 0).
  - match goal with |- context [drv ?c] =>
      specialize (Hdrv c); destruct (drv c) as [r errstr]; cbn [fst] in Hdrv end.
    apply Z.ltb_lt in Hdrv. rewrite Hdrv. eexists _, _. split; reflexivity.
  - match goal with |- context [drv ?c] =>
      specialize (Hdrv c); destruct (drv c) as [r errstr]; cbn [fst] in Hdrv end.
    apply Z.ltb_lt in Hdrv. rewrite Hdrv. eexists _, _. split; [reflexivity |].
    destruct (chan_width ch =? 0); reflexivity.
Qed.

(** However many hops in a row are refused, each call returns 0 and the
    counter stays where it was. *)
Lemma hop_ticks_refused (k : nat) (w : local_wifi_t) (ch : local_channel_t) :
  seq_channel_failure w < 10 ->
  hop_ticks (repeat refusing k) w ch = (repeat 0 k, w).
Proof.
  intros Hcnt. induction k as [| k IH]; [reflexivity |].
  cbn [repeat hop_ticks].
  destruct (chancontrol_hop_refused refusing w ch) as (call & msg & E & _);
    [intros call; simpl; lia | assumption |].
  rewrite E, IH. reflexivity.
Qed.

(** An accepted channel sets the counter to 0 on both back ends. *)
Lemma chancontrol_accepted_resets (drv : driver) (w : local_wifi_t) (seqno : Z)
    (ch : local_channel_t) :
  (forall call, 0 <= fst (drv call)) ->
  exists msg evs,
    chancontrol_callback drv w seqno (Some ch) =
    (0, set_seq_channel_failure w 0, msg, evs).
Proof.
  intros Hdrv. unfold chancontrol_callback.
  destruct (use_mac80211 w =? 0).
  - match goal with |- context [drv ?c] =>
      specialize (Hdrv c); destruct (drv c) as [r errstr]; cbn [fst] in Hdrv end.
    destruct (Z.ltb_spec r 0); [lia |]. eauto.
  - match goal with |- context [drv ?c] =>
      specialize (Hdrv c); destruct (drv c) as [r errstr]; cbn [fst] in Hdrv end.
    destruct (Z.ltb_spec r 0); [lia |]. eauto.
Qed.

(** On the ioctl back end an accepted configure command is answered with
    the channel text. *)
Lemma chancontrol_ioctl_configresp (drv : driver) (w : local_wifi_t) (seqno : Z)
    (ch : local_channel_t) :
  (forall call, 0 <= fst (drv call)) -> use_mac80211 w = 0 -> seqno <> 0 ->
  snd (chancontrol_callback drv w seqno (Some ch)) =
  [iwconfig_set_channel (interface w) (control_freq ch);
   cf_send_configresp_channel seqno 1 (local_channel_to_str ch)].
Proof.
  intros Hdrv Hioctl Hseq. unfold chancontrol_callback. rewrite Hioctl. cbn [Z.eqb].
  match goal with |- context [drv ?c] =>
    specialize (Hdrv c); destruct (drv c) as [r errstr]; cbn [fst] in Hdrv end.
  destruct (Z.ltb_spec r 0); [lia |].
  destruct (Z.eqb_spec seqno 0); [contradiction | reflexivity].
Qed.

(** On the netlink back end no configure response is ever sent. *)
Lemma chancontrol_netlink_no_configresp (drv : driver) (w : local_wifi_t) (seqno : Z)
    (ch : local_channel_t) :
  use_mac80211 w <> 0 ->
  filter is_configresp (snd (chancontrol_callback drv w seqno (Some ch))) = [].
Proof.
  intros Hnl. unfold chancontrol_callback, set_failed.
  destruct (Z.eqb_spec (use_mac80211 w) 0); [contradiction |].
  match goal with |- context [drv ?c] => destruct (drv c) as [r errstr] end.
  destruct (r <? 0).
  - destruct ((seq_channel_failure w <? 10) && (seqno =? 0));
      destruct (chan_width ch =? 0); destruct (seqno =? 0); reflexivity.
  - destruct (chan_width ch =? 0); reflexivity.
Qed.

End ControlFacts.

(** C1.  The code at the failing input: twelve hops in a row are refused,
    starting from a counter of 0.  Every call, the tenth and the later ones
    included, returns 0, and the counter is still 0 at the end: a refused hop
    is reported (see [chancontrol_hop_refused]) but never counted, so the
    escalation behind [seq_channel_failure < 10] is never reached. *)
Theorem hop_failures_never_counted :
  @hop_ticks sample_headers (repeat refusing 12) (opened_wifi 1 0) (zeroed_channel 6) =
  (repeat 0 12, opened_wifi 1 0).
Proof. apply hop_ticks_refused. simpl; lia. Qed.

(** C2.  The code at the failing input: a configure command (sequence
    number 7) for channel 6 is accepted by the driver.  Both back ends
    return 0 and reset the counter from 3 to 0; the ioctl back end then sends
    the configure response with the text ["6"], the netlink back end sends
    nothing. *)
Theorem netlink_configure_unanswered :
  @chancontrol_callback sample_headers accepting (opened_wifi 1 3) 7
    (Some (zeroed_channel 6)) =
  (0, opened_wifi 1 0, None, [mac80211_set_channel_cache (Some "wlan0mon") 6 0]) /\
  @chancontrol_callback sample_headers accepting (opened_wifi 0 3) 7
    (Some (zeroed_channel 6)) =
  (0, opened_wifi 0 0, None,
   [iwconfig_set_channel "wlan0" 6; cf_send_configresp_channel 7 1 "6"]).
Proof. split; reflexivity. Qed.

(** C4.  A call with a channel asks the driver exactly once, first of
    all: on the netlink back end with a channel width, the width-aware
    request on the capture interface with the control frequency, the width
    and both centres; on the netlink back end without a width, the channel
    request with the control frequency and the HT type; on the ioctl back end
    the wireless-extensions request on the interface with the control
    frequency alone. *)
Theorem chancontrol_dispatch {hdr : headers} (drv : driver) (w : local_wifi_t)
    (seqno : Z) (ch : local_channel_t) :
  exists rest,
    snd (chancontrol_callback drv w seqno (Some ch)) =
    (if use_mac80211 w =? 0 then
       iwconfig_set_channel (interface w) (control_freq ch)
     else if chan_width ch =? 0 then
       mac80211_set_channel_cache (cap_interface w) (control_freq ch) (chan_type ch)
     else
       mac80211_set_frequency_cache (cap_interface w) (control_freq ch)
         (chan_width ch) (center_freq1 ch) (center_freq2 ch)) :: rest /\
    filter is_driver_call rest = [].
Proof.
  unfold chancontrol_callback, set_failed.
  destruct (use_mac80211 w =? 0).
  - match goal with |- context [drv ?c] => destruct (drv c) as [r errstr] end.
    destruct (r <? 0).
    + destruct ((seq_channel_failure w <? 10) && (seqno =? 0));
        [| destruct (seqno =? 0)]; eexists; split; reflexivity.
    + destruct (seqno =? 0); eexists; split; reflexivity.
  - destruct (chan_width ch =? 0); cbn [negb];
      match goal with |- context [drv ?c] => destruct (drv c) as [r errstr] end;
      (destruct (r <? 0);
       [destruct ((seq_channel_failure w <? 10) && (seqno =? 0));
          [| destruct (seqno =? 0)] |]; eexists; split; reflexivity).
Qed.

(** C10.  Without a channel the controller returns 0 at once: the state is
    untouched, [msg] is not written, and nothing is called, whatever the
    sequence number. *)
Theorem chancontrol_null_channel {hdr : headers} (drv : driver) (w : local_wifi_t)
    (seqno : Z) :
  chancontrol_callback drv w seqno None = (0, w, None, []).
Proof. reflexivity. Qed.

(** ** The capture loop *)

(** While the buffer is full the same packet is offered again after each
    wait, and the callback returns after the first send that succeeds. *)
Lemma pcap_dispatch_waits (w : local_wifi_t) (h : pcap_pkthdr) (data : list Z)
    (k : nat) (ok : Z) (later : list Z) :
  0 < ok ->
  pcap_dispatch_cb w h data (repeat 0 k ++ ok :: later) =
  (List.concat (repeat [cf_send_data (datalink_type w) (caplen h) data;
                   cf_handler_wait_ringbuffer] k) ++
   [cf_send_data (datalink_type w) (caplen h) data], true)%list.
Proof.
  intros Hok. induction k as [| k IH].
  - cbn. destruct (Z.ltb_spec ok 0); [lia |]. destruct (Z.eqb_spec ok 0); [lia |].
    reflexivity.
  - cbn [repeat app pcap_dispatch_cb List.concat]. rewrite IH. reflexivity.
Qed.

(** The callback returns only after a send that succeeded. *)
Lemma pcap_dispatch_returns (w : local_wifi_t) (h : pcap_pkthdr) (data : list Z)
    (sends : list Z) :
  snd (pcap_dispatch_cb w h data sends) = existsb (fun r => 0 <? r) sends.
Proof.
  induction sends as [| r later IH]; [reflexivity |].
  cbn [pcap_dispatch_cb existsb].
  destruct (Z.ltb_spec r 0); [| destruct (Z.eqb_spec r 0)].
  - destruct (pcap_dispatch_cb w h data later); cbn [snd] in *.
    destruct (Z.ltb_spec 0 r); [lia |]. exact IH.
  - destruct (pcap_dispatch_cb w h data later); cbn [snd] in *.
    subst r. exact IH.
  - destruct (Z.ltb_spec 0 r); [| lia]. reflexivity.
Qed.

(** After a failed send the loop goes round again: the next thing the
    callback does after the shutdown request is to send the packet again. *)
Lemma pcap_dispatch_error_goes_on (w : local_wifi_t) (h : pcap_pkthdr) (data : list Z)
    (bad next : Z) (later : list Z) :
  bad < 0 ->
  exists rest,
    fst (pcap_dispatch_cb w h data (bad :: next :: later)) =
    ([cf_send_data (datalink_type w) (caplen h) data; pcap_breakloop;
      cf_send_error "unable to send DATA frame"; cf_handler_spindown;
      cf_send_data (datalink_type w) (caplen h) data] ++ rest)%list.
Proof.
  intros Hbad. cbn [pcap_dispatch_cb]. apply Z.ltb_lt in Hbad. rewrite Hbad.
  destruct (next <? 0); [| destruct (next =? 0)];
    try destruct (pcap_dispatch_cb w h data later); eexists; reflexivity.
Qed.

(** C9.  The code at the failing input: the first send of a packet fails
    and the second would succeed.  After breaking the read loop, reporting
    the error and asking for the shutdown, the callback sends the same packet
    a second time, and returns because that send succeeded. *)
Theorem dispatch_resends_after_error :
  pcap_dispatch_cb (opened_wifi 1 0) {| ts := 0; caplen := 2 |} [8; 0] [-1; 1] =
  ([cf_send_data 127 2 [8; 0]; pcap_breakloop;
    cf_send_error "unable to send DATA frame"; cf_handler_spindown;
    cf_send_data 127 2 [8; 0]], true) /\
  filter is_send_data
    (after_spindown
       (fst (pcap_dispatch_cb (opened_wifi 1 0) {| ts := 0; caplen := 2 |} [8; 0] [-1; 1]))) =
  [cf_send_data 127 2 [8; 0]].
Proof. split; reflexivity. Qed.

(** ** The name of the monitor interface *)

Lemma d_two_digits (j : Z) : 0 <= j < 100 -> (String.length (Fmt.d j) <= 2)%nat.
Proof.
  intros Hj. unfold Fmt.d, Fmt.u.
  destruct (Z.ltb_spec j 0); [lia |].
  cbn [Fmt.dec_fuel]. destruct (Z.ltb_spec j 10); [simpl; lia |].
  destruct (Z.ltb_spec (j / 10) 10) as [_ | Hbig]; [simpl; lia |].
  assert (j / 10 < 10) by (apply Z.div_lt_upper_bound; lia). lia.
Qed.

Lemma kismon_fits (j : Z) :
  0 <= j < 100 ->
  Fmt.snprintf IFNAMSIZ ("kismon" ++ Fmt.d j) = ("kismon" ++ Fmt.d j)%string.
Proof.
  intros Hj. apply snprintf_fits. rewrite length_append.
  pose proof (d_two_digits j Hj). simpl. unfold IFNAMSIZ. lia.
Qed.

Section Naming.

Context {hdr : headers}.
Variable k : kernel.

Lemma find_next_ifnum_loop_first (basename : string) (n : nat) : forall i N,
  i <= N < i + Z.of_nat n ->
  if_nametoindex k (Fmt.snprintf IFNAMSIZ (basename ++ Fmt.d N)) = 0 ->
  (forall j, i <= j < N ->
     if_nametoindex k (Fmt.snprintf IFNAMSIZ (basename ++ Fmt.d j)) <> 0) ->
  find_next_ifnum_loop k basename n i = N.
Proof.
  induction n as [| n IH]; intros i N Hr H0 Hbefore; [lia |].
  cbn [find_next_ifnum_loop].
  destruct (Z.eqb_spec (if_nametoindex k (Fmt.snprintf IFNAMSIZ (basename ++ Fmt.d i))) 0)
    as [Ei | Ei].
  - destruct (Z.eq_dec i N) as [-> | Hne]; [reflexivity |].
    destruct (Hbefore i); [lia | assumption].
  - destruct (Z.eq_dec i N) as [-> | Hne]; [contradiction |].
    apply IH; [lia | assumption |]. intros j Hj. apply Hbefore. lia.
Qed.

Lemma find_next_ifnum_loop_none (basename : string) (n : nat) : forall i,
  (forall j, i <= j < i + Z.of_nat n ->
     if_nametoindex k (Fmt.snprintf IFNAMSIZ (basename ++ Fmt.d j)) <> 0) ->
  find_next_ifnum_loop k basename n i = -1.
Proof.
  induction n as [| n IH]; intros i Hall; [reflexivity |].
  cbn [find_next_ifnum_loop].
  destruct (Z.eqb_spec (if_nametoindex k (Fmt.snprintf IFNAMSIZ (basename ++ Fmt.d i))) 0)
    as [Ei | Ei].
  - destruct (Hall i); [lia | assumption].
  - apply IH. intros j Hj. apply Hall. lia.
Qed.

(** [find_next_ifnum("kismon")]: the least number below 100 whose name is
    free, or -1 when all hundred names are taken. *)
Lemma find_next_ifnum_kismon :
  (forall N, 0 <= N < 100 ->
     if_nametoindex k ("kismon" ++ Fmt.d N) = 0 ->
     (forall j, 0 <= j < N -> if_nametoindex k ("kismon" ++ Fmt.d j) <> 0) ->
     find_next_ifnum k "kismon" = N) /\
  ((forall j, 0 <= j < 100 -> if_nametoindex k ("kismon" ++ Fmt.d j) <> 0) ->
   find_next_ifnum k "kismon" = -1).
Proof.
  split.
  - intros N HN H0 Hbefore. apply find_next_ifnum_loop_first.
    + lia.
    + rewrite kismon_fits by assumption. exact H0.
    + intros j Hj. rewrite kismon_fits by lia. apply Hbefore. lia.
  - intros Hall. apply find_next_ifnum_loop_none.
    intros j Hj. rewrite kismon_fits by lia. apply Hall. lia.
Qed.

End Naming.

(** The stage that settles [cap_interface], when the interface is not in
    monitor mode, no [vif=] flag is given, no monitor interface with the
    same address is adopted and [cap_interface] is still unset: a parent
    name with [strlen + 3 < IFNAMSIZ] gives [<parent>mon], and the stage
    stops with its message when an interface of that name answers the mode
    query with another mode than monitor; a longer parent name gives
    [kismonN] for the least [N] in 0..99 for which no interface [kismonN]
    exists, and the stage stops when all hundred exist. *)
Lemma open_cap_interface_name {hdr : headers} (k : kernel) (w : local_wifi_t)
    (definition : string) (hwaddr : list Z) (mode : Z) :
  mode <> LINUX_WLEXT_MONITOR ->
  cap_interface w = None ->
  cf_find_flag "vif" definition = None ->
  (let existing_ifnum :=
     find_interface_mode_by_mac k (Some (interface w)) LINUX_WLEXT_MONITOR hwaddr in
   existing_ifnum < 0 \/ if_indextoname k existing_ifnum = None) ->
  let parent := interface w in
  let out := open_cap_interface k w definition hwaddr mode in
  ((String.length parent + 3 < IFNAMSIZ)%nat ->
     (forall m, iwconfig_get_mode k (parent ++ "mon") = Some m ->
        m <> LINUX_WLEXT_MONITOR ->
        out = inl (false_vif_text parent (parent ++ "mon"))) /\
     (iwconfig_get_mode k (parent ++ "mon") = None \/
      iwconfig_get_mode k (parent ++ "mon") = Some LINUX_WLEXT_MONITOR ->
      exists w', out = inr w' /\ cap_interface w' = Some (parent ++ "mon")%string)) /\
  ((IFNAMSIZ <= String.length parent + 3)%nat ->
     (forall N, 0 <= N < 100 ->
        if_nametoindex k ("kismon" ++ Fmt.d N) = 0 ->
        (forall j, 0 <= j < N -> if_nametoindex k ("kismon" ++ Fmt.d j) <> 0) ->
        exists w', out = inr w' /\ cap_interface w' = Some ("kismon" ++ Fmt.d N)%string) /\
     ((forall j, 0 <= j < 100 -> if_nametoindex k ("kismon" ++ Fmt.d j) <> 0) ->
      out = inl (no_kismon_text parent))).
Proof.
  intros Hmode Hcap Hvif Hadopt parent out.
  assert (Eout : out =
    if (IFNAMSIZ <=? String.length parent + 3)%nat then
      let ifnum := find_next_ifnum k "kismon" in
      if ifnum <? 0 then inl (no_kismon_text parent)
      else inr (set_cap_interface w (Fmt.snprintf IFNAMSIZ ("kismon" ++ Fmt.d ifnum)))
    else
      let ifnam := Fmt.snprintf IFNAMSIZ (parent ++ "mon") in
      match iwconfig_get_mode k ifnam with
      | Some mode' =>
          if negb (mode' =? LINUX_WLEXT_MONITOR)
          then inl (false_vif_text parent ifnam)
          else inr (set_cap_interface w ifnam)
      | None => inr (set_cap_interface w ifnam)
      end).
  { subst out parent. unfold open_cap_interface.
    destruct (Z.eqb_spec mode LINUX_WLEXT_MONITOR); [contradiction |]. cbn [negb].
    rewrite Hvif. cbv zeta in Hadopt.
    assert (Esame :
      (if find_interface_mode_by_mac k (Some (interface w)) LINUX_WLEXT_MONITOR hwaddr >=? 0
       then match if_indextoname k
                    (find_interface_mode_by_mac k (Some (interface w))
                       LINUX_WLEXT_MONITOR hwaddr) with
            | Some ifnam => set_cap_interface w ifnam
            | None => w
            end
       else w) = w).
    { destruct Hadopt as [Hneg | Hnone].
      - destruct (Z.geb_spec
                    (find_interface_mode_by_mac k (Some (interface w))
                       LINUX_WLEXT_MONITOR hwaddr) 0); [lia | reflexivity].
      - rewrite Hnone. destruct (_ >=? 0); reflexivity. }
    cbv zeta. unfold set_cap_interface in *. rewrite Esame, Hcap. reflexivity. }
  split.
  - intros Hshort.
    assert (Efit : Fmt.snprintf IFNAMSIZ (parent ++ "mon") = (parent ++ "mon")%string).
    { apply snprintf_fits. rewrite length_append. simpl. lia. }
    destruct (Nat.leb_spec IFNAMSIZ (String.length parent + 3)) as [Hlong | _]; [lia |].
    cbv zeta in Eout. rewrite Efit in Eout. split.
    + intros m Em Hm. rewrite Em in Eout.
      destruct (Z.eqb_spec m LINUX_WLEXT_MONITOR); [contradiction |].
      cbn [negb] in Eout. exact Eout.
    + intros [En | Em]; rewrite ?En, ?Em in Eout.
      * eexists; split; [exact Eout | reflexivity].
      * rewrite Z.eqb_refl in Eout. eexists; split; [exact Eout | reflexivity].
  - intros Hlong.
    destruct (Nat.leb_spec IFNAMSIZ (String.length parent + 3)) as [_ | Hshort]; [| lia].
    cbv zeta in Eout. destruct (find_next_ifnum_kismon k) as [Hfirst Hnone]. split.
    + intros N HN H0 Hbefore. rewrite (Hfirst N HN H0 Hbefore) in Eout.
      destruct (Z.ltb_spec N 0); [lia |]. rewrite kismon_fits in Eout by assumption.
      eexists; split; [exact Eout | reflexivity].
    + intros Hall. rewrite (Hnone Hall) in Eout. exact Eout.
Qed.

(** ** The text of the UUID *)

Lemma nibbles_zero (k : nat) : nibbles k 0 = Fmt.zeros k.
Proof.
  induction k as [| k IH]; [reflexivity |].
  cbn [nibbles Fmt.zeros]. rewrite IH, Zdiv_0_l. reflexivity.
Qed.

Lemma nibbles_snoc (k : nat) (n : Z) :
  nibbles (S k) n =
  (nibbles k (n / 16) ++ String (Fmt.hex_char (n mod 16)) EmptyString)%string.
Proof.
  induction k as [| k IH].
  - cbn [nibbles append]. change (16 ^ Z.of_nat 0) with 1. rewrite Z.div_1_r. reflexivity.
  - change (nibbles (S (S k)) n)
      with (String (Fmt.hex_char (n / 16 ^ Z.of_nat (S k) mod 16)) (nibbles (S k) n)).
    rewrite IH. cbn [nibbles append]. f_equal. f_equal. f_equal.
    rewrite Nat2Z.inj_succ, Z.pow_succ_r by lia.
    rewrite Z.div_div by (try apply Z.pow_pos_nonneg; lia). reflexivity.
Qed.

Lemma nibbles_length (k : nat) (n : Z) : String.length (nibbles k n) = k.
Proof. induction k as [| k IH]; simpl; [reflexivity | now rewrite IH]. Qed.

(** The shortest hexadecimal text of [n], as [%X] prints it, is the last
    places of its text in [k] places, and the places before are zeros. *)
Lemma hex_fuel_pad (k : nat) : forall f n acc,
  (1 <= k <= f)%nat -> 0 <= n < 16 ^ Z.of_nat k ->
  exists p, (p < k)%nat /\
    Fmt.hex_fuel f n acc = (nibbles (k - p) n ++ acc)%string /\
    nibbles k n = (Fmt.zeros p ++ nibbles (k - p) n)%string.
Proof.
  induction k as [| k IH]; intros f n acc Hk Hn; [lia |].
  destruct f as [| f]; [lia |].
  rewrite Nat2Z.inj_succ, Z.pow_succ_r in Hn by lia.
  cbn [Fmt.hex_fuel]. destruct (Z.ltb_spec n 16) as [Hsmall | Hbig].
  - exists k. replace (S k - k)%nat with 1%nat by lia.
    split; [lia |]. split.
    + cbn [nibbles append]. change (16 ^ Z.of_nat 0) with 1. rewrite Z.div_1_r. reflexivity.
    + rewrite nibbles_snoc, Z.div_small, nibbles_zero by lia.
      cbn [nibbles]. change (16 ^ Z.of_nat 0) with 1. rewrite Z.div_1_r. reflexivity.
  - assert (Hk1 : (1 <= k)%nat).
    { destruct k; [simpl in Hn; lia | lia]. }
    destruct (IH f (n / 16) (String (Fmt.hex_char (n mod 16)) acc)) as (p & Hp & Eh & En).
    + lia.
    + split; [apply Z.div_pos; lia | apply Z.div_lt_upper_bound; lia].
    + exists p. replace (S k - p)%nat with (S (k - p)) by lia.
      split; [lia |]. split.
      * rewrite Eh, nibbles_snoc, append_assoc. reflexivity.
      * rewrite (nibbles_snoc k), En, (nibbles_snoc (k - p)), append_assoc. reflexivity.
Qed.

Lemma X0_nibbles (k : nat) (n : Z) :
  (1 <= k <= 8)%nat -> 0 <= n < 16 ^ Z.of_nat k -> Fmt.X0 k n = nibbles k n.
Proof.
  intros Hk Hn. unfold Fmt.X0.
  destruct (hex_fuel_pad k 8 n EmptyString) as (p & Hp & Eh & En); [lia | assumption |].
  rewrite Eh, append_empty_r, nibbles_length, En.
  replace (k - (k - p))%nat with p by lia. reflexivity.
Qed.

Lemma hex_char_upper (v : Z) : 0 <= v < 16 -> upper_hex (Fmt.hex_char v) = true.
Proof.
  intros Hv.
  assert (Hcases : v = 0 \/ v = 1 \/ v = 2 \/ v = 3 \/ v = 4 \/ v = 5 \/ v = 6 \/ v = 7 \/
                   v = 8 \/ v = 9 \/ v = 10 \/ v = 11 \/ v = 12 \/ v = 13 \/ v = 14 \/
                   v = 15) by lia.
  repeat (destruct Hcases as [-> | Hcases]; [reflexivity |]).
  subst v; reflexivity.
Qed.

Lemma all_chars_append (p : ascii -> bool) (a b : string) :
  all_chars p (a ++ b) = all_chars p a && all_chars p b.
Proof.
  induction a as [| c a IH]; cbn [append all_chars]; [reflexivity |].
  rewrite IH, andb_assoc. reflexivity.
Qed.

Lemma nibbles_upper (k : nat) (n : Z) : all_chars upper_hex (nibbles k n) = true.
Proof.
  induction k as [| k IH]; cbn [nibbles all_chars]; [reflexivity |].
  rewrite IH, hex_char_upper by (apply Z.mod_pos_bound; lia). reflexivity.
Qed.

(** The text made of six address bytes is eight hexadecimal digits, the
    text [-0000-0000-0000-] and twelve hexadecimal digits, 36 characters in
    all.  The first eight are the eight places of the 32-bit checksum of
    ["kismet_cap_linux_wifi"], the last twelve are the two places of each of
    the six address bytes in order, and every digit is one of [0-9A-F]. *)
Lemma open_uuid_shape {hdr : headers} (b0 b1 b2 b3 b4 b5 : Z) :
  (37 <= STATUS_MAX)%nat ->
  0 <= b0 < 256 -> 0 <= b1 < 256 -> 0 <= b2 < 256 ->
  0 <= b3 < 256 -> 0 <= b4 < 256 -> 0 <= b5 < 256 ->
  let csum := u32 (adler32_csum "kismet_cap_linux_wifi" 21) in
  let mac := (nibbles 2 b0 ++ nibbles 2 b1 ++ nibbles 2 b2 ++
              nibbles 2 b3 ++ nibbles 2 b4 ++ nibbles 2 b5)%string in
  open_uuid [b0; b1; b2; b3; b4; b5] =
    (nibbles 8 csum ++ "-0000-0000-0000-" ++ mac)%string /\
  String.length (open_uuid [b0; b1; b2; b3; b4; b5]) = 36%nat /\
  all_chars upper_hex (nibbles 8 csum ++ mac) = true.
Proof.
  intros Hmax H0 H1 H2 H3 H4 H5 csum mac.
  assert (Hbyte : forall b, 0 <= b < 256 -> Fmt.X0 2 (Z.land b 255) = nibbles 2 b).
  { intros b Hb. change 255 with (Z.ones 8).
    rewrite Z.land_ones, Z.mod_small by (try change (2 ^ 8) with 256; lia).
    apply X0_nibbles; [lia | change (16 ^ Z.of_nat 2) with 256; lia]. }
  assert (Hsum : Fmt.X0 8 (Z.land (adler32_csum "kismet_cap_linux_wifi" 21) 4294967295) =
                 nibbles 8 csum).
  { change 4294967295 with (Z.ones 32). rewrite Z.land_ones by lia.
    apply X0_nibbles; [lia |]. change (16 ^ Z.of_nat 8) with (2 ^ 32).
    apply Z.mod_pos_bound. lia. }
  assert (Hlen : String.length (nibbles 8 csum ++ "-0000-0000-0000-" ++ mac) = 36%nat).
  { subst mac. rewrite !length_append, !nibbles_length. reflexivity. }
  assert (E : open_uuid [b0; b1; b2; b3; b4; b5] =
              (nibbles 8 csum ++ "-0000-0000-0000-" ++ mac)%string).
  { unfold open_uuid. cbn [nth].
    rewrite Hsum, !Hbyte by assumption.
    apply snprintf_fits. fold mac. rewrite Hlen. lia. }
  split; [exact E |]. split; [rewrite E; exact Hlen |].
  subst mac. rewrite !all_chars_append, !nibbles_upper. reflexivity.
Qed.

(** * Further facts *)

(** ** What the parser can return *)

Section ParserShape.

Context {hdr : headers}.

Lemma vht_search_result (flag : Z) (center : wifi_channel -> Z) (mhz : string)
    (pc : Z) (tbl : list wifi_channel) : forall ret,
  (exists d,
     vht_search flag center mhz tbl pc ret = (Some d, []) /\
     chan_type d = chan_type ret /\ chan_width d = chan_width ret /\
     unusual_center1 d = unusual_center1 ret /\ center_freq2 d = center_freq2 ret /\
     ((control_freq d = control_freq ret /\ center_freq1 d = center_freq1 ret) \/
      (exists e, In e tbl /\ control_freq d = u32 (freq e) /\
                 center_freq1 d = u32 (center e)))) \/
  vht_search flag center mhz tbl pc ret =
  (None, [cf_send_message (vht_text mhz pc) MSGFLAG_ERROR]).
Proof.
  induction tbl as [| e tl IH]; intros ret.
  - left. exists ret. repeat split. left. split; reflexivity.
  - cbn [vht_search]. destruct (table_match e pc).
    + destruct (lacks e flag); [right; reflexivity |].
      destruct (IH (with_center ret (u32 (freq e)) (u32 (center e)) (unusual_center1 ret)))
        as [(d & E & Ht & Hw & Hu & Hc & Hfrom) | E]; [| right; exact E].
      left. exists d. split; [exact E |]. cbn in Ht, Hw, Hu, Hc.
      repeat (split; [assumption |]).
      right. destruct Hfrom as [[Hf Hc1] | (e' & Hin & Hf & Hc1)].
      * exists e. cbn in Hf, Hc1. repeat split; [left; reflexivity | assumption | assumption].
      * exists e'. repeat split; [right; assumption | assumption | assumption].
    + destruct (IH ret) as [(d & E & Ht & Hw & Hu & Hc & Hfrom) | E]; [| right; exact E].
      left. exists d. repeat (split; [assumption |]).
      destruct Hfrom as [Hsame | (e' & Hin & Hf & Hc1)]; [left; assumption |].
      right. exists e'. repeat split; [right; assumption | assumption | assumption].
Qed.

Lemma u32_range (x : Z) : 0 <= u32 x < 2 ^ 32.
Proof. apply Z.mod_pos_bound. lia. Qed.

Lemma chantranslate_parsed_shape (s : string) (d : local_channel_t) (evs : list event) :
  chantranslate_callback s = (Some d, evs) -> parsed_shape d.
Proof.
  intros H. unfold chantranslate_callback in H.
  destruct (sscanf_u_HT40_c s) as [[r pc] m] eqn:E1.
  pose proof (sscanf_u_HT40_c_range _ _ _ _ E1) as Hpc.
  destruct (r =? 2).
  - destruct (m =? "-")%char; [| destruct (m =? "+")%char]; injection H as <- _;
      unfold parsed_shape; cbn; repeat split; try lia; auto 10.
  - clear E1 Hpc r pc m.
    destruct (sscanf_u_set_u s) as [[[r pc] ty] c1] eqn:E2.
    destruct (sscanf_u_set_u_range _ _ _ _ _ E2) as [Hpc Hc1].
    destruct (r <=? 0); [discriminate H |].
    destruct (r =? 1);
      [injection H as <- _; unfold parsed_shape; cbn; repeat split; try lia; auto 10 |].
    destruct (Ctype.strcasecmp_eq ty "w5");
      [injection H as <- _; unfold parsed_shape; cbn; repeat split; try lia; auto 10 |].
    destruct (Ctype.strcasecmp_eq ty "w10");
      [injection H as <- _; unfold parsed_shape; cbn; repeat split; try lia; auto 10 |].
    assert (Hvht : forall flag center mhz w,
      w = NL80211_CHAN_WIDTH_80 \/ w = NL80211_CHAN_WIDTH_160 ->
      vht_search flag center mhz wifi_ht_channels pc
        (with_chan_width (zeroed_channel pc) w) = (Some d, evs) -> parsed_shape d).
    { intros flag center mhz w Hw Hs.
      destruct (vht_search_result flag center mhz pc wifi_ht_channels
                  (with_chan_width (zeroed_channel pc) w))
        as [(d' & E & Ht & Hwd & Hu & Hc & Hfrom) | E]; rewrite E in Hs; [| discriminate Hs].
      injection Hs as <- _. cbn in Ht, Hwd, Hu, Hc.
      unfold parsed_shape. rewrite Ht, Hwd, Hu, Hc.
      destruct Hfrom as [[Hf Hc1'] | (e & _ & Hf & Hc1')]; rewrite Hf, Hc1'; cbn;
        repeat split; try apply u32_range; try lia;
        destruct Hw as [-> | ->]; auto 10. }
    destruct (Ctype.strcasecmp_eq ty "vht80").
    { cbv zeta in H. destruct (r =? 3); [| eapply Hvht; [left; reflexivity | exact H]].
      injection H as <- _. unfold parsed_shape; cbn; repeat split; try lia; auto 10. }
    destruct (Ctype.strcasecmp_eq ty "vht160").
    { cbv zeta in H. destruct (r =? 3); [| eapply Hvht; [right; reflexivity | exact H]].
      injection H as <- _. unfold parsed_shape; cbn; repeat split; try lia; auto 10. }
    injection H as <- _. unfold parsed_shape; cbn; repeat split; try lia; auto 10.
Qed.

(** Every channel the parser returns has one of four shapes: plain; HT40
    above or below, without width or centre; 5 or 10 MHz wide, without
    centre; 80 or 160 MHz wide with a centre.  The second centre is always
    0 and every frequency fits in 32 bits. *)
Theorem chantranslate_shape (s : string) (d : local_channel_t) (evs : list event) :
  chantranslate_callback s = (Some d, evs) -> parsed_shape d.
Proof. apply chantranslate_parsed_shape. Qed.

(** The parser sends an error exactly when it returns NULL: with NULL goes
    one error message and nothing else, with a channel go informational
    messages only. *)
Theorem chantranslate_messages (s : string) :
  match chantranslate_callback s with
  | (None, evs) => exists msg, evs = [cf_send_message msg MSGFLAG_ERROR]
  | (Some _, evs) => Forall is_info evs
  end.
Proof.
  unfold chantranslate_callback.
  destruct (sscanf_u_HT40_c s) as [[r pc] m].
  destruct (r =? 2).
  - destruct (m =? "-")%char; [apply ht40_search_info |].
    destruct (m =? "+")%char; [apply ht40_search_info |].
    constructor; [eexists; reflexivity | constructor].
  - destruct (sscanf_u_set_u s) as [[[r' pc'] ty] c1].
    destruct (r' <=? 0); [eexists; reflexivity |].
    destruct (r' =? 1); [constructor |].
    destruct (Ctype.strcasecmp_eq ty "w5"); [constructor |].
    destruct (Ctype.strcasecmp_eq ty "w10"); [constructor |].
    assert (Hvht : forall flag center mhz ret,
      match vht_search flag center mhz wifi_ht_channels pc' ret with
      | (None, evs) => exists msg, evs = [cf_send_message msg MSGFLAG_ERROR]
      | (Some _, evs) => Forall is_info evs
      end).
    { intros flag center mhz ret.
      destruct (vht_search_result flag center mhz pc' wifi_ht_channels ret)
        as [(d' & E & _) | E]; rewrite E; [constructor | eexists; reflexivity]. }
    destruct (Ctype.strcasecmp_eq ty "vht80");
      [cbv zeta; destruct (r' =? 3); [constructor | apply Hvht] |].
    destruct (Ctype.strcasecmp_eq ty "vht160");
      [cbv zeta; destruct (r' =? 3); [constructor | apply Hvht] |].
    constructor; [eexists; reflexivity | constructor].
Qed.

End ParserShape.

(** ** Spellings of the suffixes *)

Lemma tolower_cases (c l : ascii) :
  Ctype.tolower c = l -> c = l \/ c = ascii_of_nat (nat_of_ascii l - 32).
Proof.
  intros <-. destruct c as [[] [] [] [] [] [] [] []];
    first [left; reflexivity | right; reflexivity].
Qed.

Lemma tolower_w (c : ascii) :
  Ctype.tolower c = "w"%char ->
  Ctype.isdigit c = false /\ ("H" =? c)%char = false.
Proof.
  destruct c as [[] [] [] [] [] [] [] []]; vm_compute; intros E;
    try discriminate E; split; reflexivity.
Qed.

Section Spellings.

Context {hdr : headers}.

(** The 5 and 10 MHz suffixes are read in any mix of upper and lower case,
    and a dash with anything after it changes nothing: the channel has the
    number and the width, no centre, and nothing is sent. *)
Theorem chantranslate_narrow (v : narrow) (n : Z) (sfx tail : string) :
  0 <= n < 2 ^ 32 -> Ctype.lower sfx = narrow_name v ->
  chantranslate_callback (Fmt.u n ++ sfx) =
    (Some {| control_freq := n; chan_type := 0; chan_width := narrow_width v;
             unusual_center1 := 0; center_freq1 := 0; center_freq2 := 0 |}, []) /\
  chantranslate_callback (Fmt.u n ++ sfx ++ String "-" tail) =
    (Some {| control_freq := n; chan_type := 0; chan_width := narrow_width v;
             unusual_center1 := 0; center_freq1 := 0; center_freq2 := 0 |}, []).
Proof.
  intros Hn Hs.
  assert (Hd : no_dash sfx = true)
    by (rewrite <- lower_no_dash, Hs; destruct v; reflexivity).
  assert (Hl : (String.length sfx <= 15)%nat)
    by (rewrite <- lower_length, Hs; destruct v; simpl; lia).
  destruct sfx as [| c t]; [destruct v; discriminate Hs |].
  assert (Hc : Ctype.tolower c = "w"%char) by (destruct v; simpl in Hs; congruence).
  destruct (tolower_w c Hc) as [Hdig HH].
  split.
  - unfold chantranslate_callback.
    rewrite sscanf_u_HT40_c_dec, sscanf_u_set_u_dec by assumption.
    rewrite conv_set15_end by (assumption || discriminate).
    cbn [Scan.literal]. rewrite HH. cbv beta iota zeta.
    change (1 =? 2) with false. change (2 <=? 0) with false. change (2 =? 1) with false.
    cbv iota. unfold Ctype.strcasecmp_eq. rewrite Hs. destruct v; reflexivity.
  - unfold chantranslate_callback.
    rewrite sscanf_u_HT40_c_dec, sscanf_u_set_u_dec by assumption.
    rewrite conv_set15_dash by (assumption || discriminate).
    cbn [Scan.literal append]. rewrite HH.
    change ("-" =? "-")%char with true. cbv iota.
    destruct (Scan.conv_u tail); cbv beta iota zeta;
      unfold Ctype.strcasecmp_eq; rewrite Hs; destruct v; reflexivity.
Qed.

(** The HT40 suffix, unlike the others, is read in upper case only, and
    anything after its sign is ignored: [ht40+] or [ht40-] in any other
    spelling gives the plain channel and the message about attributes, and
    [HT40+] or [HT40-] followed by more text gives what it gives alone. *)
Theorem chantranslate_ht40_spelling (n : Z) (sfx tail : string) :
  0 <= n < 2 ^ 32 ->
  (Ctype.lower sfx = "ht40+" \/ Ctype.lower sfx = "ht40-") ->
  sfx <> "HT40+" -> sfx <> "HT40-" ->
  chantranslate_callback (Fmt.u n ++ sfx) =
    (Some (zeroed_channel n),
     [cf_send_message (attributes_text (Fmt.u n ++ sfx)) MSGFLAG_INFO]) /\
  chantranslate_callback (Fmt.u n ++ "HT40+" ++ tail) =
    chantranslate_callback (Fmt.u n ++ "HT40+") /\
  chantranslate_callback (Fmt.u n ++ "HT40-" ++ tail) =
    chantranslate_callback (Fmt.u n ++ "HT40-").
Proof.
  intros Hn Hs Hplus Hminus. split; [| split].
  - destruct sfx as [| c1 [| c2 [| c3 [| c4 [| c5 [| c6 t]]]]]];
      try (destruct Hs as [Hs | Hs]; discriminate Hs).
    assert (H1 : Ctype.tolower c1 = "h"%char) by (destruct Hs as [Hs | Hs]; simpl in Hs; congruence).
    assert (H2 : Ctype.tolower c2 = "t"%char) by (destruct Hs as [Hs | Hs]; simpl in Hs; congruence).
    assert (H3 : Ctype.tolower c3 = "4"%char) by (destruct Hs as [Hs | Hs]; simpl in Hs; congruence).
    assert (H4 : Ctype.tolower c4 = "0"%char) by (destruct Hs as [Hs | Hs]; simpl in Hs; congruence).
    assert (H5 : Ctype.tolower c5 = "+"%char \/ Ctype.tolower c5 = "-"%char)
      by (destruct Hs as [Hs | Hs]; simpl in Hs; [left | right]; congruence).
    clear Hs.
    destruct (tolower_cases _ _ H1) as [-> | ->]; try discriminate H1;
    destruct (tolower_cases _ _ H2) as [-> | ->]; try discriminate H2;
    destruct (tolower_cases _ _ H3) as [-> | ->]; try discriminate H3;
    destruct (tolower_cases _ _ H4) as [-> | ->]; try discriminate H4;
    destruct H5 as [H5 | H5];
    destruct (tolower_cases _ _ H5) as [-> | ->]; try discriminate H5;
    try (exfalso; apply Hplus; reflexivity); try (exfalso; apply Hminus; reflexivity);
    unfold chantranslate_callback;
    rewrite sscanf_u_HT40_c_dec, sscanf_u_set_u_dec by (assumption || reflexivity);
    reflexivity.
  - rewrite parse_ht40_plus by assumption.
    rewrite (parse_ht40_plus n EmptyString) by assumption. reflexivity.
  - rewrite parse_ht40_minus by assumption.
    rewrite (parse_ht40_minus n EmptyString) by assumption. reflexivity.
Qed.

End Spellings.

(** ** The text of a channel *)

Lemma substring_length (s : string) : forall m,
  (String.length (substring 0 m s) <= Nat.min m (String.length s))%nat.
Proof.
  induction s as [| c s IH]; intros [| m]; simpl; try lia.
  specialize (IH m). lia.
Qed.

Section ChannelText.

Context {hdr : headers}.

(** The text of a channel, whatever its fields hold, has at most 27
    characters and always leaves room for the terminator in a buffer of
    [STATUS_MAX] bytes. *)
Theorem local_channel_to_str_length (d : local_channel_t) :
  (String.length (local_channel_to_str d) <= 27)%nat /\
  (String.length (local_channel_to_str d) <= STATUS_MAX - 1)%nat.
Proof.
  assert (Hcut : forall body, (String.length body <= 27)%nat ->
            (String.length (Fmt.snprintf STATUS_MAX body) <= 27)%nat /\
            (String.length (Fmt.snprintf STATUS_MAX body) <= STATUS_MAX - 1)%nat).
  { intros body Hb. unfold Fmt.snprintf.
    pose proof (substring_length body (STATUS_MAX - 1)). lia. }
  pose proof (u_length (control_freq d)) as Hf.
  pose proof (u_length (center_freq1 d)) as Hc.
  unfold local_channel_to_str.
  repeat match goal with
         | |- context [if ?b then _ else _] => destruct b
         end;
    apply Hcut; rewrite ?length_append; cbn [String.length]; lia.
Qed.

(** Outside the plain VHT form, the text of any channel with 32-bit
    frequencies is accepted by the parser, and the channel it returns has
    that same text. *)
Theorem text_of_parsed_text (d : local_channel_t) :
  (28 <= STATUS_MAX)%nat ->
  0 <= control_freq d < 2 ^ 32 -> 0 <= center_freq1 d < 2 ^ 32 ->
  plain_vht d = false ->
  exists d' evs,
    chantranslate_callback (local_channel_to_str d) = (Some d', evs) /\
    local_channel_to_str d' = local_channel_to_str d.
Proof.
  intros Hmax Hf Hc Hplain. unfold plain_vht in Hplain.
  unfold local_channel_to_str at 1 3.
  destruct ((chan_type d =? 0) && (chan_width d =? 0)) eqn:E0.
  { rewrite snprintf_u by assumption. rewrite parse_bare by assumption.
    eexists _, _. split; [reflexivity |].
    unfold local_channel_to_str. cbn. apply snprintf_u. assumption. }
  destruct (chan_type d =? NL80211_CHAN_HT40MINUS) eqn:Em.
  { rewrite snprintf_u_suffix by (assumption || (simpl; lia)).
    rewrite (parse_ht40_minus (control_freq d) EmptyString) by assumption.
    eexists _, _. split; [reflexivity |].
    unfold local_channel_to_str. cbn. apply snprintf_u_suffix; [assumption | simpl; lia]. }
  destruct (chan_type d =? NL80211_CHAN_HT40PLUS) eqn:Ep.
  { rewrite snprintf_u_suffix by (assumption || (simpl; lia)).
    rewrite (parse_ht40_plus (control_freq d) EmptyString) by assumption.
    eexists _, _. split; [reflexivity |].
    unfold local_channel_to_str. cbn. apply snprintf_u_suffix; [assumption | simpl; lia]. }
  cbn [negb andb] in Hplain.
  destruct (chan_width d =? NL80211_CHAN_WIDTH_5) eqn:E5.
  { rewrite snprintf_u_suffix by (assumption || (simpl; lia)).
    rewrite parse_width5 by assumption.
    eexists _, _. split; [reflexivity |].
    unfold local_channel_to_str. cbn. apply snprintf_u_suffix; [assumption | simpl; lia]. }
  destruct (chan_width d =? NL80211_CHAN_WIDTH_10) eqn:E10.
  { rewrite snprintf_u_suffix by (assumption || (simpl; lia)).
    rewrite parse_width10 by assumption.
    eexists _, _. split; [reflexivity |].
    unfold local_channel_to_str. cbn. apply snprintf_u_suffix; [assumption | simpl; lia]. }
  destruct (chan_width d =? NL80211_CHAN_WIDTH_80) eqn:E80.
  { cbn [orb andb] in Hplain. rewrite Hplain. cbn [negb].
    rewrite (snprintf_u_center Hmax _ _ "VHT80-") by (simpl; lia).
    change (Fmt.u (control_freq d) ++ "VHT80-" ++ Fmt.u (center_freq1 d))%string
      with (Fmt.u (control_freq d) ++ "VHT80" ++ "-" ++ Fmt.u (center_freq1 d))%string.
    rewrite (parse_vht_center VHT80) by (assumption || reflexivity).
    eexists _, _. split; [reflexivity |].
    unfold local_channel_to_str. cbn.
    apply (snprintf_u_center Hmax _ _ "VHT80-"). simpl; lia. }
  destruct (chan_width d =? NL80211_CHAN_WIDTH_160) eqn:E160.
  { cbn [orb andb] in Hplain. rewrite Hplain. cbn [negb].
    rewrite (snprintf_u_center Hmax _ _ "VHT160-") by (simpl; lia).
    change (Fmt.u (control_freq d) ++ "VHT160-" ++ Fmt.u (center_freq1 d))%string
      with (Fmt.u (control_freq d) ++ "VHT160" ++ "-" ++ Fmt.u (center_freq1 d))%string.
    rewrite (parse_vht_center VHT160) by (assumption || reflexivity).
    eexists _, _. split; [reflexivity |].
    unfold local_channel_to_str. cbn.
    apply (snprintf_u_center Hmax _ _ "VHT160-"). simpl; lia. }
  rewrite snprintf_u by assumption. rewrite parse_bare by assumption.
  eexists _, _. split; [reflexivity |].
  unfold local_channel_to_str. cbn. apply snprintf_u. assumption.
Qed.

End ChannelText.

(** ** The controller over many calls *)

Section ControllerFacts.

Context {hdr : headers}.

Lemma chancontrol_state (drv : driver) (w : local_wifi_t) (seqno : Z)
    (privchan : option local_channel_t) :
  let '(_, w', _, _) := chancontrol_callback drv w seqno privchan in
  w' = w \/ w' = set_seq_channel_failure w 0.
Proof.
  unfold chancontrol_callback, set_failed. destruct privchan as [ch |]; [| left; reflexivity].
  destruct (use_mac80211 w =? 0).
  - match goal with |- context [drv ?c] => destruct (drv c) as [r errstr] end.
    destruct (r <? 0); [| right; reflexivity].
    destruct ((seq_channel_failure w <? 10) && (seqno =? 0)); left; reflexivity.
  - match goal with |- context [drv ?c] => destruct (drv c) as [r errstr] end.
    destruct (r <? 0); [| right; reflexivity].
    destruct ((seq_channel_failure w <? 10) && (seqno =? 0)); left; reflexivity.
Qed.

(** Whatever calls are made, with whatever drivers, sequence numbers and
    channels, the controller leaves the state as it found it or with the
    failure counter set to 0: no other field is written and the counter
    never takes another value. *)
Theorem chancontrol_calls_state (calls : list (driver * Z * option local_channel_t)) :
  forall w,
    snd (chancontrol_calls calls w) = w \/
    snd (chancontrol_calls calls w) = set_seq_channel_failure w 0.
Proof.
  induction calls as [| [[drv seqno] privchan] later IH]; intros w; [left; reflexivity |].
  cbn [chancontrol_calls].
  pose proof (chancontrol_state drv w seqno privchan) as Hstep.
  destruct (chancontrol_callback drv w seqno privchan) as [[[ret w1] msg] evs].
  specialize (IH w1). destruct (chancontrol_calls later w1) as [outs w2]. cbn [snd] in *.
  destruct Hstep as [-> | ->]; [exact IH |].
  destruct IH as [-> | ->]; right; reflexivity.
Qed.

Lemma chancontrol_hop_never_fatal (drv : driver) (w : local_wifi_t)
    (privchan : option local_channel_t) :
  seq_channel_failure w < 10 ->
  let '(ret, _, _, evs) := chancontrol_callback drv w 0 privchan in
  ret = 0 /\ existsb is_fatal evs = false.
Proof.
  intros Hcnt. apply Z.ltb_lt in Hcnt.
  unfold chancontrol_callback, set_failed. destruct privchan as [ch |]; [| split; reflexivity].
  rewrite Hcnt. cbn [andb Z.eqb negb].
  destruct (use_mac80211 w =? 0).
  - match goal with |- context [drv ?c] => destruct (drv c) as [r errstr] end.
    destruct (r <? 0); split; reflexivity.
  - destruct (chan_width ch =? 0); cbn [negb];
      match goal with |- context [drv ?c] => destruct (drv c) as [r errstr] end;
      destruct (r <? 0); split; reflexivity.
Qed.

(** Starting with a failure counter below 10, as [main] does, no call from
    the hop timer (sequence number 0) ever returns -1 or sends a fatal
    error, wherever it falls in a run of calls and whatever the drivers
    answer. *)
Theorem chancontrol_hops_never_fatal
    (calls : list (driver * Z * option local_channel_t)) :
  forall w, seq_channel_failure w < 10 ->
    Forall (fun x : (driver * Z * option local_channel_t) * (Z * list event) =>
              snd (fst (fst x)) = 0 ->
              fst (snd x) = 0 /\ existsb is_fatal (snd (snd x)) = false)
      (combine calls (fst (chancontrol_calls calls w))).
Proof.
  induction calls as [| [[drv seqno] privchan] later IH]; intros w Hcnt; [constructor |].
  cbn [chancontrol_calls].
  pose proof (chancontrol_state drv w seqno privchan) as Hstep.
  pose proof (chancontrol_hop_never_fatal drv w privchan Hcnt) as Hhop.
  destruct (chancontrol_callback drv w seqno privchan) as [[[ret w1] msg] evs] eqn:E.
  assert (Hcnt1 : seq_channel_failure w1 < 10)
    by (destruct Hstep as [-> | ->]; [assumption | simpl; lia]).
  specialize (IH w1 Hcnt1). destruct (chancontrol_calls later w1) as [outs w2].
  cbn [fst combine]. constructor; [| exact IH].
  cbn [fst snd]. intros ->. rewrite E in Hhop. exact Hhop.
Qed.

(** A configure command (sequence number other than 0) that the driver
    refuses returns -1 with the failure text in [msg]; the state is left as
    it was and nothing but the request to the driver is called, so the
    answer to the command is left to the caller. *)
Theorem chancontrol_configure_refused (drv : driver) (w : local_wifi_t) (seqno : Z)
    (ch : local_channel_t) :
  seqno <> 0 -> fst (drv (driver_request w ch)) < 0 ->
  chancontrol_callback drv w seqno (Some ch) =
  (-1, w,
   Some (failed_text (local_channel_to_str ch) (snd (drv (driver_request w ch)))),
   [driver_request w ch]).
Proof.
  intros Hseq Hdrv. unfold chancontrol_callback, set_failed, driver_request in *.
  destruct (Z.eqb_spec seqno 0); [contradiction |]. rewrite andb_false_r.
  destruct (use_mac80211 w =? 0).
  - destruct (drv _) as [r errstr]. cbn [fst snd] in *.
    apply Z.ltb_lt in Hdrv. rewrite Hdrv. reflexivity.
  - destruct (chan_width ch =? 0); cbn [negb] in *;
      destruct (drv _) as [r errstr]; cbn [fst snd] in *;
      apply Z.ltb_lt in Hdrv; rewrite Hdrv; reflexivity.
Qed.

(** The controller returns 0 or -1, and -1 only when the driver refused the
    channel. *)
Theorem chancontrol_return (drv : driver) (w : local_wifi_t) (seqno : Z)
    (privchan : option local_channel_t) :
  let '(ret, _, _, _) := chancontrol_callback drv w seqno privchan in
  ret = 0 \/
  (ret = -1 /\ exists ch, privchan = Some ch /\ fst (drv (driver_request w ch)) < 0).
Proof.
  unfold chancontrol_callback, set_failed, driver_request.
  destruct privchan as [ch |]; [| left; reflexivity].
  destruct (use_mac80211 w =? 0).
  - destruct (drv _) as [r errstr] eqn:E.
    destruct (Z.ltb_spec r 0); [| left; reflexivity].
    destruct ((seq_channel_failure w <? 10) && (seqno =? 0)); [left; reflexivity |].
    right. split; [reflexivity |]. exists ch. split; [reflexivity |].
    rewrite E. assumption.
  - destruct (chan_width ch =? 0) eqn:Ew; cbn [negb];
      destruct (drv _) as [r errstr] eqn:E;
      (destruct (Z.ltb_spec r 0); [| left; reflexivity]);
      (destruct ((seq_channel_failure w <? 10) && (seqno =? 0)); [left; reflexivity |]);
      right; (split; [reflexivity |]); exists ch; (split; [reflexivity |]);
      rewrite Ew, E; assumption.
Qed.

Lemma chancontrol_netlink_no_ioctl (drv : driver) (w : local_wifi_t) (seqno : Z)
    (privchan : option local_channel_t) (ifname : string) (f : Z) :
  use_mac80211 w <> 0 ->
  let '(_, _, _, calls) := chancontrol_callback drv w seqno privchan in
  ~ In (iwconfig_set_channel ifname f) calls.
Proof.
  intros Hnl. unfold chancontrol_callback, set_failed.
  destruct privchan as [ch |]; [| intros []].
  destruct (Z.eqb_spec (use_mac80211 w) 0); [contradiction |].
  destruct (chan_width ch =? 0); cbn [negb];
    match goal with |- context [drv ?c] => destruct (drv c) as [r errstr] end;
    destruct (r <? 0); try destruct ((seq_channel_failure w <? 10) && (seqno =? 0));
    try destruct (seqno =? 0); cbn [In]; intros H;
    repeat match goal with
           | H : _ \/ _ |- _ => destruct H as [H | H]
           | H : False |- _ => destruct H
           end; discriminate H.
Qed.

(** Parser and controller together, on the netlink path.  Whatever channel
    the parser returns, the first call of the controller for it is the
    request to the driver and no other request follows: a channel request
    with the channel type when the width is 0, otherwise a frequency request
    with the width, the centre and a second centre of 0.  A channel with a
    channel type, as the HT40 forms give it, always goes out as a channel
    request with that type. *)
Theorem parsed_channel_request (s : string) (d : local_channel_t) (evs : list event)
    (drv : driver) (w : local_wifi_t) (seqno : Z) :
  chantranslate_callback s = (Some d, evs) -> use_mac80211 w <> 0 ->
  let '(_, _, _, calls) := chancontrol_callback drv w seqno (Some d) in
  exists rest,
    calls =
      (if chan_width d =? 0
       then mac80211_set_channel_cache (cap_interface w) (control_freq d) (chan_type d)
       else mac80211_set_frequency_cache (cap_interface w) (control_freq d)
              (chan_width d) (center_freq1 d) 0) :: rest /\
    existsb is_driver_call rest = false /\
    (chan_type d <> 0 ->
     calls =
       mac80211_set_channel_cache (cap_interface w) (control_freq d) (chan_type d) :: rest).
Proof.
  intros Hparse Hnl.
  destruct (chantranslate_parsed_shape s d evs Hparse) as (_ & _ & Hc2 & Hshape).
  assert (Htype : chan_type d <> 0 -> (chan_width d =? 0) = true).
  { intros Ht. apply Z.eqb_eq.
    destruct Hshape as [(H0 & _) | [(_ & Hw & _) | [(H0 & _) | (H0 & _)]]]; congruence. }
  unfold chancontrol_callback, set_failed.
  destruct (Z.eqb_spec (use_mac80211 w) 0); [contradiction |].
  rewrite Hc2.
  destruct (chan_width d =? 0) eqn:Ew; cbn [negb];
    match goal with |- context [drv ?c] => destruct (drv c) as [r errstr] end;
    destruct (r <? 0); try destruct ((seq_channel_failure w <? 10) && (seqno =? 0));
    try destruct (seqno =? 0);
    eexists; (split; [reflexivity |]); (split; [reflexivity |]);
    intros Ht; first [reflexivity | specialize (Htype Ht); discriminate Htype].
Qed.

End ControllerFacts.

(** ** The capture loop over many packets *)

Lemma pcap_dispatch_takes (w : local_wifi_t) (p : packet) :
  takes_packet (p_sends p) ->
  pcap_dispatch_cb w (p_header p) (p_data p) (p_sends p) =
  (offered w p (full_buffers (p_sends p)), true).
Proof.
  unfold takes_packet, offered. generalize (p_sends p) as sends.
  induction sends as [| r later IH]; intros [Hall Hsome].
  - inversion Hsome.
  - inversion Hall as [| ? ? Hr Hlater]; subst.
    cbn [pcap_dispatch_cb full_buffers].
    destruct (Z.ltb_spec r 0); [lia |]. destruct (Z.eqb_spec r 0) as [-> | Hne].
    + rewrite IH; [reflexivity |]. split; [assumption |].
      inversion Hsome as [? ? Hpos | ]; [lia | assumption].
    + reflexivity.
Qed.

Lemma offered_no_breakloop (w : local_wifi_t) (p : packet) (waits : nat) :
  existsb is_breakloop (offered w p waits) = false.
Proof.
  unfold offered. induction waits as [| k IH]; [reflexivity |].
  cbn [repeat List.concat app existsb is_breakloop orb]. exact IH.
Qed.

Lemma pcap_loop_takes (w : local_wifi_t) (pkts : list packet) :
  Forall (fun p => takes_packet (p_sends p)) pkts ->
  pcap_loop w pkts =
  (flat_map (fun p => offered w p (full_buffers (p_sends p))) pkts, true).
Proof.
  induction pkts as [| p later IH]; intros Hall; [reflexivity |].
  inversion Hall as [| ? ? Hp Hlater]; subst.
  cbn [pcap_loop flat_map]. rewrite (pcap_dispatch_takes w p Hp). cbn [negb].
  rewrite offered_no_breakloop, (IH Hlater). reflexivity.
Qed.

(** As long as the framework answers "sent" or "buffer full" and takes
    every packet in the end, the capture thread offers each packet in the
    order read, again after each full buffer and not once more after it was
    taken.  When the capture ends it sends the error that the interface was
    closed, with the text of the capture library or "interface closed" when
    that is empty; then, exactly when the flags cannot be read or lack
    [IFF_UP], the error that the interface no longer appears to be up; and it
    asks for the shutdown last.  Both texts are cut to what fits
    [PCAP_ERRBUF_SIZE]. *)
Theorem capture_thread_delivers (w : local_wifi_t) (pkts : list packet)
    (pcap_errstr : string) (ifret ifflags : Z) :
  Forall (fun p => takes_packet (p_sends p)) pkts ->
  capture_thread w pkts pcap_errstr ifret ifflags =
  ((flat_map (fun p => offered w p (full_buffers (p_sends p))) pkts ++
    cf_send_error
      (Fmt.snprintf PCAP_ERRBUF_SIZE
         ("Interface '" ++ c_str (cap_interface w) ++ "' closed: " ++
          match pcap_errstr with
          | EmptyString => "interface closed"
          | String _ _ => pcap_errstr
          end)) ::
    (if (ifret <? 0) || (Z.land ifflags IFF_UP =? 0)
     then [cf_send_error
             (Fmt.snprintf PCAP_ERRBUF_SIZE
                ("Interface '" ++ c_str (cap_interface w) ++
                 "' no longer appears to be up; This can happen when it is " ++
                 "unplugged, or another service like DHCP or NetworKManager has " ++
                 "taken over and shut it down on us."))]
     else []) ++
    [cf_handler_spindown])%list, true).
Proof.
  intros Hall. unfold capture_thread. rewrite (pcap_loop_takes w pkts Hall).
  cbn [negb]. destruct pcap_errstr; reflexivity.
Qed.

(** The callback for a packet returns exactly when one of its sends is
    taken: on full buffers and on errors alone it stays in its loop. *)
Theorem pcap_dispatch_returns_iff (w : local_wifi_t) (h : pcap_pkthdr) (data : list Z)
    (sends : list Z) :
  snd (pcap_dispatch_cb w h data sends) = true <-> Exists (fun r => 0 < r) sends.
Proof.
  rewrite pcap_dispatch_returns, existsb_exists, Exists_exists.
  split; intros (r & Hin & Hr); exists r; (split; [assumption |]);
    apply Z.ltb_lt; assumption.
Qed.

(** Once a send has failed and a later one is taken, the loop ends with
    that packet: the packets behind it are never offered. *)
Theorem pcap_loop_stops_after_error (w : local_wifi_t) (p : packet)
    (later : list packet) (bad : Z) (rest : list Z) :
  p_sends p = bad :: rest -> bad < 0 -> Exists (fun r => 0 < r) rest ->
  pcap_loop w (p :: later) =
  (fst (pcap_dispatch_cb w (p_header p) (p_data p) (p_sends p)), true).
Proof.
  intros Es Hbad Hok. cbn [pcap_loop].
  pose proof (pcap_dispatch_returns w (p_header p) (p_data p) (p_sends p)) as Hret.
  assert (Hsome : existsb (fun r => 0 <? r) (p_sends p) = true).
  { rewrite Es. cbn [existsb]. apply orb_true_iff. right.
    apply existsb_exists. apply Exists_exists in Hok as (r & Hin & Hr).
    exists r. split; [assumption | apply Z.ltb_lt; assumption]. }
  rewrite Hsome in Hret.
  assert (Hbreak : existsb is_breakloop
                     (fst (pcap_dispatch_cb w (p_header p) (p_data p) (p_sends p))) = true).
  { rewrite Es. cbn [pcap_dispatch_cb]. apply Z.ltb_lt in Hbad. rewrite Hbad.
    destruct (pcap_dispatch_cb w (p_header p) (p_data p) rest). reflexivity. }
  destruct (pcap_dispatch_cb w (p_header p) (p_data p) (p_sends p)) as [evs done].
  cbn [fst snd] in *. subst done. cbn [negb]. rewrite Hbreak. reflexivity.
Qed.

(** ** Interfaces by address and free interface numbers *)

(** [find_interface_mode_by_mac] gives the index of the first interface, in
    the order of [getifaddrs], that has another name than the ignored one,
    the same address and the mode asked for; -1 when there is none or the
    interfaces cannot be listed. *)
Theorem find_interface_mode_by_mac_first (k : kernel) (ignored_ifname : option string)
    (wlmode : Z) (mac : list Z) :
  find_interface_mode_by_mac k ignored_ifname wlmode mac =
  match getifaddrs k with
  | None => -1
  | Some ifaddr =>
      match find (accepted_interface k ignored_ifname wlmode mac) ifaddr with
      | Some name => if_nametoindex k name
      | None => -1
      end
  end.
Proof.
  unfold find_interface_mode_by_mac. destruct (getifaddrs k) as [ifaddr |]; [| reflexivity].
  induction ifaddr as [| name next IH]; [reflexivity |].
  cbn [find_interface_mode_by_mac_loop find]. unfold accepted_interface at 1.
  destruct (match ignored_ifname with
            | Some ign => String.eqb name ign
            | None => false
            end); cbn [negb andb]; [exact IH |].
  destruct (ifconfig_get_hwaddr k name) as [dmac |]; [| exact IH].
  destruct (mac_eqb (firstn 6 dmac) (firstn 6 mac)); cbn [andb]; [| exact IH].
  destruct (iwconfig_get_mode k name) as [mode |]; [| exact IH].
  destruct (mode =? wlmode); [reflexivity | exact IH].
Qed.

Lemma find_next_ifnum_loop_sound (k : kernel) (basename : string) (n : nat) :
  forall i N,
    find_next_ifnum_loop k basename n i = N -> 0 <= i ->
    (N = -1 /\
     forall j, i <= j < i + Z.of_nat n ->
       if_nametoindex k (Fmt.snprintf IFNAMSIZ (basename ++ Fmt.d j)) <> 0) \/
    (i <= N < i + Z.of_nat n /\
     if_nametoindex k (Fmt.snprintf IFNAMSIZ (basename ++ Fmt.d N)) = 0 /\
     forall j, i <= j < N ->
       if_nametoindex k (Fmt.snprintf IFNAMSIZ (basename ++ Fmt.d j)) <> 0).
Proof.
  induction n as [| n IH]; intros i N H Hi.
  - cbn in H. left. split; [congruence |]. intros j Hj. lia.
  - cbn [find_next_ifnum_loop] in H.
    destruct (Z.eqb_spec (if_nametoindex k (Fmt.snprintf IFNAMSIZ (basename ++ Fmt.d i))) 0)
      as [E0 | Ene].
    + subst N. right. split; [lia |]. split; [assumption |]. intros j Hj. lia.
    + destruct (IH (i + 1) N H ltac:(lia)) as [[HN Hall] | (Hr & H0 & Hbefore)].
      * left. split; [assumption |]. intros j Hj.
        destruct (Z.eq_dec j i) as [-> | Hne]; [assumption | apply Hall; lia].
      * right. split; [lia |]. split; [assumption |]. intros j Hj.
        destruct (Z.eq_dec j i) as [-> | Hne]; [assumption | apply Hbefore; lia].
Qed.

(** [find_next_ifnum] returns -1 exactly when the names [basename0] to
    [basename99], cut to the length of an interface name, all exist;
    otherwise it returns the least of these numbers whose name does not
    exist. *)
Theorem find_next_ifnum_least (k : kernel) (basename : string) :
  let taken j := if_nametoindex k (Fmt.snprintf IFNAMSIZ (basename ++ Fmt.d j)) <> 0 in
  let N := find_next_ifnum k basename in
  (N = -1 /\ forall j, 0 <= j < 100 -> taken j) \/
  (0 <= N < 100 /\ ~ taken N /\ forall j, 0 <= j < N -> taken j).
Proof.
  cbv zeta. unfold find_next_ifnum.
  destruct (find_next_ifnum_loop_sound k basename 100 0 _ eq_refl ltac:(lia))
    as [[HN Hall] | (Hr & H0 & Hbefore)].
  - left. split; [assumption |]. intros j Hj. apply Hall. lia.
  - right. split; [lia |]. split; [| assumption]. intros Ht. apply Ht. assumption.
Qed.

(** ** The UUID tells addresses apart *)

Lemma hex_char_inj (u v : Z) :
  0 <= u < 16 -> 0 <= v < 16 -> Fmt.hex_char u = Fmt.hex_char v -> u = v.
Proof.
  intros Hu Hv.
  assert (Hcu : u = 0 \/ u = 1 \/ u = 2 \/ u = 3 \/ u = 4 \/ u = 5 \/ u = 6 \/ u = 7 \/
                u = 8 \/ u = 9 \/ u = 10 \/ u = 11 \/ u = 12 \/ u = 13 \/ u = 14 \/
                u = 15) by lia.
  assert (Hcv : v = 0 \/ v = 1 \/ v = 2 \/ v = 3 \/ v = 4 \/ v = 5 \/ v = 6 \/ v = 7 \/
                v = 8 \/ v = 9 \/ v = 10 \/ v = 11 \/ v = 12 \/ v = 13 \/ v = 14 \/
                v = 15) by lia.
  clear Hu Hv.
  repeat (destruct Hcu as [-> | Hcu]); try subst u;
    repeat (destruct Hcv as [-> | Hcv]); try subst v;
    intros E; first [reflexivity | discriminate E].
Qed.

Lemma nibbles_byte_inj (b b' : Z) (t t' : string) :
  0 <= b < 256 -> 0 <= b' < 256 ->
  (nibbles 2 b ++ t)%string = (nibbles 2 b' ++ t')%string -> b = b' /\ t = t'.
Proof.
  intros Hb Hb'. cbn [nibbles append].
  change (16 ^ Z.of_nat 1) with 16. change (16 ^ Z.of_nat 0) with 1.
  rewrite !Z.div_1_r. intros E. injection E as E1 E2 E3.
  apply hex_char_inj in E1; try (apply Z.mod_pos_bound; lia).
  apply hex_char_inj in E2; try (apply Z.mod_pos_bound; lia).
  split; [| assumption].
  rewrite (Z.mod_small (b / 16)) in E1
    by (split; [apply Z.div_pos; lia | apply Z.div_lt_upper_bound; lia]).
  rewrite (Z.mod_small (b' / 16)) in E1
    by (split; [apply Z.div_pos; lia | apply Z.div_lt_upper_bound; lia]).
  pose proof (Z.div_mod b 16 ltac:(lia)). pose proof (Z.div_mod b' 16 ltac:(lia)). lia.
Qed.

Lemma append_cancel (a x y : string) : (a ++ x)%string = (a ++ y)%string -> x = y.
Proof. induction a as [| c a IH]; cbn [append]; [auto | intros [= E]; auto]. Qed.

Section UuidFacts.

Context {hdr : headers}.

Lemma open_uuid_text (b0 b1 b2 b3 b4 b5 : Z) :
  (37 <= STATUS_MAX)%nat ->
  0 <= b0 < 256 -> 0 <= b1 < 256 -> 0 <= b2 < 256 ->
  0 <= b3 < 256 -> 0 <= b4 < 256 -> 0 <= b5 < 256 ->
  open_uuid [b0; b1; b2; b3; b4; b5] =
  (nibbles 8 (u32 (adler32_csum "kismet_cap_linux_wifi" 21)) ++ "-0000-0000-0000-" ++
   nibbles 2 b0 ++ nibbles 2 b1 ++ nibbles 2 b2 ++
   nibbles 2 b3 ++ nibbles 2 b4 ++ nibbles 2 b5)%string.
Proof.
  intros Hmax H0 H1 H2 H3 H4 H5.
  assert (Hbyte : forall b, 0 <= b < 256 -> Fmt.X0 2 (Z.land b 255) = nibbles 2 b).
  { intros b Hb. change 255 with (Z.ones 8).
    rewrite Z.land_ones, Z.mod_small by (try change (2 ^ 8) with 256; lia).
    apply X0_nibbles; [lia | change (16 ^ Z.of_nat 2) with 256; lia]. }
  unfold open_uuid. cbn [nth]. rewrite !Hbyte by assumption.
  change 4294967295 with (Z.ones 32). rewrite Z.land_ones by lia.
  rewrite X0_nibbles
    by (try lia; change (16 ^ Z.of_nat 8) with (2 ^ 32); apply Z.mod_pos_bound; lia).
  apply snprintf_fits. rewrite !length_append, !nibbles_length. simpl. lia.
Qed.

(** Two addresses with the same UUID are the same address. *)
Theorem open_uuid_injective (b0 b1 b2 b3 b4 b5 c0 c1 c2 c3 c4 c5 : Z) :
  (37 <= STATUS_MAX)%nat ->
  Forall (fun b => 0 <= b < 256) [b0; b1; b2; b3; b4; b5] ->
  Forall (fun b => 0 <= b < 256) [c0; c1; c2; c3; c4; c5] ->
  open_uuid [b0; b1; b2; b3; b4; b5] = open_uuid [c0; c1; c2; c3; c4; c5] ->
  [b0; b1; b2; b3; b4; b5] = [c0; c1; c2; c3; c4; c5].
Proof.
  intros Hmax Hb Hc E.
  repeat match goal with
         | H : Forall _ (_ :: _) |- _ => inversion H; subst; clear H
         | H : Forall _ [] |- _ => clear H
         end.
  rewrite !open_uuid_text in E by assumption.
  apply append_cancel in E. apply (append_cancel "-0000-0000-0000-") in E.
  apply nibbles_byte_inj in E as [-> E]; try assumption.
  apply nibbles_byte_inj in E as [-> E]; try assumption.
  apply nibbles_byte_inj in E as [-> E]; try assumption.
  apply nibbles_byte_inj in E as [-> E]; try assumption.
  apply nibbles_byte_inj in E as [-> E]; try assumption.
  rewrite <- (append_empty_r (nibbles 2 b5)), <- (append_empty_r (nibbles 2 c5)) in E.
  apply nibbles_byte_inj in E as [-> _]; try assumption.
  reflexivity.
Qed.

End UuidFacts.

(** ** Channel lists and probing *)

Lemma snprintf16_u (f : Z) : Fmt.snprintf 16 (Fmt.u f) = Fmt.u f.
Proof. apply snprintf_fits. pose proof (u_length f). lia. Qed.

Section ChanlistFacts.

Context {hdr : headers}.

(** When the netlink list cannot be had and the wireless extensions give
    frequencies, [populate_chanlist] returns 1 with one string for each
    frequency, in order, and the parser reads each string as the plain
    channel on that frequency, without a message. *)
Theorem populate_chanlist_parses (a : chanlist_answers) (ifname errstr : string)
    (iw_chanlist : list Z) :
  mac80211_get_chanlist a ifname = inl errstr ->
  iwconfig_get_chanlist a ifname = inr iw_chanlist ->
  iw_chanlist <> [] ->
  Forall (fun f => 0 <= f < 2 ^ 32) iw_chanlist ->
  populate_chanlist a ifname = (1, map Fmt.u iw_chanlist) /\
  map chantranslate_callback (map Fmt.u iw_chanlist) =
  map (fun f => (Some (zeroed_channel f), [])) iw_chanlist.
Proof.
  intros Hnl Hiw Hne Hrange. unfold populate_chanlist. rewrite Hnl, Hiw.
  destruct iw_chanlist as [| f0 rest]; [congruence |]. cbn [List.length Nat.eqb].
  split.
  - f_equal. apply map_ext. intros f. apply snprintf16_u.
  - rewrite map_map. apply map_ext_in. intros f Hin.
    rewrite Forall_forall in Hrange. apply parse_bare. apply Hrange. assumption.
Qed.

Lemma populate_chanlist_return (a : chanlist_answers) (ifname : string) :
  fst (populate_chanlist a ifname) = 0 \/ fst (populate_chanlist a ifname) = 1.
Proof.
  unfold populate_chanlist.
  destruct (mac80211_get_chanlist a ifname); [| right; reflexivity].
  destruct (iwconfig_get_chanlist a ifname) as [| iw]; [left; reflexivity |].
  destruct (List.length iw =? 0)%nat; [left | right]; reflexivity.
Qed.

(** [populate_chanlist] returns 0 exactly when the netlink list cannot be
    had and the wireless extensions give no frequency either; it never
    returns a negative value, and with 0 the list is empty. *)
Theorem populate_chanlist_zero (a : chanlist_answers) (ifname : string) :
  0 <= fst (populate_chanlist a ifname) /\
  (fst (populate_chanlist a ifname) = 0 <->
   (exists e, mac80211_get_chanlist a ifname = inl e) /\
   ((exists e, iwconfig_get_chanlist a ifname = inl e) \/
    iwconfig_get_chanlist a ifname = inr [])) /\
  (fst (populate_chanlist a ifname) = 0 -> snd (populate_chanlist a ifname) = []).
Proof.
  unfold populate_chanlist.
  destruct (mac80211_get_chanlist a ifname) as [e |] eqn:Enl.
  - destruct (iwconfig_get_chanlist a ifname) as [e' | iw] eqn:Eiw.
    + cbn. repeat split; try lia; eauto.
    + destruct iw as [| f rest]; cbn.
      * repeat split; try lia; eauto.
      * repeat split; try lia; try discriminate.
        intros (_ & [(e' & He') | He']); discriminate.
  - cbn. repeat split; try lia; try discriminate.
    intros ((e & He) & _). discriminate.
Qed.

(** A probe never fails: it returns 0 with a message when the definition
    names no interface, and 1 otherwise, also when no channel could be
    listed. *)
Theorem probe_callback_return (cf_parse_interface : string -> option string)
    (a : chanlist_answers) (definition : string) :
  probe_callback cf_parse_interface a definition =
  match cf_parse_interface definition with
  | None =>
      (0, Some (Fmt.snprintf STATUS_MAX "Unable to find interface in definition"), [])
  | Some ifname => (1, None, snd (populate_chanlist a ifname))
  end.
Proof.
  unfold probe_callback. destruct (cf_parse_interface definition) as [ifname |];
    [| reflexivity].
  pose proof (populate_chanlist_return a ifname) as H.
  destruct (populate_chanlist a ifname) as [ret chanlist]. cbn [fst snd] in *.
  destruct H as [-> | ->]; reflexivity.
Qed.

End ChanlistFacts.

(** ** The stages of an open *)

Ltac split_in H :=
  repeat match type of H with
         | In _ (_ ++ _) => apply in_app_or in H; destruct H as [H | H]
         | In _ (if ?b then _ else _) => destruct b eqn:?
         | In _ (_ :: _) => destruct H as [H | H]
         | In _ [] => destruct H
         end.

Ltac calls_done H :=
  split_in H; try discriminate H;
  try (injection H as <- <- <-); try (injection H as <- <-); try (injection H as <-);
  subst; try reflexivity; try assumption; try contradiction; try congruence.

Section OpenStages.

Context {hdr : headers}.

Lemma open_networkmanager_keeps (nm : nm_answer) (w w' : local_wifi_t)
    (calls : list open_call) :
  open_networkmanager nm w = (w', calls) ->
  interface w' = interface w /\ cap_interface w' = cap_interface w /\
  use_mac80211 w' = use_mac80211 w /\
  (forall c, In c calls ->
     is_parent_down c = false /\ is_create_vif c = false /\ is_set_mode c = false) /\
  (forall iface managed, In (nm_device_set_managed iface managed) calls ->
     managed = 0 /\ reset_nm_management w' <> 0).
Proof.
  unfold open_networkmanager, info. intros H.
  assert (Hneq : forall managed, negb (managed =? 0) = true -> managed <> 0)
    by (intros managed E; apply negb_true_iff in E; apply Z.eqb_neq in E; exact E).
  destruct nm as [| nmerror | running devices];
    [| | destruct (if running
                   then match devices with
                        | Some nmdevices =>
                            find (fun d => String.eqb (fst d) (interface w)) nmdevices
                        | None => None
                        end
                   else None) as [[iface managed] |]];
    injection H as <- <-; repeat split; intros;
    split_in H; try discriminate H; try (injection H as <- <-); subst;
    try reflexivity; cbn; auto.
Qed.

Lemma open_cap_interface_sets (k : kernel) (w w' : local_wifi_t) (definition : string)
    (hwaddr : list Z) (mode : Z) :
  open_cap_interface k w definition hwaddr mode = inr w' ->
  exists cap, w' = set_cap_interface w cap.
Proof.
  assert (Hsame : forall v c, cap_interface v = Some c -> v = set_cap_interface v c).
  { intros [] c E. cbn in E. subst. reflexivity. }
  unfold open_cap_interface. cbv zeta. intros H.
  destruct (negb (mode =? LINUX_WLEXT_MONITOR)); [| injection H as <-; eauto].
  destruct (cf_find_flag "vif" definition) as [vif |].
  { cbn [cap_interface set_cap_interface] in H. injection H as <-. eauto. }
  assert (Hw : forall v, v = w ->
    (match cap_interface v with
     | Some _ => inr v
     | None =>
         if (IFNAMSIZ <=? String.length (interface v) + 3)%nat
         then
           if find_next_ifnum k "kismon" <? 0
           then inl (no_kismon_text (interface v))
           else inr (set_cap_interface v
                       (Fmt.snprintf IFNAMSIZ ("kismon" ++ Fmt.d (find_next_ifnum k "kismon"))))
         else
           match iwconfig_get_mode k (Fmt.snprintf IFNAMSIZ (interface v ++ "mon")) with
           | Some mode' =>
               if negb (mode' =? LINUX_WLEXT_MONITOR)
               then inl (false_vif_text (interface v)
                           (Fmt.snprintf IFNAMSIZ (interface v ++ "mon")))
               else inr (set_cap_interface v (Fmt.snprintf IFNAMSIZ (interface v ++ "mon")))
           | None => inr (set_cap_interface v (Fmt.snprintf IFNAMSIZ (interface v ++ "mon")))
           end
     end) = inr w' -> exists cap, w' = set_cap_interface w cap).
  { intros v -> Hv. destruct (cap_interface w) as [c |] eqn:Ec.
    - injection Hv as <-. exists c. apply Hsame. assumption.
    - destruct (IFNAMSIZ <=? String.length (interface w) + 3)%nat.
      + destruct (find_next_ifnum k "kismon" <? 0); [discriminate Hv |].
        injection Hv as <-. eauto.
      + destruct (iwconfig_get_mode k (Fmt.snprintf IFNAMSIZ (interface w ++ "mon")))
          as [mode' |].
        * destruct (negb (mode' =? LINUX_WLEXT_MONITOR)); [discriminate Hv |].
          injection Hv as <-. eauto.
        * injection Hv as <-. eauto. }
  destruct (find_interface_mode_by_mac k (Some (interface w)) LINUX_WLEXT_MONITOR hwaddr >=? 0).
  - destruct (if_indextoname k
                (find_interface_mode_by_mac k (Some (interface w)) LINUX_WLEXT_MONITOR hwaddr))
      as [ifnam |].
    + cbn [cap_interface set_cap_interface] in H. injection H as <-. eauto.
    + apply (Hw w eq_refl H).
  - apply (Hw w eq_refl H).
Qed.

Lemma open_monitor_calls (a : open_answers) (w : local_wifi_t) (definition cap : string)
    (mode : Z) :
  let calls :=
    match open_monitor a w definition cap mode with
    | inl (_, calls) => calls
    | inr (_, calls) => calls
    end in
  (forall c, In c calls -> is_parent_down c = false) /\
  (forall iface managed, ~ In (nm_device_set_managed iface managed) calls) /\
  (forall parent child flags, In (mac80211_create_monitor_vif parent child flags) calls ->
     parent = interface w /\ child = cap /\ parent <> child /\
     flags = monitor_flags definition /\
     mode <> LINUX_WLEXT_MONITOR /\ mac80211_handle w <> 0) /\
  (forall ifname m, In (iwconfig_set_mode ifname m) calls ->
     ifname = interface w /\ m = LINUX_WLEXT_MONITOR /\ mode <> LINUX_WLEXT_MONITOR).
Proof.
  cbv zeta. unfold open_monitor, info, error, monitor_flags.
  destruct (Z.eqb_spec mode LINUX_WLEXT_MONITOR) as [Hm | Hm]; cbn [negb andb];
    [| destruct (Z.eqb_spec (mac80211_handle w) 0) as [Hh | Hh]; cbn [negb andb];
       [| destruct (String.eqb_spec (interface w) cap) as [Hc | Hc]; cbn [negb]]];
    try destruct (fst (create_monitor_vif a) <? 0);
    try destruct (fst (set_mode a) <? 0);
    repeat split; intros; try intro; calls_done H.
Qed.

Lemma open_monitor_keeps (a : open_answers) (w w' : local_wifi_t) (definition cap : string)
    (mode : Z) (calls : list open_call) :
  open_monitor a w definition cap mode = inr (w', calls) ->
  interface w' = interface w /\ cap_interface w' = cap_interface w /\
  reset_nm_management w' = reset_nm_management w /\
  (use_mac80211 w' = use_mac80211 w \/ use_mac80211 w' = 1).
Proof.
  unfold open_monitor. intros H.
  repeat match type of H with
         | context [if ?b then _ else _] => destruct b
         end;
    try discriminate H; injection H as <- _; repeat split; auto.
Qed.

Lemma open_capture_keeps (a : open_answers) (w : local_wifi_t) (definition cap : string)
    (uuid : option string) (calls0 : list open_call) :
  let r := open_capture a w definition cap uuid calls0 in
  interface (o_wifi r) = interface w /\ cap_interface (o_wifi r) = cap_interface w /\
  reset_nm_management (o_wifi r) = reset_nm_management w /\
  use_mac80211 (o_wifi r) = use_mac80211 w /\
  o_uuid r = uuid /\ (o_ret r = 1 \/ o_ret r = -1).
Proof.
  cbv zeta. unfold open_capture.
  destruct (populate_chanlist (chanlists a) cap) as [ret chanlist].
  repeat match goal with
         | |- context [if ?b then _ else _] => destruct b
         end; cbn; repeat split; auto.
Qed.

Lemma open_capture_calls (a : open_answers) (w : local_wifi_t) (definition cap : string)
    (uuid : option string) (calls0 : list open_call) :
  exists more,
    o_calls (open_capture a w definition cap uuid calls0) = (calls0 ++ more)%list /\
    (forall c, In c more -> is_create_vif c = false /\ is_set_mode c = false) /\
    (forall iface managed, ~ In (nm_device_set_managed iface managed) more) /\
    (forall x, In (ifconfig_interface_down x) more ->
       x = interface w /\ interface w <> cap /\
       flag_is_true "ignoreprimary" definition = false) /\
    (o_ret (open_capture a w definition cap uuid calls0) = 1 ->
     exists before,
       more = (before ++ [ifconfig_interface_up cap;
                          pcap_open_live cap MAX_PACKET_LEN 1 1000])%list /\
       fst (interface_up a) = 0 /\
       pd (o_wifi (open_capture a w definition cap uuid calls0)) = fst (open_live a) /\
       fst (open_live a) <> 0 /\ snd (open_live a) = EmptyString /\
       datalink_type (o_wifi (open_capture a w definition cap uuid calls0)) = datalink a /\
       o_chanlist (open_capture a w definition cap uuid calls0) =
         snd (populate_chanlist (chanlists a) cap)).
Proof.
  unfold open_capture, info.
  destruct (String.eqb_spec (interface w) cap) as [Hc | Hc]; cbn [negb andb];
    [| destruct (flag_is_true "ignoreprimary" definition) eqn:Eign; cbn [negb andb];
       [| destruct (Z.eqb_spec (fst (interface_down a)) 0) as [Hdown | Hdown];
          cbn [negb]]];
    destruct (Z.eqb_spec (fst (interface_up a)) 0) as [Hup | Hup]; cbn [negb];
    destruct (populate_chanlist (chanlists a) cap) as [ret chanlist];
    destruct (ret <? 0);
    destruct (Z.eqb_spec (fst (open_live a)) 0) as [Hpd | Hpd];
    destruct (snd (open_live a)) as [| x t] eqn:El;
    cbn; rewrite <- ?app_assoc; (eexists; split; [reflexivity |]);
    repeat split; intros; try intro; calls_done H;
    first [ exists []; repeat split; try assumption; reflexivity
          | eexists [_]; repeat split; try assumption; reflexivity
          | eexists [_; _]; repeat split; try assumption; reflexivity ].
Qed.

End OpenStages.

(** ** The whole open *)

Section OpenFacts.

Context {hdr : headers}.

(** The ways through [open_callback]: it stops before the mode is known,
    or while the name of the capture interface is settled, or while the
    interface is put into monitor mode, or it reaches the last stage. *)
Lemma open_callback_ways (a : open_answers) (w0 : local_wifi_t) (definition : string) :
  exists r, open_callback a w0 definition = Some r /\
  ((o_ret r = -1 /\ o_uuid r = None /\
    (o_calls r = [] \/ exists i, o_calls r = [linux_sys_clear_rfkill i]) /\
    (o_wifi r = w0 \/ exists i, o_wifi r = with_interface w0 i)) \/
   exists ifname hw,
     parse_interface a = Some ifname /\ get_hwaddr a ifname = inr hw /\
     rfkill_hard a <> 1 /\
     o_uuid r = Some (open_uuid hw) /\
     let soft :=
       if rfkill_soft a =? 1
       then [linux_sys_clear_rfkill ifname;
             info ("Removed soft-rfkill and enabled interface '" ++ ifname ++ "'")]
       else [] in
     ((o_ret r = -1 /\ o_calls r = soft /\ o_wifi r = with_interface w0 ifname /\
       exists e, get_mode_first a = inl e) \/
      exists mode w2 nmcalls,
        get_mode_first a = inr mode /\
        open_networkmanager (libnm a) (with_interface w0 ifname) = (w2, nmcalls) /\
        ((o_ret r = -1 /\ o_calls r = (soft ++ nmcalls)%list /\ o_wifi r = w2) \/
         exists cap h c f,
           let w4 := set_handles (set_cap_interface w2 cap) h c f in
           let mode2 := match get_mode_second a with Some m => m | None => -1 end in
           open_cap_interface (names a) w2 definition hw mode =
             inr (set_cap_interface w2 cap) /\
           ((exists msg mcalls,
               open_monitor a w4 definition cap mode2 = inl (msg, mcalls) /\
               o_ret r = -1 /\ o_calls r = ((soft ++ nmcalls) ++ mcalls)%list /\
               o_wifi r = w4) \/
            exists w5 mcalls,
              open_monitor a w4 definition cap mode2 = inr (w5, mcalls) /\
              r = open_capture a w5 definition cap (Some (open_uuid hw))
                    ((soft ++ nmcalls) ++ mcalls)%list)))).
Proof.
  unfold open_callback.
  destruct (parse_interface a) as [ifname |]; [| eexists; split; [reflexivity |]; left;
    cbn; repeat split; auto].
  destruct (get_hwaddr a ifname) as [errstr | hw] eqn:Ehw;
    [eexists; split; [reflexivity |]; left;
    cbn; repeat split; eauto |].
  destruct (Z.eqb_spec (rfkill_hard a) 1) as [Hhard | Hhard];
    [eexists; split; [reflexivity |]; left; cbn; repeat split; eauto |].
  destruct ((rfkill_soft a =? 1) && (clear_rfkill a <? 0));
    [eexists; split; [reflexivity |]; left; cbn; repeat split; eauto |].
  destruct (get_mode_first a) as [errstr | mode].
  { eexists; split; [reflexivity |]. right. exists ifname, hw.
    repeat (split; [first [reflexivity | assumption] |]). cbv zeta. left. cbn.
    repeat split; eauto. }
  destruct (open_networkmanager (libnm a) (with_interface w0 ifname)) as [w2 nmcalls] eqn:Enm.
  destruct (open_cap_interface (names a) w2 definition hw mode) as [msg | w3] eqn:Ecap.
  { eexists; split; [reflexivity |]. right. exists ifname, hw.
    repeat (split; [first [reflexivity | assumption] |]). cbv zeta. right.
    exists mode, w2, nmcalls. repeat (split; [first [reflexivity | assumption] |]).
    left. cbn. repeat split. }
  destruct (open_cap_interface_sets _ _ _ _ _ _ Ecap) as [cap ->].
  cbn [cap_interface set_cap_interface].
  destruct (connect a) as [cret [[h c] f]].
  set (w4 := if cret <? 0 then set_handles (set_cap_interface w2 cap) 0 0 0
             else set_handles (set_cap_interface w2 cap) h c f).
  assert (Hw4 : exists h' c' f', w4 = set_handles (set_cap_interface w2 cap) h' c' f')
    by (subst w4; destruct (cret <? 0); eauto).
  destruct Hw4 as (h' & c' & f' & Ew4). rewrite Ew4. clear w4 Ew4.
  destruct (open_monitor a (set_handles (set_cap_interface w2 cap) h' c' f') definition cap
              match get_mode_second a with Some m => m | None => -1 end)
    as [[msg mcalls] | [w5 mcalls]] eqn:Emon.
  - eexists; split; [reflexivity |]. right. exists ifname, hw.
    repeat (split; [first [reflexivity | assumption] |]). cbv zeta. right.
    exists mode, w2, nmcalls. repeat (split; [first [reflexivity | assumption] |]).
    right. exists cap, h', c', f'. cbv zeta. split; [assumption |]. left.
    exists msg, mcalls. split; [assumption |]. repeat split.
  - eexists; split; [reflexivity |]. right. exists ifname, hw.
    split; [reflexivity |]. split; [assumption |]. split; [assumption |].
    split; [apply open_capture_keeps |]. cbv zeta. right.
    exists mode, w2, nmcalls. repeat (split; [first [reflexivity | assumption] |]).
    right. exists cap, h', c', f'. cbv zeta. split; [assumption |]. right.
    exists w5, mcalls. split; [assumption | reflexivity].
Qed.

End OpenFacts.

Section OpenTheorems.

Context {hdr : headers}.

Lemma soft_calls_plain (a : open_answers) (ifname : string) (c : open_call) :
  In c (if rfkill_soft a =? 1
        then [linux_sys_clear_rfkill ifname;
              info ("Removed soft-rfkill and enabled interface '" ++ ifname ++ "'")]
        else []) ->
  is_parent_down c = false /\ is_create_vif c = false /\ is_set_mode c = false /\
  (forall i m, c <> nm_device_set_managed i m).
Proof. unfold info. intros H. split_in H; subst c; repeat split; discriminate. Qed.

(** What holds of every result of an open. *)
Lemma open_callback_facts (a : open_answers) (w0 : local_wifi_t) (definition : string)
    (r : open_result) :
  open_callback a w0 definition = Some r ->
  (o_ret r = 1 \/ o_ret r = -1) /\
  (use_mac80211 (o_wifi r) = use_mac80211 w0 \/ use_mac80211 (o_wifi r) = 1) /\
  (forall x, In (ifconfig_interface_down x) (o_calls r) ->
     x = interface (o_wifi r) /\
     (exists cap, cap_interface (o_wifi r) = Some cap /\ x <> cap) /\
     flag_is_true "ignoreprimary" definition = false) /\
  (forall parent child flags,
     In (mac80211_create_monitor_vif parent child flags) (o_calls r) ->
     parent = interface (o_wifi r) /\ cap_interface (o_wifi r) = Some child /\
     parent <> child /\ flags = monitor_flags definition) /\
  (forall iface managed, In (nm_device_set_managed iface managed) (o_calls r) ->
     managed = 0 /\ reset_nm_management (o_wifi r) <> 0) /\
  (forall ifname m, In (iwconfig_set_mode ifname m) (o_calls r) ->
     ifname = interface (o_wifi r) /\ m = LINUX_WLEXT_MONITOR /\
     get_mode_second a <> Some LINUX_WLEXT_MONITOR).
Proof.
  intros Hopen.
  destruct (open_callback_ways a w0 definition) as (r' & E & Hways).
  rewrite E in Hopen. injection Hopen as ->.
  destruct Hways as [(Hret & _ & Hcalls & Hw) | (ifname & hw & _ & _ & _ & _ & Hways)].
  { (* stopped before the address or the switch allowed anything *)
    split; [right; assumption |].
    split; [destruct Hw as [-> | [i ->]]; left; reflexivity |].
    repeat split; intros;
      destruct Hcalls as [Hc | [i Hc]]; rewrite Hc in H; split_in H; discriminate H. }
  cbv zeta in Hways.
  destruct Hways as [(Hret & Hcalls & Hw & _) | (mode & w2 & nmcalls & _ & Enm & Hways)].
  { split; [right; assumption |]. rewrite Hw, Hcalls.
    split; [left; reflexivity |].
    repeat split; intros;
      apply soft_calls_plain in H; destruct H as (H1 & H2 & H3 & H4);
      first [discriminate | exfalso; eapply H4; reflexivity]. }
  destruct (open_networkmanager_keeps _ _ _ _ Enm) as (Hi2 & Hc2 & Hu2 & Hnm & Hmanaged).
  assert (Hpre : forall c, In c ((if rfkill_soft a =? 1
        then [linux_sys_clear_rfkill ifname;
              info ("Removed soft-rfkill and enabled interface '" ++ ifname ++ "'")]
        else []) ++ nmcalls)%list ->
      is_parent_down c = false /\ is_create_vif c = false /\ is_set_mode c = false /\
      (forall i m, c = nm_device_set_managed i m -> m = 0 /\ reset_nm_management w2 <> 0)).
  { intros c Hc. apply in_app_or in Hc as [Hc | Hc].
    - apply soft_calls_plain in Hc as (H1 & H2 & H3 & H4).
      repeat split; try assumption; exfalso; eapply H4; eassumption.
    - destruct (Hnm c Hc) as (H1 & H2 & H3). repeat split; try assumption;
        subst c; eapply Hmanaged; eassumption. }
  destruct Hways as [(Hret & Hcalls & Hw) | (cap & h & c & f & Hways)].
  { split; [right; assumption |]. rewrite Hw, Hcalls.
    split; [left; cbn in Hu2; exact Hu2 |].
    repeat split; intros; destruct (Hpre _ H) as (H1 & H2 & H3 & H4);
      first [discriminate | eapply H4; reflexivity]. }
  cbv zeta in Hways. destruct Hways as [_ Hways].
  pose proof (open_monitor_calls a (set_handles (set_cap_interface w2 cap) h c f)
                definition cap match get_mode_second a with Some m => m | None => -1 end)
    as Hmon.
  assert (Hsecond : forall m, match get_mode_second a with Some m => m | None => -1 end
                              <> LINUX_WLEXT_MONITOR ->
                      m = LINUX_WLEXT_MONITOR -> get_mode_second a <> Some m).
  { intros m Hne -> Es. rewrite Es in Hne. congruence. }
  destruct Hways as [(msg & mcalls & Emon & Hret & Hcalls & Hw) |
                     (w5 & mcalls & Emon & ->)].
  - rewrite Emon in Hmon. cbv zeta in Hmon. destruct Hmon as (Hd & Hn & Hv & Hs).
    split; [right; assumption |]. rewrite Hw, Hcalls.
    split; [left; cbn; cbn in Hu2; exact Hu2 |].
    repeat split; intros; apply in_app_or in H as [H | H];
      try (destruct (Hpre _ H) as (H1 & H2 & H3 & H4);
           first [discriminate | eapply H4; reflexivity]);
      try (apply Hd in H; discriminate H);
      try (apply Hn in H; contradiction);
      try (apply Hv in H; destruct H as (-> & -> & Hne & -> & _); cbn;
           first [reflexivity | assumption]);
      try (apply Hs in H; destruct H as (-> & -> & Hne); cbn;
           first [reflexivity | apply Hsecond; [assumption | reflexivity]]).
  - rewrite Emon in Hmon. cbv zeta in Hmon. destruct Hmon as (Hd & Hn & Hv & Hs).
    destruct (open_monitor_keeps _ _ _ _ _ _ _ Emon) as (Hi5 & Hc5 & Hr5 & Hu5).
    pose proof (open_capture_keeps a w5 definition cap (Some (open_uuid hw))
                  (((if rfkill_soft a =? 1
                     then [linux_sys_clear_rfkill ifname;
                           info ("Removed soft-rfkill and enabled interface '" ++
                                 ifname ++ "'")]
                     else []) ++ nmcalls) ++ mcalls)%list) as Hk.
    cbv zeta in Hk. destruct Hk as (Hi6 & Hc6 & Hr6 & Hu6 & _ & Hret).
    destruct (open_capture_calls a w5 definition cap (Some (open_uuid hw))
                (((if rfkill_soft a =? 1
                   then [linux_sys_clear_rfkill ifname;
                         info ("Removed soft-rfkill and enabled interface '" ++
                               ifname ++ "'")]
                   else []) ++ nmcalls) ++ mcalls)%list)
      as (more & Ecalls & Hmore & Hmn & Hmd & _).
    split; [assumption |].
    rewrite Hi6, Hc6, Hr6, Hu6, Hi5, Hc5, Hr5, Ecalls. cbn in Hu5. cbn.
    split; [destruct Hu5 as [-> | ->]; [left; exact Hu2 | right; reflexivity] |].
    repeat split; intros; apply in_app_or in H as [H | H];
      try (apply in_app_or in H as [H | H]);
      try (destruct (Hpre _ H) as (H1 & H2 & H3 & H4);
           first [discriminate | eapply H4; reflexivity]);
      try (apply Hd in H; discriminate H);
      try (apply Hn in H; contradiction);
      try (apply Hmn in H; contradiction);
      try (apply Hmore in H; destruct H as [H1 H2]; discriminate);
      try (apply Hv in H; destruct H as (-> & -> & Hne & -> & _); cbn;
           first [reflexivity | assumption]);
      try (apply Hs in H; destruct H as (-> & -> & Hne); cbn;
           first [reflexivity | apply Hsecond; [assumption | reflexivity]]);
      try (apply Hmd in H; destruct H as (-> & Hne & Hign);
           rewrite Hi5 in Hne; cbn in Hne; rewrite ?Hi5; cbn;
           first [reflexivity | assumption
                 | eexists; split; [reflexivity | assumption]]).
Qed.

End OpenTheorems.

Section OpenResults.

Context {hdr : headers}.

(** An open always comes to an end with 1 or -1: wherever the program
    compares [cap_interface], a name has been put there before. *)
Theorem open_callback_total (a : open_answers) (w : local_wifi_t) (definition : string) :
  exists r, open_callback a w definition = Some r /\ (o_ret r = 1 \/ o_ret r = -1).
Proof.
  destruct (open_callback_ways a w definition) as (r & E & _).
  exists r. split; [exact E |]. apply (open_callback_facts a w definition r E).
Qed.

(** With the hardware switch off the open fails at once: nothing has been
    called and no UUID is given. *)
Theorem open_hard_rfkill (a : open_answers) (w : local_wifi_t) (definition : string) :
  rfkill_hard a = 1 ->
  exists r, open_callback a w definition = Some r /\
            o_ret r = -1 /\ o_calls r = [] /\ o_uuid r = None.
Proof.
  intros Hhard. unfold open_callback. rewrite Hhard. cbn [Z.eqb Pos.eqb].
  destruct (parse_interface a) as [i |]; [destruct (get_hwaddr a i) |];
    eexists; (split; [reflexivity |]); repeat split.
Qed.

(** Open never turns the netlink channel requests off: if the state had
    them on before, as [main] sets it, it has them on afterwards, also when
    the netlink session was given up, and no call of the controller on the
    state that open leaves ever calls [iwconfig_set_channel], whatever the
    driver answers, the sequence number and the channel. *)
Theorem open_keeps_netlink_requests (a : open_answers) (w : local_wifi_t)
    (definition : string) (r : open_result) :
  open_callback a w definition = Some r -> use_mac80211 w <> 0 ->
  use_mac80211 (o_wifi r) <> 0 /\
  forall (drv : driver) (seqno : Z) (privchan : option local_channel_t)
         (ifname : string) (f : Z),
    let '(_, _, _, calls) := chancontrol_callback drv (o_wifi r) seqno privchan in
    ~ In (iwconfig_set_channel ifname f) calls.
Proof.
  intros E Hnl.
  destruct (open_callback_facts a w definition r E) as (_ & Hu & _).
  assert (Hnl' : use_mac80211 (o_wifi r) <> 0) by (destruct Hu as [-> | ->]; [assumption | lia]).
  split; [assumption |]. intros drv seqno privchan ifname f.
  apply chancontrol_netlink_no_ioctl. assumption.
Qed.

(** The parent interface is taken down only under its own name, only when
    the capture interface has another name, and never when the definition
    sets [ignoreprimary]. *)
Theorem open_parent_down (a : open_answers) (w : local_wifi_t) (definition : string)
    (r : open_result) (x : string) :
  open_callback a w definition = Some r ->
  In (ifconfig_interface_down x) (o_calls r) ->
  x = interface (o_wifi r) /\
  (exists cap, cap_interface (o_wifi r) = Some cap /\ x <> cap) /\
  flag_is_true "ignoreprimary" definition = false.
Proof.
  intros E. destruct (open_callback_facts a w definition r E) as (_ & _ & H & _).
  apply H.
Qed.

(** A monitor interface is only ever created on the interface of the
    definition, under the name that ends up as capture interface, which is
    another name, and with the flags CONTROL and OTHER_BSS followed by
    FCSFAIL and PLCPFAIL where the definition sets them. *)
Theorem open_monitor_vif_request (a : open_answers) (w : local_wifi_t)
    (definition : string) (r : open_result) (parent child : string) (flags : list Z) :
  open_callback a w definition = Some r ->
  In (mac80211_create_monitor_vif parent child flags) (o_calls r) ->
  parent = interface (o_wifi r) /\ cap_interface (o_wifi r) = Some child /\
  parent <> child /\ flags = monitor_flags definition.
Proof.
  intros E. destruct (open_callback_facts a w definition r E) as (_ & _ & _ & H & _).
  apply H.
Qed.

(** NetworkManager is only ever told to stop managing, and whenever it is
    told so the state records that management has to be given back, also
    when the open fails afterwards. *)
Theorem open_unmanage_recorded (a : open_answers) (w : local_wifi_t)
    (definition : string) (r : open_result) (iface : string) (managed : Z) :
  open_callback a w definition = Some r ->
  In (nm_device_set_managed iface managed) (o_calls r) ->
  managed = 0 /\ reset_nm_management (o_wifi r) <> 0.
Proof.
  intros E. destruct (open_callback_facts a w definition r E) as (_ & _ & _ & _ & H & _).
  apply H.
Qed.

(** The wireless mode is only ever set on the interface of the definition,
    to monitor, and not when the second query answered monitor. *)
Theorem open_set_mode_request (a : open_answers) (w : local_wifi_t)
    (definition : string) (r : open_result) (ifname : string) (m : Z) :
  open_callback a w definition = Some r ->
  In (iwconfig_set_mode ifname m) (o_calls r) ->
  ifname = interface (o_wifi r) /\ m = LINUX_WLEXT_MONITOR /\
  get_mode_second a <> Some LINUX_WLEXT_MONITOR.
Proof.
  intros E. destruct (open_callback_facts a w definition r E) as (_ & _ & _ & _ & _ & H).
  apply H.
Qed.

(** An open that returns 1 has the address and was not stopped by the
    hardware switch; its last two calls bring the capture interface up and
    open the capture on it with a snap length of 8192, promiscuous, with a
    timeout of 1000 ms; the state holds the capture handle, which is not
    null, and the link type of that capture; the UUID is the one of the
    address. *)
Theorem open_success (a : open_answers) (w : local_wifi_t) (definition : string)
    (r : open_result) :
  open_callback a w definition = Some r -> o_ret r = 1 ->
  exists cap hw before,
    cap_interface (o_wifi r) = Some cap /\
    parse_interface a = Some (interface (o_wifi r)) /\
    get_hwaddr a (interface (o_wifi r)) = inr hw /\ rfkill_hard a <> 1 /\
    o_uuid r = Some (open_uuid hw) /\
    o_calls r = (before ++ [ifconfig_interface_up cap;
                            pcap_open_live cap MAX_PACKET_LEN 1 1000])%list /\
    pd (o_wifi r) = fst (open_live a) /\ pd (o_wifi r) <> 0 /\
    datalink_type (o_wifi r) = datalink a /\
    o_chanlist r = snd (populate_chanlist (chanlists a) cap).
Proof.
  intros Hopen Hret.
  destruct (open_callback_ways a w definition) as (r' & E & Hways).
  rewrite E in Hopen. injection Hopen as ->.
  destruct Hways as [(Hfail & _) | (ifname & hw & Eif & Ehw & Hhard & Huuid & Hways)];
    [lia |].
  cbv zeta in Hways.
  destruct Hways as [(Hfail & _) | (mode & w2 & nmcalls & _ & Enm & Hways)]; [lia |].
  destruct Hways as [(Hfail & _) | (cap & h & c & f & Hways)]; [lia |].
  cbv zeta in Hways. destruct Hways as [_ Hways].
  destruct Hways as [(msg & mcalls & _ & Hfail & _) | (w5 & mcalls & Emon & ->)]; [lia |].
  destruct (open_networkmanager_keeps _ _ _ _ Enm) as (Hi2 & _).
  destruct (open_monitor_keeps _ _ _ _ _ _ _ Emon) as (Hi5 & Hc5 & _).
  match type of Hret with
  | o_ret (open_capture ?a ?w ?d ?c ?u ?calls) = 1 =>
      pose proof (open_capture_keeps a w d c u calls) as Hk;
      destruct (open_capture_calls a w d c u calls) as (more & Ecalls & _ & _ & _ & Hok)
  end.
  cbv zeta in Hk. destruct Hk as (Hi6 & Hc6 & _).
  destruct (Hok Hret) as (before & Emore & _ & Hpd & Hpd0 & _ & Hdl & Hlist).
  assert (Ename : interface
            (o_wifi (open_capture a w5 definition cap (Some (open_uuid hw))
                       (((if rfkill_soft a =? 1
                          then [linux_sys_clear_rfkill ifname;
                                info ("Removed soft-rfkill and enabled interface '" ++
                                      ifname ++ "'")]
                          else []) ++ nmcalls) ++ mcalls)%list)) = ifname).
  { rewrite Hi6, Hi5. cbn [interface set_handles set_cap_interface]. rewrite Hi2.
    reflexivity. }
  rewrite Ename.
  eexists cap, hw, _.
  split; [rewrite Hc6, Hc5; reflexivity |]. split; [assumption |]. split; [assumption |].
  split; [assumption |]. split; [assumption |].
  split; [rewrite Ecalls, Emore, app_assoc; reflexivity |].
  split; [assumption |]. split; [rewrite Hpd; assumption |].
  split; assumption.
Qed.

End OpenResults.

(** ** The name of the monitor interface and the UUID in the whole open *)

Section OpenNaming.

Context {hdr : headers}.

(** An open that has the interface and its address and is not stopped by
    the switches gives the UUID of that address, and, once the mode is
    known, ends as the stage that settles [cap_interface] decides: stopped
    with its message, or with the name of that stage still in place. *)
Lemma open_callback_past_rfkill (a : open_answers) (w0 : local_wifi_t)
    (definition ifname : string) (hw : list Z) :
  parse_interface a = Some ifname -> get_hwaddr a ifname = inr hw ->
  rfkill_hard a <> 1 -> (rfkill_soft a = 1 -> 0 <= clear_rfkill a) ->
  exists r,
    open_callback a w0 definition = Some r /\
    o_uuid r = Some (open_uuid hw) /\
    forall mode, get_mode_first a = inr mode ->
      exists w2,
        interface w2 = ifname /\ cap_interface w2 = cap_interface w0 /\
        match open_cap_interface (names a) w2 definition hw mode with
        | inl msg => o_ret r = -1 /\ o_msg r = msg
        | inr w3 => cap_interface (o_wifi r) = cap_interface w3
        end.
Proof.
  intros Hparse Hhw Hhard Hsoft. unfold open_callback. rewrite Hparse, Hhw.
  destruct (Z.eqb_spec (rfkill_hard a) 1); [contradiction |].
  assert (Ekill : (rfkill_soft a =? 1) && (clear_rfkill a <? 0) = false).
  { destruct (Z.eqb_spec (rfkill_soft a) 1) as [Hs | _]; [| reflexivity].
    specialize (Hsoft Hs). cbn [andb]. apply Z.ltb_ge. assumption. }
  rewrite Ekill.
  destruct (get_mode_first a) as [errstr | mode].
  { eexists. split; [reflexivity |]. split; [reflexivity |]. intros mode [=]. }
  destruct (open_networkmanager (libnm a) (with_interface w0 ifname)) as [w2 nmcalls] eqn:Enm.
  destruct (open_networkmanager_keeps _ _ _ _ Enm) as (Hi2 & Hc2 & _).
  cbn [interface cap_interface with_interface] in Hi2, Hc2.
  destruct (open_cap_interface (names a) w2 definition hw mode) as [msg | w3] eqn:Ecap.
  { eexists. split; [reflexivity |]. split; [reflexivity |].
    intros mode' [= <-]. exists w2. rewrite Ecap. repeat split; assumption. }
  destruct (open_cap_interface_sets _ _ _ _ _ _ Ecap) as [cap ->].
  cbn [cap_interface set_cap_interface].
  destruct (connect a) as [cret [[h c] f]].
  set (w4 := if cret <? 0 then set_handles (set_cap_interface w2 cap) 0 0 0
             else set_handles (set_cap_interface w2 cap) h c f).
  assert (Hc4 : cap_interface w4 = Some cap) by (subst w4; destruct (cret <? 0); reflexivity).
  destruct (open_monitor a w4 definition cap
              match get_mode_second a with Some m => m | None => -1 end)
    as [[msg mcalls] | [w5 mcalls]] eqn:Emon.
  - eexists. split; [reflexivity |]. split; [reflexivity |].
    intros mode' [= <-]. exists w2. rewrite Ecap. repeat split; try assumption.
  - eexists. split; [reflexivity |]. split; [apply open_capture_keeps |].
    intros mode' [= <-]. exists w2. rewrite Ecap. repeat split; try assumption.
    destruct (open_monitor_keeps _ _ _ _ _ _ _ Emon) as (_ & Hc5 & _).
    match goal with
    | |- cap_interface (o_wifi (open_capture ?a ?w ?d ?c ?u ?calls)) = _ =>
        destruct (open_capture_keeps a w d c u calls) as (_ & Hc6 & _)
    end.
    rewrite Hc6, Hc5, Hc4. reflexivity.
Qed.

End OpenNaming.

(** C7, as the code has it.  An open that reaches the choice of a monitor
    name (the interface and its address are known, the switches allow it,
    the interface is not in monitor mode, [cap_interface] is unset, no
    [vif=] flag is given and no monitor interface with the same address is
    adopted) always comes to an end, and: for a parent name with
    [strlen + 3 < IFNAMSIZ], it fails with the message about the false
    monitor vif when [<parent>mon] answers the mode query with another mode
    than monitor, and otherwise, also when an interface of that name exists
    but does not answer the query, [<parent>mon] is the capture interface;
    for a longer parent name, [kismonN] is the capture interface for the
    least [N] in 0..99 for which no interface [kismonN] exists, and the
    open fails with the message about the hundred tries when all exist. *)
Theorem monitor_vif_name {hdr : headers} (a : open_answers) (w : local_wifi_t)
    (definition parent : string) (hwaddr : list Z) (mode : Z) :
  parse_interface a = Some parent -> get_hwaddr a parent = inr hwaddr ->
  rfkill_hard a <> 1 -> (rfkill_soft a = 1 -> 0 <= clear_rfkill a) ->
  get_mode_first a = inr mode -> mode <> LINUX_WLEXT_MONITOR ->
  cap_interface w = None ->
  cf_find_flag "vif" definition = None ->
  (let existing_ifnum :=
     find_interface_mode_by_mac (names a) (Some parent) LINUX_WLEXT_MONITOR hwaddr in
   existing_ifnum < 0 \/ if_indextoname (names a) existing_ifnum = None) ->
  exists r,
    open_callback a w definition = Some r /\
    ((String.length parent + 3 < IFNAMSIZ)%nat ->
       (forall m, iwconfig_get_mode (names a) (parent ++ "mon") = Some m ->
          m <> LINUX_WLEXT_MONITOR ->
          o_ret r = -1 /\ o_msg r = false_vif_text parent (parent ++ "mon")) /\
       (iwconfig_get_mode (names a) (parent ++ "mon") = None \/
        iwconfig_get_mode (names a) (parent ++ "mon") = Some LINUX_WLEXT_MONITOR ->
        cap_interface (o_wifi r) = Some (parent ++ "mon")%string)) /\
    ((IFNAMSIZ <= String.length parent + 3)%nat ->
       (forall N, 0 <= N < 100 ->
          if_nametoindex (names a) ("kismon" ++ Fmt.d N) = 0 ->
          (forall j, 0 <= j < N -> if_nametoindex (names a) ("kismon" ++ Fmt.d j) <> 0) ->
          cap_interface (o_wifi r) = Some ("kismon" ++ Fmt.d N)%string) /\
       ((forall j, 0 <= j < 100 -> if_nametoindex (names a) ("kismon" ++ Fmt.d j) <> 0) ->
        o_ret r = -1 /\ o_msg r = no_kismon_text parent)).
Proof.
  intros Hparse Hhw Hhard Hsoft Hfirst Hmode Hcap Hvif Hadopt.
  destruct (open_callback_past_rfkill a w definition parent hwaddr Hparse Hhw Hhard Hsoft)
    as (r & Eopen & _ & Hstage).
  destruct (Hstage mode Hfirst) as (w2 & Hi2 & Hc2 & Hout).
  exists r. split; [exact Eopen |].
  rewrite Hcap in Hc2. rewrite <- Hi2 in Hadopt.
  pose proof (open_cap_interface_name (names a) w2 definition hwaddr mode
                Hmode Hc2 Hvif Hadopt) as Hname.
  cbv zeta in Hname. rewrite Hi2 in Hname. destruct Hname as [Hshort Hlong].
  split.
  - intros Hlen. destruct (Hshort Hlen) as [Hfalse Hmon]. split.
    + intros m Em Hm. rewrite (Hfalse m Em Hm) in Hout. exact Hout.
    + intros Hq. destruct (Hmon Hq) as (w' & Ew' & Hcap'). rewrite Ew' in Hout.
      rewrite Hout. exact Hcap'.
  - intros Hlen. destruct (Hlong Hlen) as [Hfree Hnone]. split.
    + intros N HN H0 Hbefore. destruct (Hfree N HN H0 Hbefore) as (w' & Ew' & Hcap').
      rewrite Ew' in Hout. rewrite Hout. exact Hcap'.
    + intros Hall. rewrite (Hnone Hall) in Hout. exact Hout.
Qed.

(** C8, as the code has it.  The UUID that an open hands back is made of
    the address of the interface named in the definition, which is read
    before the capture interface is chosen: eight hexadecimal digits of the
    32-bit checksum of ["kismet_cap_linux_wifi"], the text
    [-0000-0000-0000-] and the two hexadecimal digits of each of the six
    address bytes in order, 36 characters, every digit one of [0-9A-F].  It
    is handed back as soon as the switches allow the open to go on, so with
    every open that returns 1, and an open hands back no other UUID; the
    text depends on nothing but the address. *)
Theorem open_uuid_form {hdr : headers} (a : open_answers) (w : local_wifi_t)
    (definition parent : string) (b0 b1 b2 b3 b4 b5 : Z) (r : open_result) :
  (37 <= STATUS_MAX)%nat ->
  open_callback a w definition = Some r ->
  parse_interface a = Some parent ->
  get_hwaddr a parent = inr [b0; b1; b2; b3; b4; b5] ->
  0 <= b0 < 256 -> 0 <= b1 < 256 -> 0 <= b2 < 256 ->
  0 <= b3 < 256 -> 0 <= b4 < 256 -> 0 <= b5 < 256 ->
  let csum := u32 (adler32_csum "kismet_cap_linux_wifi" 21) in
  let mac := (nibbles 2 b0 ++ nibbles 2 b1 ++ nibbles 2 b2 ++
              nibbles 2 b3 ++ nibbles 2 b4 ++ nibbles 2 b5)%string in
  let text := (nibbles 8 csum ++ "-0000-0000-0000-" ++ mac)%string in
  (rfkill_hard a <> 1 -> (rfkill_soft a = 1 -> 0 <= clear_rfkill a) ->
   o_uuid r = Some text) /\
  (o_ret r = 1 -> o_uuid r = Some text) /\
  (forall u, o_uuid r = Some u -> u = text) /\
  String.length text = 36%nat /\
  all_chars upper_hex (nibbles 8 csum ++ mac) = true.
Proof.
  intros Hmax Eopen Hparse Hhw H0 H1 H2 H3 H4 H5 csum mac text.
  destruct (open_uuid_shape b0 b1 b2 b3 b4 b5 Hmax H0 H1 H2 H3 H4 H5)
    as (Etext & Hlen & Hupper).
  cbv zeta in Etext, Hlen, Hupper. fold csum mac text in Etext, Hupper.
  rewrite Etext in Hlen.
  assert (Hany : forall u, o_uuid r = Some u -> u = text).
  { intros u Hu.
    destruct (open_callback_ways a w definition) as (r' & E & Hways).
    rewrite E in Eopen. injection Eopen as ->.
    destruct Hways as [(_ & Hnone & _) | (ifname & hw & Eif & Ehw & _ & Huuid & _)].
    - rewrite Hnone in Hu. discriminate Hu.
    - rewrite Hparse in Eif. injection Eif as <-.
      rewrite Hhw in Ehw. injection Ehw as <-.
      rewrite Huuid in Hu. injection Hu as <-. exact Etext. }
  split; [| split; [| split; [exact Hany | split; assumption]]].
  - intros Hhard Hsoft.
    destruct (open_callback_past_rfkill a w definition parent _ Hparse Hhw Hhard Hsoft)
      as (r' & E & Huuid & _).
    rewrite E in Eopen. injection Eopen as ->. rewrite Huuid, Etext. reflexivity.
  - intros Hret.
    destruct (open_callback_ways a w definition) as (r' & E & Hways).
    rewrite E in Eopen. injection Eopen as ->.
    destruct Hways as [(Hfail & _) | (ifname & hw & _ & _ & _ & Huuid & _)]; [lia |].
    rewrite (Hany _ Huuid) in Huuid. exact Huuid.
Qed.

(** ** Flags of the definition *)

Lemma strncasecmp_true (v : string) :
  (0 <? String.length v)%nat && strncasecmp_eq v "true" (String.length v) = true <->
  In (Ctype.lower v) ["t"; "tr"; "tru"; "true"].
Proof.
  destruct v as [| c1 [| c2 [| c3 [| c4 [| c5 t]]]]];
    cbn [strncasecmp_eq String.length Ctype.lower Nat.ltb Nat.leb andb];
    change (Ctype.tolower "t") with "t"%char; change (Ctype.tolower "r") with "r"%char;
    change (Ctype.tolower "u") with "u"%char; change (Ctype.tolower "e") with "e"%char;
    repeat match goal with
           | |- context [(?x =? ?y)%char] => destruct (Ascii.eqb_spec x y) as [-> | ?]
           end;
    cbn [andb In]; split; intros H;
    repeat match goal with
           | H : _ \/ _ |- _ => destruct H as [H | H]
           | H : False |- _ => destruct H
           end;
    try discriminate; try congruence; auto 6.
Qed.

(** A flag of the definition counts as set exactly when its value is a
    beginning of [true], in any mix of upper and lower case: [t], [tr],
    [tru] and [true] set it, a longer value does not. *)
Theorem flag_is_true_prefix {hdr : headers} (name definition value : string) :
  cf_find_flag name definition = Some value ->
  (flag_is_true name definition = true <->
   In (Ctype.lower value) ["t"; "tr"; "tru"; "true"]).
Proof.
  intros Hflag. unfold flag_is_true. rewrite Hflag. apply strncasecmp_true.
Qed.

(** ** The further statements at work *)

Ltac run_open E := vm_compute in E; first [discriminate E | injection E as <-].
Ltac pick := repeat (first [left; reflexivity | right]).

Lemma chantranslate_shape_witness :
  parsed_shape {| control_freq := 5180; chan_type := 0; chan_width := 3;
                  unusual_center1 := 0; center_freq1 := 5210; center_freq2 := 0 |}.
Proof. exact (@chantranslate_shape sample_headers "36VHT80" _ [] eq_refl). Defined.

Lemma chantranslate_narrow_witness :
  @chantranslate_callback sample_headers "2412w10" =
    (Some {| control_freq := 2412; chan_type := 0; chan_width := 7;
             unusual_center1 := 0; center_freq1 := 0; center_freq2 := 0 |}, []) /\
  @chantranslate_callback sample_headers "2412w10-2422" =
    (Some {| control_freq := 2412; chan_type := 0; chan_width := 7;
             unusual_center1 := 0; center_freq1 := 0; center_freq2 := 0 |}, []).
Proof.
  exact (@chantranslate_narrow sample_headers W10 2412 "w10" "2422" ltac:(lia) eq_refl).
Defined.

Lemma chantranslate_ht40_spelling_witness :
  fst (@chantranslate_callback sample_headers "36Ht40+") = Some (zeroed_channel 36) /\
  @chantranslate_callback sample_headers "36HT40+ and more" =
  @chantranslate_callback sample_headers "36HT40+".
Proof.
  destruct (@chantranslate_ht40_spelling sample_headers 36 "Ht40+" " and more")
    as (E & Hplus & _).
  - lia.
  - left; reflexivity.
  - discriminate.
  - discriminate.
  - split; [| exact Hplus].
    change "36Ht40+" with (Fmt.u 36 ++ "Ht40+")%string. rewrite E. reflexivity.
Defined.

Lemma text_of_parsed_text_witness :
  exists d' evs,
    @chantranslate_callback sample_headers "36HT40-" = (Some d', evs) /\
    @local_channel_to_str sample_headers d' = "36HT40-".
Proof.
  exact (@text_of_parsed_text sample_headers
           {| control_freq := 36; chan_type := 2; chan_width := 6;
              unusual_center1 := 0; center_freq1 := 5250; center_freq2 := 0 |}
           ltac:(simpl; lia) ltac:(simpl; lia) ltac:(simpl; lia) eq_refl).
Defined.

Lemma chancontrol_hops_never_fatal_witness :
  Forall (fun x : (driver * Z * option local_channel_t) * (Z * list event) =>
            snd (fst (fst x)) = 0 ->
            fst (snd x) = 0 /\ existsb is_fatal (snd (snd x)) = false)
    (combine [(refusing, 0, Some (zeroed_channel 6)); (refusing, 7, Some (zeroed_channel 6));
              (refusing, 0, Some (zeroed_channel 11))]
       (fst (@chancontrol_calls sample_headers
               [(refusing, 0, Some (zeroed_channel 6));
                (refusing, 7, Some (zeroed_channel 6));
                (refusing, 0, Some (zeroed_channel 11))] (opened_wifi 1 0)))).
Proof.
  apply (@chancontrol_hops_never_fatal sample_headers). simpl. lia.
Defined.

Lemma chancontrol_configure_refused_witness :
  @chancontrol_callback sample_headers refusing (opened_wifi 1 0) 7
    (Some (zeroed_channel 6)) =
  (-1, opened_wifi 1 0, Some "failed to set channel 6: Device or resource busy",
   [mac80211_set_channel_cache (Some "wlan0mon") 6 0]).
Proof.
  apply (@chancontrol_configure_refused sample_headers refusing (opened_wifi 1 0) 7
           (zeroed_channel 6)).
  - discriminate.
  - simpl. lia.
Defined.

Lemma parsed_channel_request_witness :
  (exists rest,
     [mac80211_set_frequency_cache (Some "wlan0mon") 5180 3 5210 0] =
     mac80211_set_frequency_cache (Some "wlan0mon") 5180 3 5210 0 :: rest) /\
  (exists rest,
     [mac80211_set_channel_cache (Some "wlan0mon") 36 3;
      cf_send_message
        "Could not set channel 36HT40+; ignoring error and continuing (Device or resource busy)"
        MSGFLAG_ERROR] =
     mac80211_set_channel_cache (Some "wlan0mon") 36 3 :: rest).
Proof.
  split.
  - destruct (@parsed_channel_request sample_headers "36VHT80" _ [] accepting
                (opened_wifi 1 0) 7 eq_refl) as (rest & E & _).
    + discriminate.
    + exists rest. exact E.
  - destruct (@parsed_channel_request sample_headers "36HT40+" _ [] refusing
                (opened_wifi 1 0) 0 eq_refl) as (rest & _ & _ & E).
    + discriminate.
    + exists rest. apply E. discriminate.
Defined.

Lemma capture_thread_delivers_witness :
  capture_thread (opened_wifi 1 0)
    [ {| p_header := {| ts := 0; caplen := 2 |}; p_data := [8; 0]; p_sends := [0; 1] |};
      {| p_header := {| ts := 1; caplen := 1 |}; p_data := [9]; p_sends := [1] |} ]
    EmptyString 0 0 =
  ([cf_send_data 127 2 [8; 0]; cf_handler_wait_ringbuffer; cf_send_data 127 2 [8; 0];
    cf_send_data 127 1 [9];
    cf_send_error "Interface 'wlan0mon' closed: interface closed";
    cf_send_error
      ("Interface 'wlan0mon' no longer appears to be up; This can happen when it is " ++
       "unplugged, or another service like DHCP or NetworKManager has taken over " ++
       "and shut it down on us.");
    cf_handler_spindown], true).
Proof.
  apply (capture_thread_delivers (opened_wifi 1 0)
           [ {| p_header := {| ts := 0; caplen := 2 |}; p_data := [8; 0];
                p_sends := [0; 1] |};
             {| p_header := {| ts := 1; caplen := 1 |}; p_data := [9]; p_sends := [1] |} ]
           EmptyString 0 0).
  repeat constructor; cbn; lia.
Defined.

Lemma pcap_loop_stops_after_error_witness :
  pcap_loop (opened_wifi 1 0)
    [ {| p_header := {| ts := 0; caplen := 2 |}; p_data := [8; 0]; p_sends := [-1; 1] |};
      {| p_header := {| ts := 1; caplen := 1 |}; p_data := [9]; p_sends := [1] |} ] =
  ([cf_send_data 127 2 [8; 0]; pcap_breakloop; cf_send_error "unable to send DATA frame";
    cf_handler_spindown; cf_send_data 127 2 [8; 0]], true).
Proof.
  apply (pcap_loop_stops_after_error (opened_wifi 1 0)
           {| p_header := {| ts := 0; caplen := 2 |}; p_data := [8; 0];
              p_sends := [-1; 1] |} _ (-1) [1]).
  - reflexivity.
  - lia.
  - constructor. lia.
Defined.

Lemma open_uuid_injective_witness :
  [0; 17; 34; 171; 205; 239] = [0; 17; 34; 171; 205; 239].
Proof.
  apply (@open_uuid_injective sample_headers 0 17 34 171 205 239 0 17 34 171 205 239).
  - simpl. lia.
  - repeat constructor; lia.
  - repeat constructor; lia.
  - reflexivity.
Defined.

Lemma populate_chanlist_parses_witness :
  populate_chanlist sample_iw_answers "wlan0" = (1, ["2412"; "2437"; "5180"]) /\
  map (@chantranslate_callback sample_headers) ["2412"; "2437"; "5180"] =
  [(Some (zeroed_channel 2412), []); (Some (zeroed_channel 2437), []);
   (Some (zeroed_channel 5180), [])].
Proof.
  apply (@populate_chanlist_parses sample_headers sample_iw_answers "wlan0" "no netlink"
           [2412; 2437; 5180]).
  - reflexivity.
  - reflexivity.
  - discriminate.
  - repeat constructor; lia.
Defined.

Lemma open_hard_rfkill_witness :
  exists r,
    @open_callback sample_headers (sample_open_answers 1 0) main_local_wifi "wlan0" =
    Some r /\ o_ret r = -1 /\ o_calls r = [] /\ o_uuid r = None.
Proof. apply (@open_hard_rfkill sample_headers). reflexivity. Defined.

Lemma open_keeps_netlink_requests_witness :
  match @open_callback sample_headers (sample_open_answers 0 (-1)) main_local_wifi "wlan0"
  with
  | Some r =>
      mac80211_handle (o_wifi r) = 0 /\ use_mac80211 (o_wifi r) <> 0 /\
      forall ifname f,
        ~ In (iwconfig_set_channel ifname f)
            (snd (@chancontrol_callback sample_headers accepting (o_wifi r) 7
                    (Some (zeroed_channel 6))))
  | None => False
  end.
Proof.
  destruct (@open_callback sample_headers (sample_open_answers 0 (-1)) main_local_wifi "wlan0")
    as [r |] eqn:E.
  - pose proof (@open_keeps_netlink_requests sample_headers _ _ _ r E) as T.
    run_open E. split; [reflexivity |].
    destruct T as [Hnl Hcalls]; [discriminate |]. split; [exact Hnl |].
    intros ifname f. exact (Hcalls accepting 7 (Some (zeroed_channel 6)) ifname f).
  - run_open E.
Defined.

Lemma open_parent_down_witness :
  match @open_callback sample_headers (sample_open_answers 0 0) main_local_wifi "wlan0" with
  | Some r =>
      "wlan0" = interface (o_wifi r) /\
      (exists cap, cap_interface (o_wifi r) = Some cap /\ "wlan0" <> cap) /\
      @flag_is_true sample_headers "ignoreprimary" "wlan0" = false
  | None => False
  end.
Proof.
  destruct (@open_callback sample_headers (sample_open_answers 0 0) main_local_wifi "wlan0")
    as [r |] eqn:E.
  - pose proof (@open_parent_down sample_headers _ _ _ r "wlan0" E) as T.
    run_open E. apply T. vm_compute. pick.
  - run_open E.
Defined.

Lemma open_monitor_vif_request_witness :
  match @open_callback (sample_headers_flag "tR") (sample_open_answers 0 0)
          main_local_wifi "wlan0" with
  | Some r =>
      "wlan0" = interface (o_wifi r) /\ cap_interface (o_wifi r) = Some "wlan0mon" /\
      "wlan0" <> "wlan0mon" /\
      [3; 4; 1; 2] = @monitor_flags (sample_headers_flag "tR") "wlan0"
  | None => False
  end.
Proof.
  destruct (@open_callback (sample_headers_flag "tR") (sample_open_answers 0 0)
              main_local_wifi "wlan0") as [r |] eqn:E.
  - pose proof (@open_monitor_vif_request (sample_headers_flag "tR") _ _ _ r
                  "wlan0" "wlan0mon" [3; 4; 1; 2] E) as T.
    run_open E. apply T. vm_compute. pick.
  - run_open E.
Defined.

Lemma open_unmanage_recorded_witness :
  match @open_callback sample_headers (sample_open_answers 0 0) main_local_wifi "wlan0" with
  | Some r => 0 = 0 /\ reset_nm_management (o_wifi r) <> 0
  | None => False
  end.
Proof.
  destruct (@open_callback sample_headers (sample_open_answers 0 0) main_local_wifi "wlan0")
    as [r |] eqn:E.
  - pose proof (@open_unmanage_recorded sample_headers _ _ _ r "wlan0" 0 E) as T.
    run_open E. apply T. vm_compute. pick.
  - run_open E.
Defined.

Lemma open_set_mode_request_witness :
  match @open_callback sample_headers (sample_open_answers 0 (-1)) main_local_wifi "wlan0"
  with
  | Some r =>
      "wlan0" = interface (o_wifi r) /\ 6 = @LINUX_WLEXT_MONITOR sample_headers /\
      get_mode_second (sample_open_answers 0 (-1)) <> Some (@LINUX_WLEXT_MONITOR sample_headers)
  | None => False
  end.
Proof.
  destruct (@open_callback sample_headers (sample_open_answers 0 (-1)) main_local_wifi "wlan0")
    as [r |] eqn:E.
  - pose proof (@open_set_mode_request sample_headers _ _ _ r "wlan0" 6 E) as T.
    run_open E. apply T. vm_compute. pick.
  - run_open E.
Defined.

Lemma open_success_witness :
  match @open_callback sample_headers (sample_open_answers 0 0) main_local_wifi "wlan0" with
  | Some r =>
      exists cap hw before,
        cap_interface (o_wifi r) = Some cap /\
        parse_interface (sample_open_answers 0 0) = Some (interface (o_wifi r)) /\
        get_hwaddr (sample_open_answers 0 0) (interface (o_wifi r)) = inr hw /\
        rfkill_hard (sample_open_answers 0 0) <> 1 /\
        o_uuid r = Some (@open_uuid sample_headers hw) /\
        o_calls r = (before ++ [ifconfig_interface_up cap;
                                pcap_open_live cap MAX_PACKET_LEN 1 1000])%list /\
        pd (o_wifi r) = fst (open_live (sample_open_answers 0 0)) /\ pd (o_wifi r) <> 0 /\
        datalink_type (o_wifi r) = datalink (sample_open_answers 0 0) /\
        o_chanlist r = snd (populate_chanlist (chanlists (sample_open_answers 0 0)) cap)
  | None => False
  end.
Proof.
  destruct (@open_callback sample_headers (sample_open_answers 0 0) main_local_wifi "wlan0")
    as [r |] eqn:E.
  - pose proof (@open_success sample_headers _ _ _ r E) as T.
    run_open E. apply T. reflexivity.
  - run_open E.
Defined.

Lemma flag_is_true_prefix_witness :
  @flag_is_true (sample_headers_flag "tR") "fcsfail" "wlan0" = true <->
  In "tr" ["t"; "tr"; "tru"; "true"].
Proof.
  apply (@flag_is_true_prefix (sample_headers_flag "tR") "fcsfail" "wlan0" "tR").
  reflexivity.
Defined.

Lemma monitor_vif_name_witness :
  (exists r,
     @open_callback sample_headers
       (with_names (sample_open_answers 0 0)
          (sample_kernel [("wlan0", 2); ("wlan0mon", 2)]))
       main_local_wifi "wlan0" = Some r /\
     o_ret r = -1 /\ o_msg r = @false_vif_text sample_headers "wlan0" "wlan0mon") /\
  (exists r,
     @open_callback sample_headers
       (with_parse_interface
          (with_names (sample_open_answers 0 0)
             (sample_kernel [("wlx00c0ca957abc", 2); ("kismon0", 6)]))
          "wlx00c0ca957abc")
       main_local_wifi "wlx00c0ca957abc" = Some r /\
     cap_interface (o_wifi r) = Some "kismon1").
Proof.
  split.
  - destruct (@monitor_vif_name sample_headers
                (with_names (sample_open_answers 0 0)
                   (sample_kernel [("wlan0", 2); ("wlan0mon", 2)]))
                main_local_wifi "wlan0" "wlan0" [0; 17; 34; 171; 205; 239] 2)
      as (r & E & Hshort & _).
    + reflexivity.
    + reflexivity.
    + discriminate.
    + discriminate.
    + reflexivity.
    + discriminate.
    + reflexivity.
    + reflexivity.
    + left. reflexivity.
    + exists r. split; [exact E |].
      destruct Hshort as [Hfail _]; [simpl; unfold IFNAMSIZ; lia |].
      apply (Hfail 2); [reflexivity | discriminate].
  - destruct (@monitor_vif_name sample_headers
                (with_parse_interface
                   (with_names (sample_open_answers 0 0)
                      (sample_kernel [("wlx00c0ca957abc", 2); ("kismon0", 6)]))
                   "wlx00c0ca957abc")
                main_local_wifi "wlx00c0ca957abc" "wlx00c0ca957abc"
                [2; 17; 34; 171; 205; 239] 2)
      as (r & E & _ & Hlong).
    + reflexivity.
    + reflexivity.
    + discriminate.
    + discriminate.
    + reflexivity.
    + discriminate.
    + reflexivity.
    + reflexivity.
    + left. reflexivity.
    + exists r. split; [exact E |].
      destruct Hlong as [Hname _]; [simpl; unfold IFNAMSIZ; lia |].
      apply (Hname 1); [lia | reflexivity |].
      intros j Hj. assert (j = 0) as -> by lia. discriminate.
Defined.

(** The claim of C7 about an existing interface fails for one that does
    not answer the mode query: with a card [wlan0] in managed mode, no
    [vif=] flag, no interface to adopt, and an interface [wlan0mon] that
    exists and is not in monitor mode because it is not a wireless
    interface at all, the open does not fail; it returns 1 and captures
    from [wlan0mon]. *)
Lemma monitor_vif_unqueried_goes_on :
  if_nametoindex (sample_kernel_wired [("wlan0", 2)] ["wlan0mon"]) "wlan0mon" <> 0 /\
  iwconfig_get_mode (sample_kernel_wired [("wlan0", 2)] ["wlan0mon"]) "wlan0mon" <>
    Some (@LINUX_WLEXT_MONITOR sample_headers) /\
  @cf_find_flag sample_headers "vif" "wlan0" = None /\
  @find_interface_mode_by_mac (sample_kernel_wired [("wlan0", 2)] ["wlan0mon"])
    (Some "wlan0") (@LINUX_WLEXT_MONITOR sample_headers) [0; 17; 34; 171; 205; 239] = -1 /\
  exists r,
    @open_callback sample_headers
      (with_names (sample_open_answers 0 0)
         (sample_kernel_wired [("wlan0", 2)] ["wlan0mon"]))
      main_local_wifi "wlan0" = Some r /\
    o_ret r = 1 /\ cap_interface (o_wifi r) = Some "wlan0mon".
Proof.
  split; [discriminate |]. split; [discriminate |]. split; [reflexivity |].
  split; [reflexivity |].
  eexists. split; [vm_compute; reflexivity |]. split; reflexivity.
Qed.

Lemma open_uuid_form_witness :
  exists r,
    @open_callback sample_headers (sample_open_answers 0 0) main_local_wifi "wlan0" =
    Some r /\
    o_uuid r = Some "5FF808BE-0000-0000-0000-001122ABCDEF".
Proof.
  destruct (@open_callback sample_headers (sample_open_answers 0 0) main_local_wifi "wlan0")
    as [r |] eqn:E; [| run_open E].
  exists r. split; [reflexivity |].
  destruct (@open_uuid_form sample_headers (sample_open_answers 0 0) main_local_wifi
              "wlan0" "wlan0" 0 17 34 171 205 239 r) as (Hout & _);
    [simpl; lia | exact E | reflexivity | reflexivity | lia | lia | lia | lia | lia | lia |].
  rewrite Hout; [reflexivity | discriminate | discriminate].
Defined.

(** The claim of C8 about the capture interface fails where the capture
    interface has another address than the interface of the definition:
    with [vif=mon7] the open returns 1 and captures from [mon7], whose
    address is 02:11:22:AB:CD:EF, and the UUID still ends in the address
    00:11:22:AB:CD:EF of [wlan0]. *)
Lemma open_uuid_not_of_capture_interface :
  exists r,
    @open_callback (sample_headers_vif "mon7") (sample_open_answers 0 0) main_local_wifi
      "wlan0:vif=mon7" = Some r /\
    o_ret r = 1 /\ interface (o_wifi r) = "wlan0" /\
    cap_interface (o_wifi r) = Some "mon7" /\
    get_hwaddr (sample_open_answers 0 0) "wlan0" = inr [0; 17; 34; 171; 205; 239] /\
    get_hwaddr (sample_open_answers 0 0) "mon7" = inr [2; 17; 34; 171; 205; 239] /\
    o_uuid r = Some "5FF808BE-0000-0000-0000-001122ABCDEF" /\
    o_uuid r <> Some (@open_uuid (sample_headers_vif "mon7") [2; 17; 34; 171; 205; 239]).
Proof.
  eexists. split; [vm_compute; reflexivity |].
  repeat (split; [reflexivity |]). vm_compute. discriminate.
Qed.
